(** * sales-bonus: seller metrics and bonus rules ([src/main.js])

    Two shallow embeddings of [main.js] and the properties of its
    functions.

    The first embedding follows the control flow of the program over
    exact numbers.  Its properties speak of what does not depend on
    rounding: which checks throw, which records and items are counted,
    the order in which objects enumerate their keys and sorts leave their
    elements, comparisons between given numbers, counts, and who is named
    by a rule.
    - A finite JavaScript number is an exact rational ([Q]); the three
      non-finite results the program can produce (a division by zero, the
      empty [Math.max], arithmetic on [undefined]) are the extra
      constructors of [number].
    - A plain object used as a dictionary is a [JsObject.t]: its own string
      keyed properties in creation order.  Enumeration ([Object.entries])
      follows the language: array-index keys first, ascending, then the
      other keys in creation order.  Property names are taken to differ
      from the members of [Object.prototype]; a property that needs it
      says so in its statement ([plainRecords]).

    The second embedding, the module [Double], follows the arithmetic of
    the program and its lookups through the prototype chain.  Its
    properties are those that state a figure, a sum, the boundary of a
    tolerance, the existence of a bucket or an error of a lookup.
    - A number is an IEEE-754 binary64 value ([float]); every operation
      rounds as the language does, and [toFixed(2)] rounds the exact value
      of its binary64 argument.
    - A lookup [o[key]] on a plain object finds the own property [key] or
      else the member of [Object.prototype] of that name ([inherited]).

    Conventions common to both.
    - A [throw] or a failing dereference is the [Throw] result of
      [outcome]; an injected strategy is a function into [outcome].
    - [Array.prototype.sort] is the stable sort; with the comparators of
      the program, differences of finite numbers, its result is the one
      computed here by insertion.
    - [new Date(key)] is modelled for the month keys [YYYY-MM], which the
      language specifies; the properties of [bonusStableGrowth] in
      binary64 are stated for records dated in that form
      ([validMonth]). *)

From Stdlib Require Import Floats.
From Stdlib Require Uint63.
From Stdlib Require Import String Ascii List Bool Arith ZArith NArith QArith Qabs Qround Lia Lqa Permutation Sorted.
Set Warnings "-inexact-float".
Import ListNotations.

Local Open Scope string_scope.
Local Open Scope list_scope.
Local Open Scope Q_scope.

(** ** Numbers *)

Definition Qlt_bool (x y : Q) : bool := negb (Qle_bool y x).

(** [+x.toFixed(2)] on a finite number: the nearest multiple of 1/100, a
    tie going away from zero. *)
Definition toFixed2 (x : Q) : Q :=
  if Qle_bool 0 x
  then inject_Z (Qfloor (x * 100 + (1 # 2))) / 100
  else - (inject_Z (Qfloor ((- x) * 100 + (1 # 2))) / 100).

Inductive number : Type :=
| Fin (q : Q)
| PosInfinity
| NegInfinity
| NaN.

(** [x / y] on finite operands. *)
Definition divide (x y : Q) : number :=
  if Qeq_bool y 0
  then (if Qeq_bool x 0 then NaN
        else if Qlt_bool 0 x then PosInfinity else NegInfinity)
  else Fin (x / y).

(** [a > b]. *)
Definition gt (a b : number) : bool :=
  match a, b with
  | NaN, _ | _, NaN => false
  | Fin x, Fin y => Qlt_bool y x
  | PosInfinity, PosInfinity => false
  | PosInfinity, _ => true
  | Fin _, NegInfinity => true
  | _, _ => false
  end.

(** [x || 0] on a number: zero and NaN are falsy. *)
Definition orZero (x : number) : number :=
  match x with
  | NaN => Fin 0
  | Fin q => if Qeq_bool q 0 then Fin 0 else x
  | _ => x
  end.

(** [+x.toFixed(2)] on any number. *)
Definition toFixed2n (x : number) : number :=
  match x with
  | Fin q => Fin (toFixed2 q)
  | _ => x
  end.

(** ** Results of fallible code *)

Inductive exn : Type :=
| TypeError
| Error (message : string).

Inductive outcome (A : Type) : Type :=
| Ok (a : A)
| Throw (e : exn).
Arguments Ok {A} a.
Arguments Throw {A} e.

Definition bind {A B} (m : outcome A) (k : A -> outcome B) : outcome B :=
  match m with
  | Ok a => k a
  | Throw e => Throw e
  end.

Notation "x <- m ;; k" := (bind m (fun x => k))
  (at level 61, m at next level, right associativity).

(** [forEach] / [reduce] with a body that may throw. *)
Fixpoint foldM {A S} (step : S -> A -> outcome S) (l : list A) (s : S) : outcome S :=
  match l with
  | [] => Ok s
  | x :: r => s' <- step s x ;; foldM step r s'
  end.

(** [map] with a callback that may throw. *)
Fixpoint mapM {A B} (f : A -> outcome B) (l : list A) : outcome (list B) :=
  match l with
  | [] => Ok []
  | x :: r => y <- f x ;; ys <- mapM f r ;; Ok (y :: ys)
  end.

(** ** Objects used as dictionaries *)

Module JsObject.

(** Own properties, oldest first. *)
Definition t (V : Type) : Type := list (string * V).

Definition empty {V} : t V := [].

(** [o[k]]; [None] is [undefined]. *)
Fixpoint get {V} (o : t V) (k : string) : option V :=
  match o with
  | [] => None
  | (k', v) :: r => if String.eqb k' k then Some v else get r k
  end.

(** [o[k] = v]: an existing property keeps its place, a new one goes
    last. *)
Fixpoint set {V} (o : t V) (k : string) (v : V) : t V :=
  match o with
  | [] => [(k, v)]
  | (k', v') :: r =>
      if String.eqb k' k then (k', v) :: r else (k', v') :: set r k v
  end.

(** An assignment through [o[k]] to the object stored there. *)
Fixpoint modify {V} (o : t V) (k : string) (f : V -> V) : t V :=
  match o with
  | [] => []
  | (k', v') :: r =>
      if String.eqb k' k then (k', f v') :: r else (k', v') :: modify r k f
  end.

Definition digit (c : ascii) : option N :=
  let n := N_of_ascii c in
  if ((48 <=? n) && (n <=? 57))%N then Some (n - 48)%N else None.

Fixpoint digits (s : string) (acc : N) : option N :=
  match s with
  | EmptyString => Some acc
  | String c r =>
      match digit c with
      | Some d => digits r (10 * acc + d)%N
      | None => None
      end
  end.

(** An array index: the canonical decimal form of an integer below
    2^32 - 1. *)
Definition arrayIndex (k : string) : option N :=
  match k with
  | EmptyString => None
  | String c r =>
      if (Ascii.eqb c "0" && negb (String.eqb r ""))%bool then None
      else match digits k 0 with
           | Some n => if (n <? 4294967295)%N then Some n else None
           | None => None
           end
  end.

Definition isIndex (k : string) : bool :=
  match arrayIndex k with Some _ => true | None => false end.

Definition indexOf (k : string) : N :=
  match arrayIndex k with Some n => n | None => 0%N end.

Fixpoint insertKey {V} (e : string * V) (l : list (string * V)) : list (string * V) :=
  match l with
  | [] => [e]
  | e' :: r =>
      if (indexOf (fst e) <=? indexOf (fst e'))%N then e :: l
      else e' :: insertKey e r
  end.

Definition ascending {V} (l : list (string * V)) : list (string * V) :=
  fold_right insertKey [] l.

(** [Object.entries(o)]: the own keys in the order of the language
    (OrdinaryOwnPropertyKeys), array indices ascending and then the other
    strings in creation order. *)
Definition entries {V} (o : t V) : list (string * V) :=
  ascending (filter (fun e => isIndex (fst e)) o)
  ++ filter (fun e => negb (isIndex (fst e))) o.

(** [Object.keys(o)]. *)
Definition keys {V} (o : t V) : list string := map fst (entries o).

(** [Object.fromEntries(l)]. *)
Definition fromEntries {V} (l : list (string * V)) : t V :=
  fold_left (fun o e => set o (fst e) (snd e)) l empty.

End JsObject.

(** ** Grouping (lines 7-14) *)

Definition groupBy {A} (array : list A) (keyFn : A -> string) : JsObject.t (list A) :=
  fold_left
    (fun acc item =>
       let key := keyFn item in
       let acc := match JsObject.get acc key with
                  | None => JsObject.set acc key []
                  | Some _ => acc
                  end in
       JsObject.modify acc key (fun bucket => bucket ++ [item]))
    array JsObject.empty.

(** ** Trend of a sequence (lines 22-51) *)

Record Trends : Type := {
  isStable : bool;
  isIncreasing : bool;
  isDecreasing : bool
}.

(** The [for] loop of lines 38-44 from index [i], [steps] iterations left;
    [false] is the [break] after [isStable = false]. *)
Fixpoint stableLoop (sequence : list Q) (tolerance : Q) (i steps : nat) : bool :=
  match steps with
  | O => true
  | S steps' =>
      let relativeChange :=
        divide (Qabs (nth i sequence 0 - nth (i - 1) sequence 0))
               (Qabs (nth (i - 1) sequence 0)) in
      if gt relativeChange (Fin tolerance) then false
      else stableLoop sequence tolerance (S i) steps'
  end.

(** The caller passes [tolerance]; the declared default is 0.05. *)
Definition analyzeSequence (sequence : list Q) (tolerance : Q) : Trends :=
  if (length sequence <? 2)%nat
  then {| isStable := true; isIncreasing := false; isDecreasing := false |}
  else
    let start := nth 0 sequence 0 in
    let end_ := nth (length sequence - 1) sequence 0 in
    let totalChange := end_ - start in
    {| isStable := stableLoop sequence tolerance 1 (length sequence - 1);
       isIncreasing := Qlt_bool 0 totalChange;
       isDecreasing := Qlt_bool totalChange 0 |}.

(** ** Average (lines 59-62): the empty list gives [NaN || 0]. *)
Definition calculateAverage (values : list Q) : Q :=
  let sum := fold_left Qplus values 0 in
  match values with
  | [] => 0
  | _ => sum / inject_Z (Z.of_nat (length values))
  end.

(** ** [Array.prototype.sort]

    The sort is stable; [cmp x y > 0] puts [x] after [y], and a comparator
    result of zero or NaN leaves the two in their order. *)
Fixpoint insertSorted {A} (cmp : A -> A -> number) (x : A) (l : list A) : list A :=
  match l with
  | [] => [x]
  | y :: r => if gt (cmp x y) (Fin 0) then y :: insertSorted cmp x r else x :: l
  end.

Definition sort {A} (cmp : A -> A -> number) (l : list A) : list A :=
  fold_right (insertSorted cmp) [] l.


(** ** The dataset *)

Module Product.
Record t : Type := { sku : string; purchase_price : Q }.
End Product.

Module Seller.
Record t : Type := {
  id : string;
  first_name : string;
  last_name : string;
  start_date : string;
  position : string
}.
End Seller.

Module Customer.
Record t : Type := { id : string }.
End Customer.

Module Item.
Record t : Type := {
  sku : string;
  sale_price : Q;
  quantity : Q;
  discount : Q
}.
End Item.

Module PurchaseRecord.
Record t : Type := {
  seller_id : string;
  customer_id : string;
  date : string;
  total_amount : Q;
  items : list Item.t
}.
End PurchaseRecord.

(** ** Aggregates of [baseMetrics] *)

Module SellerAggregate.
Record t : Type := {
  revenue : Q;
  profit : Q;
  items : list Item.t;
  customers : list string      (* a [Set], in insertion order *)
}.
End SellerAggregate.

Module CustomerAggregate.
Record t : Type := {
  revenue : Q;
  profit : Q;
  sellers : list string        (* a [Set], in insertion order *)
}.
End CustomerAggregate.

Module ProductAggregate.
Record t : Type := { quantity : Q; revenue : Q }.
End ProductAggregate.

Module Metrics.
Record t : Type := {
  sellers : JsObject.t SellerAggregate.t;
  customers : JsObject.t CustomerAggregate.t;
  products : JsObject.t ProductAggregate.t
}.
End Metrics.

(** [set.add(x)]. *)
Definition setAdd (s : list string) (x : string) : list string :=
  if existsb (String.eqb x) s then s else s ++ [x].

(** A profit strategy; the product is [None] when the lookup gave
    [undefined]. *)
Definition ProfitFn : Type := Item.t -> option Product.t -> outcome Q.

(** [item.sale_price * item.quantity * (1 - item.discount / 100)]. *)
Definition lineRevenue (item : Item.t) : Q :=
  Item.sale_price item * Item.quantity item * (1 - Item.discount item / 100).

(** Lines 203-205; reading [purchase_price] of [undefined] throws. *)
Definition simpleProfit : ProfitFn :=
  fun item product =>
    match product with
    | Some p => Ok (lineRevenue item - Product.purchase_price p * Item.quantity item)
    | None => Throw TypeError
    end.

(** [products.find(p => p.sku === item.sku)]. *)
Definition findProduct (products : list Product.t) (item : Item.t) : option Product.t :=
  find (fun p => String.eqb (Product.sku p) (Item.sku item)) products.

(** ** The metrics accumulator (lines 214-245) *)

(** The body of [record.items.forEach] (lines 222-241).  The seller and
    customer buckets exist when it runs (lines 219-220). *)
Definition accumulateItem (calculateProfit : ProfitFn) (products : list Product.t)
    (sellerId customerId : string) (acc : Metrics.t) (item : Item.t) : outcome Metrics.t :=
  let product := findProduct products item in
  profit <- calculateProfit item product ;;
  let sellers :=
    JsObject.modify (Metrics.sellers acc) sellerId (fun s =>
      {| SellerAggregate.revenue := SellerAggregate.revenue s + lineRevenue item;
         SellerAggregate.profit := SellerAggregate.profit s + profit;
         SellerAggregate.items := SellerAggregate.items s ++ [item];
         SellerAggregate.customers := setAdd (SellerAggregate.customers s) customerId |}) in
  let customers :=
    JsObject.modify (Metrics.customers acc) customerId (fun c =>
      {| CustomerAggregate.revenue := CustomerAggregate.revenue c + lineRevenue item;
         CustomerAggregate.profit := CustomerAggregate.profit c + profit;
         CustomerAggregate.sellers := setAdd (CustomerAggregate.sellers c) sellerId |}) in
  let products0 :=
    match JsObject.get (Metrics.products acc) (Item.sku item) with
    | None => JsObject.set (Metrics.products acc) (Item.sku item)
                {| ProductAggregate.quantity := 0; ProductAggregate.revenue := 0 |}
    | Some _ => Metrics.products acc
    end in
  let products1 :=
    JsObject.modify products0 (Item.sku item) (fun p =>
      {| ProductAggregate.quantity := ProductAggregate.quantity p + Item.quantity item;
         ProductAggregate.revenue := ProductAggregate.revenue p + lineRevenue item |}) in
  Ok {| Metrics.sellers := sellers; Metrics.customers := customers; Metrics.products := products1 |}.

(** The body of [records.reduce] (lines 215-244). *)
Definition accumulateRecord (calculateProfit : ProfitFn) (products : list Product.t)
    (acc : Metrics.t) (record : PurchaseRecord.t) : outcome Metrics.t :=
  let sellerId := PurchaseRecord.seller_id record in
  let customerId := PurchaseRecord.customer_id record in
  let sellers :=
    match JsObject.get (Metrics.sellers acc) sellerId with
    | None => JsObject.set (Metrics.sellers acc) sellerId
                {| SellerAggregate.revenue := 0; SellerAggregate.profit := 0;
                   SellerAggregate.items := []; SellerAggregate.customers := [] |}
    | Some _ => Metrics.sellers acc
    end in
  let customers :=
    match JsObject.get (Metrics.customers acc) customerId with
    | None => JsObject.set (Metrics.customers acc) customerId
                {| CustomerAggregate.revenue := 0; CustomerAggregate.profit := 0;
                   CustomerAggregate.sellers := [] |}
    | Some _ => Metrics.customers acc
    end in
  foldM (accumulateItem calculateProfit products sellerId customerId)
        (PurchaseRecord.items record)
        {| Metrics.sellers := sellers; Metrics.customers := customers;
           Metrics.products := Metrics.products acc |}.

Definition baseMetrics (records : list PurchaseRecord.t) (calculateProfit : ProfitFn)
    (products : list Product.t) : outcome Metrics.t :=
  foldM (accumulateRecord calculateProfit products) records
        {| Metrics.sellers := JsObject.empty; Metrics.customers := JsObject.empty;
           Metrics.products := JsObject.empty |}.

(** ** Special bonuses (lines 82-195) *)

Record BonusResult : Type := {
  category : string;
  seller_id : option string;     (* [None] is [undefined] *)
  bonus : Q
}.

(** The object handed to every bonus function (lines 94-103). *)
Record Context : Type := {
  stats : Metrics.t;
  recordsBySeller : JsObject.t (list PurchaseRecord.t);
  recordsByCustomer : JsObject.t (list PurchaseRecord.t);
  recordsByProduct : JsObject.t (list Item.t);
  sellers : list Seller.t;
  customers : list Customer.t;
  products : list Product.t;
  calculateProfit : ProfitFn
}.

Module Dataset.
Record t : Type := {
  customers : list Customer.t;
  products : list Product.t;
  sellers : list Seller.t;
  purchase_records : list PurchaseRecord.t
}.
End Dataset.

Definition calculateSpecialBonuses (data : Dataset.t) (calculateProfit : ProfitFn)
    (accumulateMetrics : list PurchaseRecord.t -> ProfitFn -> list Product.t -> outcome Metrics.t)
    (bonusFunctions : list (Context -> outcome BonusResult)) : outcome (list BonusResult) :=
  let recordsBySeller := groupBy (Dataset.purchase_records data) PurchaseRecord.seller_id in
  let recordsByCustomer := groupBy (Dataset.purchase_records data) PurchaseRecord.customer_id in
  let recordsByProduct :=
    groupBy (flat_map PurchaseRecord.items (Dataset.purchase_records data)) Item.sku in
  stats <- accumulateMetrics (Dataset.purchase_records data) calculateProfit (Dataset.products data) ;;
  mapM (fun func =>
          func {| stats := stats;
                  recordsBySeller := recordsBySeller;
                  recordsByCustomer := recordsByCustomer;
                  recordsByProduct := recordsByProduct;
                  sellers := Dataset.sellers data;
                  customers := Dataset.customers data;
                  products := Dataset.products data;
                  calculateProfit := calculateProfit |})
       bonusFunctions.

(** [max?.f || 0] for a nullable accumulator. *)
Definition fieldOrZero {A} (f : A -> Q) (max : option A) : Q :=
  match max with
  | Some m => f m
  | None => 0
  end.

(** *** 1. Best customer's seller (lines 108-122) *)

Definition bestCustomerOf (stats : Metrics.t) : option (string * CustomerAggregate.t) :=
  fold_left
    (fun max e =>
       if Qlt_bool (fieldOrZero (fun m => CustomerAggregate.revenue (snd m)) max)
                   (CustomerAggregate.revenue (snd e))
       then Some e else max)
    (JsObject.entries (Metrics.customers stats)) None.

(** [stats.sellers[sellerId]?.revenue || 0]. *)
Definition sellerRevenueOrZero (stats : Metrics.t) (sellerId : string) : Q :=
  match JsObject.get (Metrics.sellers stats) sellerId with
  | Some s => SellerAggregate.revenue s
  | None => 0
  end.

Definition topSellerOf (stats : Metrics.t) (sellers : list string) : option (string * Q) :=
  fold_left
    (fun topSeller sellerId =>
       let revenue := sellerRevenueOrZero stats sellerId in
       if Qlt_bool (fieldOrZero snd topSeller) revenue
       then Some (sellerId, revenue) else topSeller)
    sellers None.

Definition bonusBestCustomer (ctx : Context) : outcome BonusResult :=
  match bestCustomerOf (stats ctx) with
  | None => Throw TypeError
  | Some bestCustomer =>
      match topSellerOf (stats ctx) (CustomerAggregate.sellers (snd bestCustomer)) with
      | None => Throw TypeError
      | Some top =>
          Ok {| category := "Best Customer Seller";
                seller_id := Some (fst top);
                bonus := toFixed2 (CustomerAggregate.revenue (snd bestCustomer) * 0.05) |}
      end
  end.

(** *** 2. Customer retention (lines 125-139) *)

(** [stats.customers[customerId]?.revenue || 0]. *)
Definition customerRevenueOrZero (stats : Metrics.t) (customerId : string) : Q :=
  match JsObject.get (Metrics.customers stats) customerId with
  | Some c => CustomerAggregate.revenue c
  | None => 0
  end.

(** [Math.max(...values)]. *)
Definition mathMax (values : list Q) : number :=
  fold_left (fun m v => if gt (Fin v) m then Fin v else m) values NegInfinity.

Definition bestRetentionOf (stats : Metrics.t) : option (string * number) :=
  fold_left
    (fun best e =>
       let customerCounts :=
         map (customerRevenueOrZero stats) (SellerAggregate.customers (snd e)) in
       let maxCustomerRevenue := mathMax customerCounts in
       if gt maxCustomerRevenue
             (orZero (match best with Some b => snd b | None => Fin 0 end))
       then Some (fst e, maxCustomerRevenue) else best)
    (JsObject.entries (Metrics.sellers stats)) None.

Definition bonusCustomerRetention (ctx : Context) : outcome BonusResult :=
  match bestRetentionOf (stats ctx) with
  | None => Throw TypeError
  | Some bestRetention =>
      Ok {| category := "Best Customer Retention";
            seller_id := Some (fst bestRetention);
            bonus := 1000 |}
  end.

(** *** 3. Largest single sale (lines 142-154) *)

(** The inner reduce (lines 144-145). *)
Definition largestRecordOf (records : list PurchaseRecord.t) : option PurchaseRecord.t :=
  fold_left
    (fun recordMax record =>
       if Qlt_bool (fieldOrZero PurchaseRecord.total_amount recordMax)
                   (PurchaseRecord.total_amount record)
       then Some record else recordMax)
    records None.

(** The outer reduce (lines 143-147); [undefined > x] is false. *)
Definition largestSaleOf (recordsBySeller : JsObject.t (list PurchaseRecord.t))
    : option PurchaseRecord.t :=
  fold_left
    (fun max e =>
       let largestRecord := largestRecordOf (snd e) in
       match largestRecord with
       | Some r =>
           if Qlt_bool (fieldOrZero PurchaseRecord.total_amount max)
                       (PurchaseRecord.total_amount r)
           then largestRecord else max
       | None => max
       end)
    (JsObject.entries recordsBySeller) None.

Definition bonusLargestSingleSale (ctx : Context) : outcome BonusResult :=
  match largestSaleOf (recordsBySeller ctx) with
  | None => Throw TypeError
  | Some largestSale =>
      Ok {| category := "Largest Single Sale";
            seller_id := Some (PurchaseRecord.seller_id largestSale);
            bonus := toFixed2 (PurchaseRecord.total_amount largestSale * 0.1) |}
  end.

(** *** 4. Highest average profit (lines 157-168) *)

(** [data.profit / (data.items.length || 1)]. *)
Definition averageProfit (data : SellerAggregate.t) : Q :=
  SellerAggregate.profit data
  / inject_Z (Z.of_nat (match length (SellerAggregate.items data) with
                        | O => 1
                        | n => n
                        end)).

Definition bestAverageOf (stats : Metrics.t) : option (string * Q) :=
  fold_left
    (fun max e =>
       let avgProfit := averageProfit (snd e) in
       if Qlt_bool (fieldOrZero snd max) avgProfit
       then Some (fst e, avgProfit) else max)
    (JsObject.entries (Metrics.sellers stats)) None.

Definition bonusHighestAverageProfit (ctx : Context) : outcome BonusResult :=
  match bestAverageOf (stats ctx) with
  | None => Throw TypeError
  | Some bestSeller =>
      Ok {| category := "Highest Average Profit";
            seller_id := Some (fst bestSeller);
            bonus := toFixed2 (snd bestSeller * 0.1) |}
  end.

(** *** 5. Stable growth (lines 171-195) *)

Definition twoDigits (s : string) : option N :=
  if (String.length s =? 2)%nat then JsObject.digits s 0 else None.

(** [new Date(month)] for a key [YYYY-MM], counted in months; any other
    string is an invalid date. *)
Definition dateValue (month : string) : number :=
  if ((String.length month =? 7)%nat && String.eqb (substring 4 1 month) "-")%bool
  then match JsObject.digits (substring 0 4 month) 0, twoDigits (substring 5 2 month) with
       | Some y, Some m =>
           if ((1 <=? m) && (m <=? 12))%N
           then Fin (inject_Z (Z.of_N (12 * y + (m - 1))))
           else NaN
       | _, _ => NaN
       end
  else NaN.

(** [x - y] on numbers that are finite or NaN. *)
Definition minus (x y : number) : number :=
  match x, y with
  | Fin a, Fin b => Fin (a - b)
  | _, _ => NaN
  end.

(** Lines 173-178 for one seller. *)
Definition monthlyAveragesOf (calculateProfit : ProfitFn) (products : list Product.t)
    (records : list PurchaseRecord.t) : outcome (list Q) :=
  let monthlyProfits :=
    groupBy records (fun record => substring 0 7 (PurchaseRecord.date record)) in
  mapM (fun e =>
          profits <- mapM (fun item => calculateProfit item (findProduct products item))
                          (flat_map PurchaseRecord.items (snd e)) ;;
          Ok (calculateAverage profits))
       (sort (fun a b => minus (dateValue (fst a)) (dateValue (fst b)))
             (JsObject.entries monthlyProfits)).

(** The body of the reduce (lines 172-188). *)
Definition stableGrowthStep (calculateProfit : ProfitFn) (products : list Product.t)
    (best : option (string * Q)) (e : string * list PurchaseRecord.t)
    : outcome (option (string * Q)) :=
  monthlyAverages <- monthlyAveragesOf calculateProfit products (snd e) ;;
  let trends := analyzeSequence monthlyAverages 0.05 in
  if (isStable trends && isIncreasing trends)%bool
  then
    let avgProfit := calculateAverage monthlyAverages in
    Ok (if Qlt_bool (fieldOrZero snd best) avgProfit
        then Some (fst e, avgProfit) else best)
  else Ok best.

Definition bonusStableGrowth (ctx : Context) : outcome BonusResult :=
  bestSeller <- foldM (stableGrowthStep (calculateProfit ctx) (products ctx))
                      (JsObject.entries (recordsBySeller ctx)) None ;;
  Ok {| category := "Stable Growth";
        seller_id := option_map fst bestSeller;
        bonus := toFixed2 (match bestSeller with
                           | Some b => snd b * 0.15
                           | None => 0
                           end) |}.

(** ** Ranking and the primary bonus (lines 248-365) *)

(** Lines 248-252. *)
Definition calculateSimpleRevenue (purchase : Item.t) (_product : Product.t) : outcome Q :=
  let discount := 1 - (Item.discount purchase / 100) in
  Ok (Item.sale_price purchase * Item.quantity purchase * discount).

Module TopProduct.
Record t : Type := { sku : string; quantity : Q }.
End TopProduct.

(** The running totals of one seller (lines 296-308). *)
Module SellerStat.
Record t : Type := {
  sellerId : string;
  firstName : string;
  lastName : string;
  startDate : string;
  sellerPosition : string;
  revenue : Q;
  profit : Q;
  sales_count : Z;
  products_sold : JsObject.t Q;
  bonus : number;
  top_products : list TopProduct.t
}.
End SellerStat.

(** An argument of a bonus strategy: the seller object or a number. *)
Inductive argument : Type :=
| ASeller (seller : SellerStat.t)
| ANumber (n : Q).

Definition RevenueFn : Type := Item.t -> Product.t -> outcome Q.
Definition BonusFn : Type := argument -> argument -> argument -> outcome number.

(** [x === n] for a number literal [n]. *)
Definition strictEquals (x : argument) (n : Q) : bool :=
  match x with
  | ANumber m => Qeq_bool m n
  | ASeller _ => false
  end.

(** [x.profit * rate]; a number has no [profit], and [undefined * rate]
    is NaN. *)
Definition profitTimes (x : argument) (rate : Q) : number :=
  match x with
  | ASeller s => Fin (SellerStat.profit s * rate)
  | ANumber _ => NaN
  end.

(** Lines 254-265. *)
Definition calculateBonusByProfit : BonusFn :=
  fun index total seller =>
    if strictEquals index 0 then Ok (profitTimes seller 0.15)
    else if (strictEquals index 1 || strictEquals index 2)%bool
         then Ok (profitTimes seller 0.10)
    else if strictEquals index (-1) then Ok (Fin 0)
    else Ok (profitTimes seller 0.05).

(** *** Values of unknown type

    What the caller passed where an array [list A], an object [O] or a
    function [F] is expected. *)
Inductive js (A O F : Type) : Type :=
| JUndefined
| JNull
| JBoolean (b : bool)
| JNumber (n : number)
| JString (s : string)
| JArray (elems : list A)
| JObject (o : O)
| JFunction (f : F).
Arguments JUndefined {A O F}.
Arguments JNull {A O F}.
Arguments JBoolean {A O F} b.
Arguments JNumber {A O F} n.
Arguments JString {A O F} s.
Arguments JArray {A O F} elems.
Arguments JObject {A O F} o.
Arguments JFunction {A O F} f.

(** [!x] is [negb (truthy x)]. *)
Definition truthy {A O F} (x : js A O F) : bool :=
  match x with
  | JUndefined | JNull => false
  | JBoolean b => b
  | JNumber n => match n with
                 | NaN => false
                 | Fin q => negb (Qeq_bool q 0)
                 | _ => true
                 end
  | JString s => negb (String.eqb s "")
  | JArray _ | JObject _ | JFunction _ => true
  end.

Definition typeof {A O F} (x : js A O F) : string :=
  match x with
  | JUndefined => "undefined"
  | JNull | JArray _ | JObject _ => "object"
  | JBoolean _ => "boolean"
  | JNumber _ => "number"
  | JString _ => "string"
  | JFunction _ => "function"
  end.

Definition isArray {A O F} (x : js A O F) : bool :=
  match x with JArray _ => true | _ => false end.

Definition isNull {A O F} (x : js A O F) : bool :=
  match x with JNull => true | _ => false end.

(** The elements of an array; used after [isArray]. *)
Definition elements {A O F} (x : js A O F) : list A :=
  match x with JArray l => l | _ => [] end.

(** [x.p] for a property [p] of the expected object; any other truthy
    value has no such property. *)
Definition prop {A O F A' O' F'} (x : js A O F) (p : O -> js A' O' F') : js A' O' F' :=
  match x with JObject o => p o | _ => JUndefined end.

Definition Catalog (A : Type) : Type := js A unit unit.
Definition Strategy (F : Type) : Type := js unit unit F.

Module Data.
Record t : Type := {
  customers : Catalog Customer.t;
  products : Catalog Product.t;
  sellers : Catalog Seller.t;
  purchase_records : Catalog PurchaseRecord.t
}.
End Data.

Module Options.
Record t : Type := {
  calculateRevenue : Strategy RevenueFn;
  calculateBonus : Strategy BonusFn
}.
End Options.

(** A call [f(item, product)]; calling what is not a function throws. *)
Definition callRevenue (f : Strategy RevenueFn) : RevenueFn :=
  match f with JFunction g => g | _ => fun _ _ => Throw TypeError end.

Definition callBonus (f : Strategy BonusFn) : BonusFn :=
  match f with JFunction g => g | _ => fun _ _ _ => Throw TypeError end.

Module Report.
Record t : Type := {
  seller_id : string;
  name : string;
  revenue : Q;
  profit : Q;
  sales_count : Z;
  top_products : list TopProduct.t;
  bonus : number
}.
End Report.

(** The checks of lines 269-293. *)
Definition checkInput (data : js unit Data.t unit) (options : js unit Options.t unit)
    : outcome unit :=
  if (negb (truthy data)
      || negb (isArray (prop data Data.customers))
      || negb (isArray (prop data Data.products))
      || negb (isArray (prop data Data.sellers))
      || negb (isArray (prop data Data.purchase_records))
      || (length (elements (prop data Data.customers)) =? 0)%nat
      || (length (elements (prop data Data.products)) =? 0)%nat
      || (length (elements (prop data Data.sellers)) =? 0)%nat
      || (length (elements (prop data Data.purchase_records)) =? 0)%nat)%bool
  then Throw (Error "Некорректные входные данные")
  else if (negb (String.eqb (typeof options) "object") || isNull options)%bool
  then Throw (Error "Опции должны быть объектом")
  else
    let calculateRevenue := prop options Options.calculateRevenue in
    let calculateBonus := prop options Options.calculateBonus in
    if (negb (truthy calculateRevenue) || negb (truthy calculateBonus))%bool
    then Throw (Error "Чего-то не хватает")
    else if (negb (String.eqb (typeof calculateRevenue) "function")
             || negb (String.eqb (typeof calculateBonus) "function"))%bool
    then Throw (Error "Некорректные переменные:требуется функция")
    else Ok tt.

(** Lines 296-308. *)
Definition initialStat (sellers : Seller.t) : SellerStat.t :=
  {| SellerStat.sellerId := Seller.id sellers;
     SellerStat.firstName := Seller.first_name sellers;
     SellerStat.lastName := Seller.last_name sellers;
     SellerStat.startDate := Seller.start_date sellers;
     SellerStat.sellerPosition := Seller.position sellers;
     SellerStat.revenue := 0;
     SellerStat.profit := 0;
     SellerStat.sales_count := 0;
     SellerStat.products_sold := JsObject.empty;
     SellerStat.bonus := Fin 0;
     SellerStat.top_products := [] |}.

(** The seller objects live in the array [sellerStats]; the index holds
    references to them, here their positions in the array. *)
Fixpoint mutate {A} (ref : nat) (f : A -> A) (store : list A) {struct store} : list A :=
  match store, ref with
  | [], _ => []
  | x :: r, O => f x :: r
  | x :: r, S ref' => x :: mutate ref' f r
  end.

(** Lines 322-323. *)
Definition countSale (record : PurchaseRecord.t) (seller : SellerStat.t) : SellerStat.t :=
  {| SellerStat.sellerId := SellerStat.sellerId seller;
     SellerStat.firstName := SellerStat.firstName seller;
     SellerStat.lastName := SellerStat.lastName seller;
     SellerStat.startDate := SellerStat.startDate seller;
     SellerStat.sellerPosition := SellerStat.sellerPosition seller;
     SellerStat.revenue := SellerStat.revenue seller + PurchaseRecord.total_amount record;
     SellerStat.profit := SellerStat.profit seller;
     SellerStat.sales_count := (SellerStat.sales_count seller + 1)%Z;
     SellerStat.products_sold := SellerStat.products_sold seller;
     SellerStat.bonus := SellerStat.bonus seller;
     SellerStat.top_products := SellerStat.top_products seller |}.

(** Lines 334-337; an absent or zero count is falsy. *)
Definition addSold (sold : JsObject.t Q) (item : Item.t) : JsObject.t Q :=
  let sold0 :=
    match JsObject.get sold (Item.sku item) with
    | None => JsObject.set sold (Item.sku item) 0
    | Some q => if Qeq_bool q 0 then JsObject.set sold (Item.sku item) 0 else sold
    end in
  JsObject.modify sold0 (Item.sku item) (fun q => q + Item.quantity item).

(** Lines 332-337. *)
Definition countItem (item : Item.t) (profit : Q) (seller : SellerStat.t) : SellerStat.t :=
  {| SellerStat.sellerId := SellerStat.sellerId seller;
     SellerStat.firstName := SellerStat.firstName seller;
     SellerStat.lastName := SellerStat.lastName seller;
     SellerStat.startDate := SellerStat.startDate seller;
     SellerStat.sellerPosition := SellerStat.sellerPosition seller;
     SellerStat.revenue := SellerStat.revenue seller;
     SellerStat.profit := SellerStat.profit seller + profit;
     SellerStat.sales_count := SellerStat.sales_count seller;
     SellerStat.products_sold := addSold (SellerStat.products_sold seller) item;
     SellerStat.bonus := SellerStat.bonus seller;
     SellerStat.top_products := SellerStat.top_products seller |}.

(** The body of [record.items.forEach] (lines 325-339). *)
Definition collectItem (productIndex : JsObject.t Product.t) (calculateRevenue : RevenueFn)
    (ref : nat) (sellerStats : list SellerStat.t) (item : Item.t)
    : outcome (list SellerStat.t) :=
  match JsObject.get productIndex (Item.sku item) with
  | Some product =>
      let cost := Product.purchase_price product * Item.quantity item in
      revenue <- calculateRevenue item product ;;
      let profit := revenue - cost in
      Ok (mutate ref (countItem item profit) sellerStats)
  | None => Ok sellerStats
  end.

(** The body of [data.purchase_records.forEach] (lines 319-341). *)
Definition collectRecord (sellerIndex : JsObject.t nat) (productIndex : JsObject.t Product.t)
    (calculateRevenue : RevenueFn) (sellerStats : list SellerStat.t)
    (record : PurchaseRecord.t) : outcome (list SellerStat.t) :=
  match JsObject.get sellerIndex (PurchaseRecord.seller_id record) with
  | Some ref =>
      foldM (collectItem productIndex calculateRevenue ref)
            (PurchaseRecord.items record)
            (mutate ref (countSale record) sellerStats)
  | None => Ok sellerStats
  end.

(** Lines 349-352. *)
Definition topProducts (products_sold : JsObject.t Q) : list TopProduct.t :=
  firstn 10
    (sort (fun a b => Fin (TopProduct.quantity b - TopProduct.quantity a))
          (map (fun e => {| TopProduct.sku := fst e; TopProduct.quantity := snd e |})
               (JsObject.entries products_sold))).

(** The body of [sellerStats.forEach] (lines 347-353). *)
Definition assignBonus (calculateBonus : BonusFn) (total : nat)
    (indexed : nat * SellerStat.t) : outcome SellerStat.t :=
  let index := fst indexed in
  let seller := snd indexed in
  bonus <- calculateBonus (ASeller seller) (ANumber (inject_Z (Z.of_nat index)))
                          (ANumber (inject_Z (Z.of_nat total))) ;;
  Ok {| SellerStat.sellerId := SellerStat.sellerId seller;
        SellerStat.firstName := SellerStat.firstName seller;
        SellerStat.lastName := SellerStat.lastName seller;
        SellerStat.startDate := SellerStat.startDate seller;
        SellerStat.sellerPosition := SellerStat.sellerPosition seller;
        SellerStat.revenue := SellerStat.revenue seller;
        SellerStat.profit := SellerStat.profit seller;
        SellerStat.sales_count := SellerStat.sales_count seller;
        SellerStat.products_sold := SellerStat.products_sold seller;
        SellerStat.bonus := bonus;
        SellerStat.top_products := topProducts (SellerStat.products_sold seller) |}.

(** Lines 356-364. *)
Definition report (seller : SellerStat.t) : Report.t :=
  {| Report.seller_id := SellerStat.sellerId seller;
     Report.name := SellerStat.firstName seller ++ " " ++ SellerStat.lastName seller;
     Report.revenue := toFixed2 (SellerStat.revenue seller);
     Report.profit := toFixed2 (SellerStat.profit seller);
     Report.sales_count := SellerStat.sales_count seller;
     Report.top_products := SellerStat.top_products seller;
     Report.bonus := toFixed2n (orZero (SellerStat.bonus seller)) |}.

(** Lines 311-313: the index refers to the objects of [sellerStats]. *)
Definition indexSellers (sellerStats : list SellerStat.t) : JsObject.t nat :=
  JsObject.fromEntries
    (combine (map SellerStat.sellerId sellerStats) (seq 0 (length sellerStats))).

(** Lines 314-316. *)
Definition indexProducts (products : list Product.t) : JsObject.t Product.t :=
  JsObject.fromEntries (map (fun product => (Product.sku product, product)) products).

(** Lines 295-364, after the checks. *)
Definition rankSellers (customers : list Customer.t) (products : list Product.t)
    (sellers : list Seller.t) (purchase_records : list PurchaseRecord.t)
    (calculateRevenue : RevenueFn) (calculateBonus : BonusFn) : outcome (list Report.t) :=
  let sellerStats := map initialStat sellers in
  let sellerIndex := indexSellers sellerStats in
  let productIndex := indexProducts products in
  collected <- foldM (collectRecord sellerIndex productIndex calculateRevenue)
                     purchase_records sellerStats ;;
  let sorted :=
    sort (fun a b => Fin (SellerStat.profit b - SellerStat.profit a)) collected in
  assigned <- mapM (assignBonus calculateBonus (length sorted))
                   (combine (seq 0 (length sorted)) sorted) ;;
  Ok (map report assigned).

Definition analyzeSalesData (data : js unit Data.t unit) (options : js unit Options.t unit)
    : outcome (list Report.t) :=
  _ <- checkInput data options ;;
  rankSellers (elements (prop data Data.customers))
              (elements (prop data Data.products))
              (elements (prop data Data.sellers))
              (elements (prop data Data.purchase_records))
              (callRevenue (prop options Options.calculateRevenue))
              (callBonus (prop options Options.calculateBonus)).

(** * The program on binary64 numbers

    The second embedding follows the program where the figures
    themselves are at stake.  A number is an IEEE-754 binary64 [float], and
    [+], [-], [*], [/], [Math.abs] and the comparisons are the operations
    of that format, rounded to nearest as the language rounds them.  A
    plain object is read through its own properties first and then through
    [Object.prototype], so that a key naming one of its members finds that
    member.  Catalog entries, items and records are the objects of the
    dataset with numbers for their numeric fields. *)

(** The property names of [Object.prototype], those of Annex B
    included. *)
Definition prototypeMembers : list string :=
  [ "constructor"; "__defineGetter__"; "__defineSetter__"; "hasOwnProperty";
    "__lookupGetter__"; "__lookupSetter__"; "isPrototypeOf"; "propertyIsEnumerable";
    "toString"; "valueOf"; "__proto__"; "toLocaleString" ].

(** [key in Object.prototype]: on a plain object without an own property
    [key], [o[key]] is then a function or, for [__proto__], the prototype
    itself: a truthy value that has none of the properties of a bucket. *)
Definition inherited (key : string) : bool :=
  existsb (String.eqb key) prototypeMembers.

Module Double.

Local Open Scope float_scope.

(** [x || 0] on a number: zero, minus zero and NaN are falsy. *)
Definition orZero (x : float) : float :=
  if (is_zero x || is_nan x)%bool then 0 else x.

(** The real number a finite value stands for. *)
Definition exact (x : float) : Q :=
  match Prim2SF x with
  | S754_finite s m e =>
      let v := (inject_Z (Zpos m) * Qpower 2 e)%Q in
      if s then (- v)%Q else v
  | _ => 0%Q
  end.

(** The number for an integer below 2^53, which the format holds
    exactly. *)
Definition ofZ (n : Z) : float := of_uint63 (Uint63.of_Z n).

(** A length as a number. *)
Definition ofNat (n : nat) : float := ofZ (Z.of_nat n).

(** [+x.toFixed(2)]: the integer [n] nearest to 100 times the exact
    value of [|x|], the larger one on a tie, printed as [n / 100] with the
    sign of [x] and read back as the nearest number.  From 2^46 on, [x] is
    itself the number nearest to [n / 100] (it is a multiple of 1/64 and
    [n / 100] is within 1/200 of it), as it is from 10^21 on, where
    [toFixed] prints [x] in full; NaN and the infinities print as
    themselves. *)
Definition toFixed2 (x : float) : float :=
  match Prim2SF x with
  | S754_finite s _ _ =>
      if abs x <? 0x1p46
      then
        let n := Qfloor (Qabs (exact x) * 100 + (1 # 2))%Q in
        let r := ofZ n / 100 in
        if s then - r else r
      else x
  | S754_zero _ => 0
  | _ => x
  end.

(** ** Grouping (lines 7-14)

    [acc[key]] of line 10 is truthy for an own bucket and for an inherited
    member; in the second case no bucket is made and line 11 calls the
    missing [push] of the member. *)
Definition groupBy {A} (array : list A) (keyFn : A -> string)
    : outcome (JsObject.t (list A)) :=
  foldM
    (fun acc item =>
       let key := keyFn item in
       match JsObject.get acc key with
       | Some _ => Ok (JsObject.modify acc key (fun bucket => bucket ++ [item]))
       | None =>
           if inherited key then Throw TypeError
           else Ok (JsObject.modify (JsObject.set acc key []) key
                                    (fun bucket => bucket ++ [item]))
       end)
    array JsObject.empty.

(** ** Trend of a sequence (lines 22-51) *)

(** The [for] loop of lines 38-44 from index [i], [steps] iterations left;
    [false] is the [break] after [isStable = false].  A quotient by zero
    is an infinity or NaN, and NaN exceeds nothing. *)
Fixpoint stableLoop (sequence : list float) (tolerance : float) (i steps : nat) : bool :=
  match steps with
  | O => true
  | S steps' =>
      let relativeChange :=
        abs (nth i sequence nan - nth (i - 1) sequence nan)
        / abs (nth (i - 1) sequence nan) in
      if tolerance <? relativeChange then false
      else stableLoop sequence tolerance (S i) steps'
  end.

(** The caller passes [tolerance]; the declared default is 0.05. *)
Definition analyzeSequence (sequence : list float) (tolerance : float) : Trends :=
  if (length sequence <? 2)%nat
  then {| isStable := true; isIncreasing := false; isDecreasing := false |}
  else
    let start := nth 0 sequence nan in
    let end_ := nth (length sequence - 1) sequence nan in
    let totalChange := end_ - start in
    {| isStable := stableLoop sequence tolerance 1 (length sequence - 1);
       isIncreasing := 0 <? totalChange;
       isDecreasing := totalChange <? 0 |}.

(** ** Average (lines 59-62): [sum / values.length || 0]. *)
Definition calculateAverage (values : list float) : float :=
  let sum := fold_left add values 0 in
  orZero (sum / ofNat (length values)).

(** ** The dataset *)

Module Product.
Record t : Type := { sku : string; purchase_price : float }.
End Product.

Module Item.
Record t : Type := {
  sku : string;
  sale_price : float;
  quantity : float;
  discount : float
}.
End Item.

Module PurchaseRecord.
Record t : Type := {
  seller_id : string;
  customer_id : string;
  date : string;
  total_amount : float;
  items : list Item.t
}.
End PurchaseRecord.

(** ** Aggregates of [baseMetrics] *)

Module SellerAggregate.
Record t : Type := {
  revenue : float;
  profit : float;
  items : list Item.t;
  customers : list string      (* a [Set], in insertion order *)
}.
End SellerAggregate.

Module CustomerAggregate.
Record t : Type := {
  revenue : float;
  profit : float;
  sellers : list string        (* a [Set], in insertion order *)
}.
End CustomerAggregate.

Module ProductAggregate.
Record t : Type := { quantity : float; revenue : float }.
End ProductAggregate.

Module Metrics.
Record t : Type := {
  sellers : JsObject.t SellerAggregate.t;
  customers : JsObject.t CustomerAggregate.t;
  products : JsObject.t ProductAggregate.t
}.
End Metrics.

(** A profit strategy; the product is [None] when the lookup gave
    [undefined]. *)
Definition ProfitFn : Type := Item.t -> option Product.t -> outcome float.

(** [item.sale_price * item.quantity * (1 - item.discount / 100)]. *)
Definition lineRevenue (item : Item.t) : float :=
  Item.sale_price item * Item.quantity item * (1 - Item.discount item / 100).

(** Lines 203-205; reading [purchase_price] of [undefined] throws. *)
Definition simpleProfit : ProfitFn :=
  fun item product =>
    match product with
    | Some p => Ok (lineRevenue item - Product.purchase_price p * Item.quantity item)
    | None => Throw TypeError
    end.

(** [products.find(p => p.sku === item.sku)]. *)
Definition findProduct (products : list Product.t) (item : Item.t) : option Product.t :=
  find (fun p => String.eqb (Product.sku p) (Item.sku item)) products.

(** ** The metrics accumulator (lines 214-245) *)

(** The body of [record.items.forEach] (lines 222-241).  After lines
    219-220 a seller or customer id has an own bucket unless it names an
    inherited member; the writes of lines 227-228 and 233-234 then land on
    that member and [items.push] (line 229) or [sellers.add] (line 235)
    fails on its missing property.  An inherited [sku] passes line 238 and
    lines 239-240 write on the member: no product bucket is made. *)
Definition accumulateItem (calculateProfit : ProfitFn) (products : list Product.t)
    (sellerId customerId : string) (acc : Metrics.t) (item : Item.t) : outcome Metrics.t :=
  let product := findProduct products item in
  profit <- calculateProfit item product ;;
  if inherited sellerId then Throw TypeError
  else
    let sellers :=
      JsObject.modify (Metrics.sellers acc) sellerId (fun s =>
        {| SellerAggregate.revenue := SellerAggregate.revenue s + lineRevenue item;
           SellerAggregate.profit := SellerAggregate.profit s + profit;
           SellerAggregate.items := SellerAggregate.items s ++ [item];
           SellerAggregate.customers := setAdd (SellerAggregate.customers s) customerId |}) in
    if inherited customerId then Throw TypeError
    else
      let customers :=
        JsObject.modify (Metrics.customers acc) customerId (fun c =>
          {| CustomerAggregate.revenue := CustomerAggregate.revenue c + lineRevenue item;
             CustomerAggregate.profit := CustomerAggregate.profit c + profit;
             CustomerAggregate.sellers := setAdd (CustomerAggregate.sellers c) sellerId |}) in
      let products1 :=
        if inherited (Item.sku item) then Metrics.products acc
        else
          let products0 :=
            match JsObject.get (Metrics.products acc) (Item.sku item) with
            | None => JsObject.set (Metrics.products acc) (Item.sku item)
                        {| ProductAggregate.quantity := 0; ProductAggregate.revenue := 0 |}
            | Some _ => Metrics.products acc
            end in
          JsObject.modify products0 (Item.sku item) (fun p =>
            {| ProductAggregate.quantity := ProductAggregate.quantity p + Item.quantity item;
               ProductAggregate.revenue := ProductAggregate.revenue p + lineRevenue item |}) in
      Ok {| Metrics.sellers := sellers; Metrics.customers := customers;
            Metrics.products := products1 |}.

(** The body of [records.reduce] (lines 215-244). *)
Definition accumulateRecord (calculateProfit : ProfitFn) (products : list Product.t)
    (acc : Metrics.t) (record : PurchaseRecord.t) : outcome Metrics.t :=
  let sellerId := PurchaseRecord.seller_id record in
  let customerId := PurchaseRecord.customer_id record in
  let sellers :=
    match JsObject.get (Metrics.sellers acc) sellerId with
    | None =>
        if inherited sellerId then Metrics.sellers acc
        else JsObject.set (Metrics.sellers acc) sellerId
               {| SellerAggregate.revenue := 0; SellerAggregate.profit := 0;
                  SellerAggregate.items := []; SellerAggregate.customers := [] |}
    | Some _ => Metrics.sellers acc
    end in
  let customers :=
    match JsObject.get (Metrics.customers acc) customerId with
    | None =>
        if inherited customerId then Metrics.customers acc
        else JsObject.set (Metrics.customers acc) customerId
               {| CustomerAggregate.revenue := 0; CustomerAggregate.profit := 0;
                  CustomerAggregate.sellers := [] |}
    | Some _ => Metrics.customers acc
    end in
  foldM (accumulateItem calculateProfit products sellerId customerId)
        (PurchaseRecord.items record)
        {| Metrics.sellers := sellers; Metrics.customers := customers;
           Metrics.products := Metrics.products acc |}.

Definition baseMetrics (records : list PurchaseRecord.t) (calculateProfit : ProfitFn)
    (products : list Product.t) : outcome Metrics.t :=
  foldM (accumulateRecord calculateProfit products) records
        {| Metrics.sellers := JsObject.empty; Metrics.customers := JsObject.empty;
           Metrics.products := JsObject.empty |}.

(** ** Special bonuses (lines 82-195) *)

Record BonusResult : Type := {
  category : string;
  seller_id : option string;     (* [None] is [undefined] *)
  bonus : float
}.

(** The object handed to every bonus function (lines 94-103). *)
Record Context : Type := {
  stats : Metrics.t;
  recordsBySeller : JsObject.t (list PurchaseRecord.t);
  recordsByCustomer : JsObject.t (list PurchaseRecord.t);
  recordsByProduct : JsObject.t (list Item.t);
  sellers : list Seller.t;
  customers : list Customer.t;
  products : list Product.t;
  calculateProfit : ProfitFn
}.

Module Dataset.
Record t : Type := {
  customers : list Customer.t;
  products : list Product.t;
  sellers : list Seller.t;
  purchase_records : list PurchaseRecord.t
}.
End Dataset.

(** The three groupings of lines 85-87 run before the accumulator. *)
Definition calculateSpecialBonuses (data : Dataset.t) (calculateProfit : ProfitFn)
    (accumulateMetrics : list PurchaseRecord.t -> ProfitFn -> list Product.t -> outcome Metrics.t)
    (bonusFunctions : list (Context -> outcome BonusResult)) : outcome (list BonusResult) :=
  recordsBySeller <- groupBy (Dataset.purchase_records data) PurchaseRecord.seller_id ;;
  recordsByCustomer <- groupBy (Dataset.purchase_records data) PurchaseRecord.customer_id ;;
  recordsByProduct <-
    groupBy (flat_map PurchaseRecord.items (Dataset.purchase_records data)) Item.sku ;;
  stats <- accumulateMetrics (Dataset.purchase_records data) calculateProfit
                             (Dataset.products data) ;;
  mapM (fun func =>
          func {| stats := stats;
                  recordsBySeller := recordsBySeller;
                  recordsByCustomer := recordsByCustomer;
                  recordsByProduct := recordsByProduct;
                  sellers := Dataset.sellers data;
                  customers := Dataset.customers data;
                  products := Dataset.products data;
                  calculateProfit := calculateProfit |})
       bonusFunctions.

(** [max?.f || 0] for a nullable accumulator. *)
Definition fieldOrZero {A} (f : A -> float) (max : option A) : float :=
  match max with
  | Some m => orZero (f m)
  | None => 0
  end.

(** *** 1. Best customer's seller (lines 108-122) *)

Definition bestCustomerOf (stats : Metrics.t) : option (string * CustomerAggregate.t) :=
  fold_left
    (fun max e =>
       if fieldOrZero (fun m => CustomerAggregate.revenue (snd m)) max
          <? CustomerAggregate.revenue (snd e)
       then Some e else max)
    (JsObject.entries (Metrics.customers stats)) None.

(** [stats.sellers[sellerId]?.revenue || 0].  An inherited member has no
    [revenue] that is a truthy number: the expression is 0 for it as it is
    for a missing bucket. *)
Definition sellerRevenueOrZero (stats : Metrics.t) (sellerId : string) : float :=
  match JsObject.get (Metrics.sellers stats) sellerId with
  | Some s => orZero (SellerAggregate.revenue s)
  | None => 0
  end.

Definition topSellerOf (stats : Metrics.t) (sellers : list string) : option (string * float) :=
  fold_left
    (fun topSeller sellerId =>
       let revenue := sellerRevenueOrZero stats sellerId in
       if fieldOrZero snd topSeller <? revenue
       then Some (sellerId, revenue) else topSeller)
    sellers None.

Definition bonusBestCustomer (ctx : Context) : outcome BonusResult :=
  match bestCustomerOf (stats ctx) with
  | None => Throw TypeError
  | Some bestCustomer =>
      match topSellerOf (stats ctx) (CustomerAggregate.sellers (snd bestCustomer)) with
      | None => Throw TypeError
      | Some top =>
          Ok {| category := "Best Customer Seller";
                seller_id := Some (fst top);
                bonus := toFixed2 (CustomerAggregate.revenue (snd bestCustomer) * 0.05) |}
      end
  end.

(** *** 4. Highest average profit (lines 157-168) *)

(** [data.profit / (data.items.length || 1)]. *)
Definition averageProfit (data : SellerAggregate.t) : float :=
  SellerAggregate.profit data
  / ofNat (match length (SellerAggregate.items data) with
           | O => 1
           | n => n
           end).

Definition bestAverageOf (stats : Metrics.t) : option (string * float) :=
  fold_left
    (fun max e =>
       let avgProfit := averageProfit (snd e) in
       if fieldOrZero snd max <? avgProfit
       then Some (fst e, avgProfit) else max)
    (JsObject.entries (Metrics.sellers stats)) None.

Definition bonusHighestAverageProfit (ctx : Context) : outcome BonusResult :=
  match bestAverageOf (stats ctx) with
  | None => Throw TypeError
  | Some bestSeller =>
      Ok {| category := "Highest Average Profit";
            seller_id := Some (fst bestSeller);
            bonus := toFixed2 (snd bestSeller * 0.1) |}
  end.

(** *** 3. Largest single sale (lines 142-154) *)

(** The inner reduce (lines 144-145). *)
Definition largestRecordOf (records : list PurchaseRecord.t) : option PurchaseRecord.t :=
  fold_left
    (fun recordMax record =>
       if fieldOrZero PurchaseRecord.total_amount recordMax
          <? PurchaseRecord.total_amount record
       then Some record else recordMax)
    records None.

(** The outer reduce (lines 143-147); [undefined > x] is false. *)
Definition largestSaleOf (recordsBySeller : JsObject.t (list PurchaseRecord.t))
    : option PurchaseRecord.t :=
  fold_left
    (fun max e =>
       let largestRecord := largestRecordOf (snd e) in
       match largestRecord with
       | Some r =>
           if fieldOrZero PurchaseRecord.total_amount max
              <? PurchaseRecord.total_amount r
           then largestRecord else max
       | None => max
       end)
    (JsObject.entries recordsBySeller) None.

Definition bonusLargestSingleSale (ctx : Context) : outcome BonusResult :=
  match largestSaleOf (recordsBySeller ctx) with
  | None => Throw TypeError
  | Some largestSale =>
      Ok {| category := "Largest Single Sale";
            seller_id := Some (PurchaseRecord.seller_id largestSale);
            bonus := toFixed2 (PurchaseRecord.total_amount largestSale * 0.1) |}
  end.

(** *** 5. Stable growth (lines 171-195) *)

(** Lines 173-178 for one seller.  The month keys are compared as dates
    by [dateValue]; the differences are those of whole numbers, which the
    format holds exactly. *)
Definition monthlyAveragesOf (calculateProfit : ProfitFn) (products : list Product.t)
    (records : list PurchaseRecord.t) : outcome (list float) :=
  monthlyProfits <-
    groupBy records (fun record => substring 0 7 (PurchaseRecord.date record)) ;;
  mapM (fun e =>
          profits <- mapM (fun item => calculateProfit item (findProduct products item))
                          (flat_map PurchaseRecord.items (snd e)) ;;
          Ok (calculateAverage profits))
       (sort (fun a b => minus (dateValue (fst a)) (dateValue (fst b)))
             (JsObject.entries monthlyProfits)).

(** The body of the reduce (lines 172-188). *)
Definition stableGrowthStep (calculateProfit : ProfitFn) (products : list Product.t)
    (best : option (string * float)) (e : string * list PurchaseRecord.t)
    : outcome (option (string * float)) :=
  monthlyAverages <- monthlyAveragesOf calculateProfit products (snd e) ;;
  let trends := analyzeSequence monthlyAverages 0.05 in
  if (isStable trends && isIncreasing trends)%bool
  then
    let avgProfit := calculateAverage monthlyAverages in
    Ok (if fieldOrZero snd best <? avgProfit
        then Some (fst e, avgProfit) else best)
  else Ok best.

Definition bonusStableGrowth (ctx : Context) : outcome BonusResult :=
  bestSeller <- foldM (stableGrowthStep (calculateProfit ctx) (products ctx))
                      (JsObject.entries (recordsBySeller ctx)) None ;;
  Ok {| category := "Stable Growth";
        seller_id := option_map fst bestSeller;
        bonus := toFixed2 (match bestSeller with
                           | Some b => snd b * 0.15
                           | None => 0
                           end) |}.

(** ** Ranking and the primary bonus (lines 248-365) *)

(** [Array.prototype.sort] with a comparator into the numbers: a result
    above 0 puts [x] after [y]; zero, a negative number and NaN leave the
    two in their order. *)
Fixpoint insertSorted {A} (cmp : A -> A -> float) (x : A) (l : list A) : list A :=
  match l with
  | [] => [x]
  | y :: r => if 0 <? cmp x y then y :: insertSorted cmp x r else x :: l
  end.

Definition sort {A} (cmp : A -> A -> float) (l : list A) : list A :=
  fold_right (insertSorted cmp) [] l.

(** Lines 248-252. *)
Definition calculateSimpleRevenue (purchase : Item.t) (_product : Product.t)
    : outcome float :=
  let discount := 1 - (Item.discount purchase / 100) in
  Ok (Item.sale_price purchase * Item.quantity purchase * discount).

Module TopProduct.
Record t : Type := { sku : string; quantity : float }.
End TopProduct.

(** The running totals of one seller (lines 296-308).  The count of sales
    is a whole number below 2^53, which the format holds exactly. *)
Module SellerStat.
Record t : Type := {
  sellerId : string;
  firstName : string;
  lastName : string;
  startDate : string;
  sellerPosition : string;
  revenue : float;
  profit : float;
  sales_count : Z;
  products_sold : JsObject.t float;
  bonus : float;
  top_products : list TopProduct.t
}.
End SellerStat.

(** An argument of a bonus strategy: the seller object, or a whole
    number, an index or a length, which the format holds exactly. *)
Inductive argument : Type :=
| ASeller (seller : SellerStat.t)
| ANumber (n : Z).

Definition RevenueFn : Type := Item.t -> Product.t -> outcome float.
Definition BonusFn : Type := argument -> argument -> argument -> outcome float.

(** [x === n] for a whole number [n]. *)
Definition strictEquals (x : argument) (n : Z) : bool :=
  match x with
  | ANumber m => (m =? n)%Z
  | ASeller _ => false
  end.

(** [x.profit * rate]; a number has no [profit], and [undefined * rate]
    is NaN. *)
Definition profitTimes (x : argument) (rate : float) : float :=
  match x with
  | ASeller s => SellerStat.profit s * rate
  | ANumber _ => nan
  end.

(** Lines 254-265. *)
Definition calculateBonusByProfit : BonusFn :=
  fun index total seller =>
    if strictEquals index 0 then Ok (profitTimes seller 0.15)
    else if (strictEquals index 1 || strictEquals index 2)%bool
         then Ok (profitTimes seller 0.10)
    else if strictEquals index (-1) then Ok 0
    else Ok (profitTimes seller 0.05).

Module Data.
Record t : Type := {
  customers : Catalog Customer.t;
  products : Catalog Product.t;
  sellers : Catalog Seller.t;
  purchase_records : Catalog PurchaseRecord.t
}.
End Data.

Module Options.
Record t : Type := {
  calculateRevenue : Strategy RevenueFn;
  calculateBonus : Strategy BonusFn
}.
End Options.

(** A call [f(item, product)]; calling what is not a function throws. *)
Definition callRevenue (f : Strategy RevenueFn) : RevenueFn :=
  match f with JFunction g => g | _ => fun _ _ => Throw TypeError end.

Definition callBonus (f : Strategy BonusFn) : BonusFn :=
  match f with JFunction g => g | _ => fun _ _ _ => Throw TypeError end.

Module Report.
Record t : Type := {
  seller_id : string;
  name : string;
  revenue : float;
  profit : float;
  sales_count : Z;
  top_products : list TopProduct.t;
  bonus : float
}.
End Report.

(** The checks of lines 269-293. *)
Definition checkInput (data : js unit Data.t unit) (options : js unit Options.t unit)
    : outcome unit :=
  if (negb (truthy data)
      || negb (isArray (prop data Data.customers))
      || negb (isArray (prop data Data.products))
      || negb (isArray (prop data Data.sellers))
      || negb (isArray (prop data Data.purchase_records))
      || (length (elements (prop data Data.customers)) =? 0)%nat
      || (length (elements (prop data Data.products)) =? 0)%nat
      || (length (elements (prop data Data.sellers)) =? 0)%nat
      || (length (elements (prop data Data.purchase_records)) =? 0)%nat)%bool
  then Throw (Error "Некорректные входные данные")
  else if (negb (String.eqb (typeof options) "object") || isNull options)%bool
  then Throw (Error "Опции должны быть объектом")
  else
    let calculateRevenue := prop options Options.calculateRevenue in
    let calculateBonus := prop options Options.calculateBonus in
    if (negb (truthy calculateRevenue) || negb (truthy calculateBonus))%bool
    then Throw (Error "Чего-то не хватает")
    else if (negb (String.eqb (typeof calculateRevenue) "function")
             || negb (String.eqb (typeof calculateBonus) "function"))%bool
    then Throw (Error "Некорректные переменные:требуется функция")
    else Ok tt.

(** Lines 296-308. *)
Definition initialStat (sellers : Seller.t) : SellerStat.t :=
  {| SellerStat.sellerId := Seller.id sellers;
     SellerStat.firstName := Seller.first_name sellers;
     SellerStat.lastName := Seller.last_name sellers;
     SellerStat.startDate := Seller.start_date sellers;
     SellerStat.sellerPosition := Seller.position sellers;
     SellerStat.revenue := 0;
     SellerStat.profit := 0;
     SellerStat.sales_count := 0;
     SellerStat.products_sold := JsObject.empty;
     SellerStat.bonus := 0;
     SellerStat.top_products := [] |}.

(** Lines 322-323. *)
Definition countSale (record : PurchaseRecord.t) (seller : SellerStat.t) : SellerStat.t :=
  {| SellerStat.sellerId := SellerStat.sellerId seller;
     SellerStat.firstName := SellerStat.firstName seller;
     SellerStat.lastName := SellerStat.lastName seller;
     SellerStat.startDate := SellerStat.startDate seller;
     SellerStat.sellerPosition := SellerStat.sellerPosition seller;
     SellerStat.revenue := SellerStat.revenue seller + PurchaseRecord.total_amount record;
     SellerStat.profit := SellerStat.profit seller;
     SellerStat.sales_count := (SellerStat.sales_count seller + 1)%Z;
     SellerStat.products_sold := SellerStat.products_sold seller;
     SellerStat.bonus := SellerStat.bonus seller;
     SellerStat.top_products := SellerStat.top_products seller |}.

(** Lines 334-337; an absent count, a zero and NaN are falsy. *)
Definition addSold (sold : JsObject.t float) (item : Item.t) : JsObject.t float :=
  let sold0 :=
    match JsObject.get sold (Item.sku item) with
    | None => JsObject.set sold (Item.sku item) 0
    | Some q => if (is_zero q || is_nan q)%bool
                then JsObject.set sold (Item.sku item) 0 else sold
    end in
  JsObject.modify sold0 (Item.sku item) (fun q => q + Item.quantity item).

(** Lines 332-337. *)
Definition countItem (item : Item.t) (profit : float) (seller : SellerStat.t)
    : SellerStat.t :=
  {| SellerStat.sellerId := SellerStat.sellerId seller;
     SellerStat.firstName := SellerStat.firstName seller;
     SellerStat.lastName := SellerStat.lastName seller;
     SellerStat.startDate := SellerStat.startDate seller;
     SellerStat.sellerPosition := SellerStat.sellerPosition seller;
     SellerStat.revenue := SellerStat.revenue seller;
     SellerStat.profit := SellerStat.profit seller + profit;
     SellerStat.sales_count := SellerStat.sales_count seller;
     SellerStat.products_sold := addSold (SellerStat.products_sold seller) item;
     SellerStat.bonus := SellerStat.bonus seller;
     SellerStat.top_products := SellerStat.top_products seller |}.

(** The body of [record.items.forEach] (lines 325-339), for an item whose
    sku names no member of [Object.prototype]: the lookup of line 326 is
    then that of the own properties of the index. *)
Definition collectItem (productIndex : JsObject.t Product.t) (calculateRevenue : RevenueFn)
    (ref : nat) (sellerStats : list SellerStat.t) (item : Item.t)
    : outcome (list SellerStat.t) :=
  match JsObject.get productIndex (Item.sku item) with
  | Some product =>
      let cost := Product.purchase_price product * Item.quantity item in
      revenue <- calculateRevenue item product ;;
      let profit := revenue - cost in
      Ok (mutate ref (countItem item profit) sellerStats)
  | None => Ok sellerStats
  end.

(** The body of [data.purchase_records.forEach] (lines 319-341), for a
    record whose seller id names no member of [Object.prototype]. *)
Definition collectRecord (sellerIndex : JsObject.t nat) (productIndex : JsObject.t Product.t)
    (calculateRevenue : RevenueFn) (sellerStats : list SellerStat.t)
    (record : PurchaseRecord.t) : outcome (list SellerStat.t) :=
  match JsObject.get sellerIndex (PurchaseRecord.seller_id record) with
  | Some ref =>
      foldM (collectItem productIndex calculateRevenue ref)
            (PurchaseRecord.items record)
            (mutate ref (countSale record) sellerStats)
  | None => Ok sellerStats
  end.

(** Lines 349-352. *)
Definition topProducts (products_sold : JsObject.t float) : list TopProduct.t :=
  firstn 10
    (sort (fun a b => TopProduct.quantity b - TopProduct.quantity a)
          (map (fun e => {| TopProduct.sku := fst e; TopProduct.quantity := snd e |})
               (JsObject.entries products_sold))).

(** The body of [sellerStats.forEach] (lines 347-353). *)
Definition assignBonus (calculateBonus : BonusFn) (total : nat)
    (indexed : nat * SellerStat.t) : outcome SellerStat.t :=
  let index := fst indexed in
  let seller := snd indexed in
  bonus <- calculateBonus (ASeller seller) (ANumber (Z.of_nat index))
                          (ANumber (Z.of_nat total)) ;;
  Ok {| SellerStat.sellerId := SellerStat.sellerId seller;
        SellerStat.firstName := SellerStat.firstName seller;
        SellerStat.lastName := SellerStat.lastName seller;
        SellerStat.startDate := SellerStat.startDate seller;
        SellerStat.sellerPosition := SellerStat.sellerPosition seller;
        SellerStat.revenue := SellerStat.revenue seller;
        SellerStat.profit := SellerStat.profit seller;
        SellerStat.sales_count := SellerStat.sales_count seller;
        SellerStat.products_sold := SellerStat.products_sold seller;
        SellerStat.bonus := bonus;
        SellerStat.top_products := topProducts (SellerStat.products_sold seller) |}.

(** Lines 356-364. *)
Definition report (seller : SellerStat.t) : Report.t :=
  {| Report.seller_id := SellerStat.sellerId seller;
     Report.name := SellerStat.firstName seller ++ " " ++ SellerStat.lastName seller;
     Report.revenue := toFixed2 (orZero (SellerStat.revenue seller));
     Report.profit := toFixed2 (orZero (SellerStat.profit seller));
     Report.sales_count := SellerStat.sales_count seller;
     Report.top_products := SellerStat.top_products seller;
     Report.bonus := toFixed2 (orZero (SellerStat.bonus seller)) |}.

(** Lines 311-313: the index refers to the objects of [sellerStats]. *)
Definition indexSellers (sellerStats : list SellerStat.t) : JsObject.t nat :=
  JsObject.fromEntries
    (combine (map SellerStat.sellerId sellerStats) (seq 0 (length sellerStats))).

(** Lines 314-316. *)
Definition indexProducts (products : list Product.t) : JsObject.t Product.t :=
  JsObject.fromEntries (map (fun product => (Product.sku product, product)) products).

(** Lines 295-364, after the checks. *)
Definition rankSellers (customers : list Customer.t) (products : list Product.t)
    (sellers : list Seller.t) (purchase_records : list PurchaseRecord.t)
    (calculateRevenue : RevenueFn) (calculateBonus : BonusFn) : outcome (list Report.t) :=
  let sellerStats := map initialStat sellers in
  let sellerIndex := indexSellers sellerStats in
  let productIndex := indexProducts products in
  collected <- foldM (collectRecord sellerIndex productIndex calculateRevenue)
                     purchase_records sellerStats ;;
  let sorted := sort (fun a b => SellerStat.profit b - SellerStat.profit a) collected in
  assigned <- mapM (assignBonus calculateBonus (length sorted))
                   (combine (seq 0 (length sorted)) sorted) ;;
  Ok (map report assigned).

Definition analyzeSalesData (data : js unit Data.t unit) (options : js unit Options.t unit)
    : outcome (list Report.t) :=
  _ <- checkInput data options ;;
  rankSellers (elements (prop data Data.customers))
              (elements (prop data Data.products))
              (elements (prop data Data.sellers))
              (elements (prop data Data.purchase_records))
              (callRevenue (prop options Options.calculateRevenue))
              (callBonus (prop options Options.calculateBonus)).

End Double.
(** * Vocabulary of the properties *)

(** A catalog that is present, an array and not empty. *)
Definition usableCatalog {A} (c : Catalog A) : Prop :=
  exists x l, c = JArray (x :: l).

(** A dataset whose four catalogs are usable. *)
Definition validData (data : js unit Data.t unit) : Prop :=
  exists d, data = JObject d
    /\ usableCatalog (Data.customers d)
    /\ usableCatalog (Data.products d)
    /\ usableCatalog (Data.sellers d)
    /\ usableCatalog (Data.purchase_records d).

(** Options that are an object holding two callable strategies. *)
Definition validOptions (options : js unit Options.t unit) : Prop :=
  exists o, options = JObject o
    /\ (exists f, Options.calculateRevenue o = JFunction f)
    /\ (exists g, Options.calculateBonus o = JFunction g).

(** A small dataset: four sellers, two customers, two products. *)
Definition sampleProducts : list Product.t :=
  [ {| Product.sku := "SKU_001"; Product.purchase_price := 50 |};
    {| Product.sku := "SKU_002"; Product.purchase_price := 20 |} ].

Definition sampleSeller (n : string) : Seller.t :=
  {| Seller.id := "seller_" ++ n; Seller.first_name := "Seller"; Seller.last_name := n;
     Seller.start_date := "2023-05-01"; Seller.position := "Consultant" |}.

Definition sampleSellers : list Seller.t :=
  [ sampleSeller "1"; sampleSeller "2"; sampleSeller "3"; sampleSeller "4" ].

Definition sampleCustomers : list Customer.t :=
  [ {| Customer.id := "customer_1" |}; {| Customer.id := "customer_2" |} ].

Definition sampleItem (sku : string) (price quantity : Q) : Item.t :=
  {| Item.sku := sku; Item.sale_price := price; Item.quantity := quantity;
     Item.discount := 0 |}.

Definition sampleRecords : list PurchaseRecord.t :=
  [ {| PurchaseRecord.seller_id := "seller_1"; PurchaseRecord.customer_id := "customer_1";
       PurchaseRecord.date := "2024-01-10"; PurchaseRecord.total_amount := 300;
       PurchaseRecord.items := [ sampleItem "SKU_001" 100 2; sampleItem "SKU_002" 100 1 ] |};
    {| PurchaseRecord.seller_id := "seller_2"; PurchaseRecord.customer_id := "customer_2";
       PurchaseRecord.date := "2024-01-11"; PurchaseRecord.total_amount := 150;
       PurchaseRecord.items := [ sampleItem "SKU_001" 150 1 ] |};
    {| PurchaseRecord.seller_id := "seller_3"; PurchaseRecord.customer_id := "customer_1";
       PurchaseRecord.date := "2024-02-01"; PurchaseRecord.total_amount := 80;
       PurchaseRecord.items := [ sampleItem "SKU_002" 40 2 ] |};
    {| PurchaseRecord.seller_id := "seller_4"; PurchaseRecord.customer_id := "customer_2";
       PurchaseRecord.date := "2024-02-03"; PurchaseRecord.total_amount := 30;
       PurchaseRecord.items := [ sampleItem "SKU_002" 30 1 ] |} ].

Definition sampleData : js unit Data.t unit :=
  JObject {| Data.customers := JArray sampleCustomers;
             Data.products := JArray sampleProducts;
             Data.sellers := JArray sampleSellers;
             Data.purchase_records := JArray sampleRecords |}.

(** The options of the repository: its revenue and bonus functions. *)
Definition referenceOptions : js unit Options.t unit :=
  JObject {| Options.calculateRevenue := JFunction calculateSimpleRevenue;
             Options.calculateBonus := JFunction calculateBonusByProfit |}.

(** Sum of a list of numbers. *)
Definition sumQ (l : list Q) : Q := fold_right Qplus 0 l.


(** A profit strategy that returns on every argument. *)
Definition totalFn (calculateProfit : ProfitFn) : Prop :=
  forall item product, exists q, calculateProfit item product = Ok q.

(** A profit strategy that returns on every argument: an unknown product
    costs nothing. *)
Definition lenientProfit : ProfitFn :=
  fun item product =>
    match product with
    | Some p => Ok (lineRevenue item - Product.purchase_price p * Item.quantity item)
    | None => Ok (lineRevenue item)
    end.

(** One sale whose second item names a product that is not in
    [sampleProducts]. *)
Definition strayRecords : list PurchaseRecord.t :=
  [ {| PurchaseRecord.seller_id := "seller_1"; PurchaseRecord.customer_id := "customer_1";
       PurchaseRecord.date := "2024-03-05"; PurchaseRecord.total_amount := 270;
       PurchaseRecord.items := [ sampleItem "SKU_001" 100 2; sampleItem "SKU_404" 70 1 ] |} ].

(** The distinct elements of a list of keys, each at its first
    occurrence. *)
Fixpoint firstOccurrences (keys : list string) : list string :=
  match keys with
  | [] => []
  | k :: r => k :: filter (fun k' => negb (String.eqb k' k)) (firstOccurrences r)
  end.

(** The order in which an object enumerates keys created in the order
    [keys]: array indices ascending, then the rest as created. *)
Definition enumerationOrder (keys : list string) : list string :=
  JsObject.keys (map (fun k => (k, tt)) keys).

(** The items of [array] with key [k], in the order of [array]. *)
Definition itemsWithKey {A} (array : list A) (keyFn : A -> string) (k : string) : list A :=
  filter (fun item => String.eqb (keyFn item) k) array.

(** What each reference rule maximises, and the existence of a candidate
    with a strictly positive value of it. *)
Definition positiveCustomer (stats : Metrics.t) : Prop :=
  exists e, In e (JsObject.entries (Metrics.customers stats))
            /\ 0 < CustomerAggregate.revenue (snd e).

Definition positiveSellerOf (stats : Metrics.t) (customer : CustomerAggregate.t) : Prop :=
  exists sellerId, In sellerId (CustomerAggregate.sellers customer)
                   /\ 0 < sellerRevenueOrZero stats sellerId.

Definition retentionOf (stats : Metrics.t) (data : SellerAggregate.t) : number :=
  mathMax (map (customerRevenueOrZero stats) (SellerAggregate.customers data)).

Definition positiveRetention (stats : Metrics.t) : Prop :=
  exists e, In e (JsObject.entries (Metrics.sellers stats))
            /\ gt (retentionOf stats (snd e)) (Fin 0) = true.

Definition positiveSale (recordsBySeller : JsObject.t (list PurchaseRecord.t)) : Prop :=
  exists e record, In e (JsObject.entries recordsBySeller) /\ In record (snd e)
                   /\ 0 < PurchaseRecord.total_amount record.

Definition positiveAverage (stats : Metrics.t) : Prop :=
  exists e, In e (JsObject.entries (Metrics.sellers stats))
            /\ 0 < averageProfit (snd e).

(** A seller whose monthly averages are both stable and increasing. *)
Definition qualifies (monthlyAverages : list Q) : bool :=
  (isStable (analyzeSequence monthlyAverages 0.05)
   && isIncreasing (analyzeSequence monthlyAverages 0.05))%bool.

(** Seller 1 sells one unit to customer 1 and takes two units back from
    customer 2. *)
Definition returnsRecords : list PurchaseRecord.t :=
  [ {| PurchaseRecord.seller_id := "seller_1"; PurchaseRecord.customer_id := "customer_1";
       PurchaseRecord.date := "2024-03-05"; PurchaseRecord.total_amount := 100;
       PurchaseRecord.items := [ sampleItem "SKU_001" 100 1 ] |};
    {| PurchaseRecord.seller_id := "seller_1"; PurchaseRecord.customer_id := "customer_2";
       PurchaseRecord.date := "2024-03-09"; PurchaseRecord.total_amount := -200;
       PurchaseRecord.items := [ sampleItem "SKU_001" 100 (-2) ] |} ].

(** The context [calculateSpecialBonuses] builds (lines 94-103) from the
    records, the profit function and the statistics. *)
Definition contextOf (records : list PurchaseRecord.t) (calculateProfit : ProfitFn)
    (stats : Metrics.t) : Context :=
  {| stats := stats;
     recordsBySeller := groupBy records PurchaseRecord.seller_id;
     recordsByCustomer := groupBy records PurchaseRecord.customer_id;
     recordsByProduct := groupBy (flat_map PurchaseRecord.items records) Item.sku;
     sellers := sampleSellers;
     customers := sampleCustomers;
     products := sampleProducts;
     calculateProfit := calculateProfit |}.

Definition returnsStats : Metrics.t :=
  match baseMetrics returnsRecords simpleProfit sampleProducts with
  | Ok m => m
  | Throw _ =>
      {| Metrics.sellers := JsObject.empty; Metrics.customers := JsObject.empty;
         Metrics.products := JsObject.empty |}
  end.

Definition sampleStats : Metrics.t :=
  match baseMetrics sampleRecords simpleProfit sampleProducts with
  | Ok m => m
  | Throw _ =>
      {| Metrics.sellers := JsObject.empty; Metrics.customers := JsObject.empty;
         Metrics.products := JsObject.empty |}
  end.

Definition sampleContext : Context := contextOf sampleRecords simpleProfit sampleStats.

(** Two sellers tie for the largest sale; the one seen second in the input
    has an earlier, smaller sale. *)
Definition tiedRecords : list PurchaseRecord.t :=
  [ {| PurchaseRecord.seller_id := "seller_2"; PurchaseRecord.customer_id := "customer_1";
       PurchaseRecord.date := "2024-01-03"; PurchaseRecord.total_amount := 50;
       PurchaseRecord.items := [ sampleItem "SKU_002" 50 1 ] |};
    {| PurchaseRecord.seller_id := "seller_1"; PurchaseRecord.customer_id := "customer_1";
       PurchaseRecord.date := "2024-01-04"; PurchaseRecord.total_amount := 100;
       PurchaseRecord.items := [ sampleItem "SKU_001" 100 1 ] |};
    {| PurchaseRecord.seller_id := "seller_2"; PurchaseRecord.customer_id := "customer_2";
       PurchaseRecord.date := "2024-01-05"; PurchaseRecord.total_amount := 100;
       PurchaseRecord.items := [ sampleItem "SKU_001" 100 1 ] |} ].






(** Products whose skus are numerals, sold in the order "2", "1". *)
Definition numberedProducts : list Product.t :=
  [ {| Product.sku := "1"; Product.purchase_price := 50 |};
    {| Product.sku := "2"; Product.purchase_price := 20 |} ].

Definition numberedRecords : list PurchaseRecord.t :=
  [ {| PurchaseRecord.seller_id := "seller_1"; PurchaseRecord.customer_id := "customer_1";
       PurchaseRecord.date := "2024-01-10"; PurchaseRecord.total_amount := 200;
       PurchaseRecord.items := [ sampleItem "2" 100 1; sampleItem "1" 100 1 ] |} ].

Definition numberedData : js unit Data.t unit :=
  JObject {| Data.customers := JArray sampleCustomers;
             Data.products := JArray numberedProducts;
             Data.sellers := JArray [ sampleSeller "1" ];
             Data.purchase_records := JArray numberedRecords |}.



(** Seller [s] lists customer [c] among its customers. *)
Definition sellerLists (m : Metrics.t) (s c : string) : Prop :=
  exists data, JsObject.get (Metrics.sellers m) s = Some data
               /\ In c (SellerAggregate.customers data).

(** Customer [c] lists seller [s] among its sellers. *)
Definition customerLists (m : Metrics.t) (s c : string) : Prop :=
  exists data, JsObject.get (Metrics.customers m) c = Some data
               /\ In s (CustomerAggregate.sellers data).

(** Some record of seller [s] for customer [c] has an item. *)
Definition soldTo (records : list PurchaseRecord.t) (s c : string) : Prop :=
  exists record, In record records
                 /\ PurchaseRecord.seller_id record = s
                 /\ PurchaseRecord.customer_id record = c
                 /\ PurchaseRecord.items record <> [].



(** A dataset given by its four catalogs. *)
Definition dataOf (customers : list Customer.t) (products : list Product.t)
    (sellers : list Seller.t) (records : list PurchaseRecord.t) : js unit Data.t unit :=
  JObject {| Data.customers := JArray customers;
             Data.products := JArray products;
             Data.sellers := JArray sellers;
             Data.purchase_records := JArray records |}.

(** The record's seller is in the seller catalog. *)
Definition knownSeller (sellers : list Seller.t) (record : PurchaseRecord.t) : bool :=
  existsb (String.eqb (PurchaseRecord.seller_id record)) (map Seller.id sellers).

(** The item's product is in the product catalog. *)
Definition knownProduct (products : list Product.t) (item : Item.t) : bool :=
  existsb (String.eqb (Item.sku item)) (map Product.sku products).

(** The records without those of sellers outside the catalog, and without
    the items of products outside the catalog. *)
Definition cleaned (sellers : list Seller.t) (products : list Product.t)
    (records : list PurchaseRecord.t) : list PurchaseRecord.t :=
  map (fun record =>
         {| PurchaseRecord.seller_id := PurchaseRecord.seller_id record;
            PurchaseRecord.customer_id := PurchaseRecord.customer_id record;
            PurchaseRecord.date := PurchaseRecord.date record;
            PurchaseRecord.total_amount := PurchaseRecord.total_amount record;
            PurchaseRecord.items :=
              filter (knownProduct products) (PurchaseRecord.items record) |})
      (filter (knownSeller sellers) records).

(** The profit line 330 computes for an item: nothing when the product is
    not in the index (line 327). *)
Definition itemProfit (productIndex : JsObject.t Product.t) (calculateRevenue : RevenueFn)
    (item : Item.t) : Q :=
  match JsObject.get productIndex (Item.sku item) with
  | Some product =>
      match calculateRevenue item product with
      | Ok revenue => revenue - Product.purchase_price product * Item.quantity item
      | Throw _ => 0
      end
  | None => 0
  end.

(** The records the seller index sends to position [j] of [sellerStats]. *)
Definition refersTo (sellerIndex : JsObject.t nat) (j : nat) (record : PurchaseRecord.t)
    : bool :=
  match JsObject.get sellerIndex (PurchaseRecord.seller_id record) with
  | Some ref => (ref =? j)%nat
  | None => false
  end.

(** Sum of a list of integers. *)
Definition sumZ (l : list Z) : Z := fold_right Z.add 0%Z l.

(** ** Vocabulary of the properties in binary64 arithmetic *)

(** The place of a binary64 value in the order of the numbers: sign and
    kind first, then exponent, then mantissa; NaN has none. *)
Definition rank (f : spec_float) : option (Z * Z * Z) :=
  match f with
  | S754_nan => None
  | S754_infinity true => Some (-2, 0, 0)%Z
  | S754_infinity false => Some (2, 0, 0)%Z
  | S754_zero _ => Some (0, 0, 0)%Z
  | S754_finite true m e => Some (-1, - e, Zneg m)%Z
  | S754_finite false m e => Some (1, e, Zpos m)%Z
  end.

Definition lexCompare (a b : Z * Z * Z) : comparison :=
  let '(a1, a2, a3) := a in
  let '(b1, b2, b3) := b in
  match (a1 ?= b1)%Z with
  | Eq => match (a2 ?= b2)%Z with
          | Eq => (a3 ?= b3)%Z
          | c => c
          end
  | c => c
  end.

Definition below (a b : Z * Z * Z) : Prop :=
  let '(a1, a2, a3) := a in
  let '(b1, b2, b3) := b in
  (a1 < b1 \/ (a1 = b1 /\ (a2 < b2 \/ (a2 = b2 /\ a3 < b3))))%Z.

Definition key (x : float) : option (Z * Z * Z) := rank (Prim2SF x).

(** A profit strategy that returns on every argument. *)
Definition returnsAlways (calculateProfit : Double.ProfitFn) : Prop :=
  forall item product, exists q, calculateProfit item product = Ok q.

(** The seller and the customer of every record that has an item are
    named by ids that are no member of [Object.prototype]. *)
Definition plainParties (records : list Double.PurchaseRecord.t) : Prop :=
  forall record,
    In record records -> Double.PurchaseRecord.items record <> [] ->
    inherited (Double.PurchaseRecord.seller_id record) = false
    /\ inherited (Double.PurchaseRecord.customer_id record) = false.

(** A profit strategy for which an unknown product costs nothing. *)
Definition lenientProfit64 : Double.ProfitFn :=
  fun item product =>
    match product with
    | Some p =>
        Ok (Double.lineRevenue item
            - Double.Product.purchase_price p * Double.Item.quantity item)%float
    | None => Ok (Double.lineRevenue item)
    end.

(** One unit at a price, no discount. *)
Definition unitAt (sku : string) (price : float) : Double.Item.t :=
  {| Double.Item.sku := sku; Double.Item.sale_price := price;
     Double.Item.quantity := 1; Double.Item.discount := 0 |}.

(** Two sellers with two lines each, at 0.1 and 0.3 and at 1.1 and 3.3. *)
Definition roundingRecords : list Double.PurchaseRecord.t :=
  [ {| Double.PurchaseRecord.seller_id := "seller_1";
       Double.PurchaseRecord.customer_id := "customer_1";
       Double.PurchaseRecord.date := "2024-01-10";
       Double.PurchaseRecord.total_amount := 0.4;
       Double.PurchaseRecord.items := [ unitAt "SKU_001" 0.1; unitAt "SKU_002" 0.3 ] |};
    {| Double.PurchaseRecord.seller_id := "seller_2";
       Double.PurchaseRecord.customer_id := "customer_2";
       Double.PurchaseRecord.date := "2024-01-11";
       Double.PurchaseRecord.total_amount := 4.4;
       Double.PurchaseRecord.items := [ unitAt "SKU_001" 1.1; unitAt "SKU_002" 3.3 ] |} ].

Definition products64 : list Double.Product.t :=
  [ {| Double.Product.sku := "SKU_001"; Double.Product.purchase_price := 0.05 |};
    {| Double.Product.sku := "SKU_002"; Double.Product.purchase_price := 0.2 |} ].

(** The revenue of a seller bucket is the sum of the line revenues of its
    items, added one after the other in binary64. *)
Definition settled (bucket : Double.SellerAggregate.t) : Prop :=
  Double.SellerAggregate.revenue bucket
  = fold_left add
      (map (fun item =>
              (Double.Item.sale_price item * Double.Item.quantity item
               * (1 - Double.Item.discount item / 100))%float)
           (Double.SellerAggregate.items bucket))
      0%float.

(** The items held by the seller buckets, bucket after bucket. *)
Definition heldItems (sellers : list (string * Double.SellerAggregate.t))
    : list Double.Item.t :=
  flat_map (fun e => Double.SellerAggregate.items (snd e)) sellers.

(** [w] is the first greatest element of [l]: nothing before it reaches
    it, nothing after it exceeds it. *)
Definition firstGreatest {E} (value : E -> float) (l : list E) (w : E) : Prop :=
  exists l1 l2, l = l1 ++ w :: l2
    /\ (forall e, In e l1 -> (value w <=? value e)%float = false)
    /\ (forall e, In e l2 -> (value w <? value e)%float = false).

(** The award for a winning record: its seller and a tenth of its amount,
    the product rounded by [toFixed(2)]. *)
Definition largestSaleAward64 (winner : Double.PurchaseRecord.t) : Double.BonusResult :=
  {| Double.category := "Largest Single Sale";
     Double.seller_id := Some (Double.PurchaseRecord.seller_id winner);
     Double.bonus := Double.toFixed2 (Double.PurchaseRecord.total_amount winner * 0.1)%float |}.

(** A sale without items. *)
Definition saleOf (seller customer date : string) (amount : float)
    : Double.PurchaseRecord.t :=
  {| Double.PurchaseRecord.seller_id := seller;
     Double.PurchaseRecord.customer_id := customer;
     Double.PurchaseRecord.date := date;
     Double.PurchaseRecord.total_amount := amount;
     Double.PurchaseRecord.items := [] |}.

(** Two sellers tie for the largest sale; the one seen second in the input
    has an earlier, smaller sale. *)
Definition tiedSales : list Double.PurchaseRecord.t :=
  [ saleOf "seller_2" "customer_1" "2024-01-03" 50;
    saleOf "seller_1" "customer_1" "2024-01-04" 100;
    saleOf "seller_2" "customer_2" "2024-01-05" 100 ].

(** The context of lines 94-103 for given groupings and statistics. *)
Definition contextOf64 (recordsBySeller : JsObject.t (list Double.PurchaseRecord.t))
    (calculateProfit : Double.ProfitFn) (products : list Double.Product.t)
    : Double.Context :=
  {| Double.stats :=
       {| Double.Metrics.sellers := JsObject.empty;
          Double.Metrics.customers := JsObject.empty;
          Double.Metrics.products := JsObject.empty |};
     Double.recordsBySeller := recordsBySeller;
     Double.recordsByCustomer := JsObject.empty;
     Double.recordsByProduct := JsObject.empty;
     Double.sellers := sampleSellers;
     Double.customers := sampleCustomers;
     Double.products := products;
     Double.calculateProfit := calculateProfit |}.

(** A key that is a year and a month, [YYYY-MM]: the strings for which
    [new Date(key)] is specified, and a valid date. *)
Definition validMonth (key : string) : bool :=
  match dateValue key with
  | Fin _ => true
  | _ => false
  end.

(** Monthly averages that are both stable and increasing. *)
Definition qualifies64 (monthlyAverages : list float) : bool :=
  (isStable (Double.analyzeSequence monthlyAverages 0.05)
   && isIncreasing (Double.analyzeSequence monthlyAverages 0.05))%bool.

(** A sale of one item. *)
Definition saleWith (seller date : string) (item : Double.Item.t)
    : Double.PurchaseRecord.t :=
  {| Double.PurchaseRecord.seller_id := seller;
     Double.PurchaseRecord.customer_id := "customer_1";
     Double.PurchaseRecord.date := date;
     Double.PurchaseRecord.total_amount :=
       (Double.Item.sale_price item * Double.Item.quantity item)%float;
     Double.PurchaseRecord.items := [ item ] |}.

(** Two months of two sellers: the profit of seller 1 falls, that of
    seller 2, whose months come in reverse, doubles. *)
Definition seasonRecords : list Double.PurchaseRecord.t :=
  [ saleWith "seller_1" "2024-01-10" (unitAt "SKU_001" 100);
    saleWith "seller_1" "2024-02-10" (unitAt "SKU_001" 80);
    saleWith "seller_2" "2024-02-05" (unitAt "SKU_002" 200);
    saleWith "seller_2" "2024-01-05" (unitAt "SKU_002" 100) ].

(** A profit strategy that refuses a discount above 100. *)
Definition strictProfit : Double.ProfitFn :=
  fun item product =>
    if (100 <? Double.Item.discount item)%float then Throw (Error "discount")
    else Double.simpleProfit item product.

(** The context of lines 94-103 when the three groupings return. *)
Definition sharedContext64 (data : Double.Dataset.t) (calculateProfit : Double.ProfitFn)
    (stats : Double.Metrics.t) : Double.Context :=
  {| Double.stats := stats;
     Double.recordsBySeller :=
       groupBy (Double.Dataset.purchase_records data) Double.PurchaseRecord.seller_id;
     Double.recordsByCustomer :=
       groupBy (Double.Dataset.purchase_records data) Double.PurchaseRecord.customer_id;
     Double.recordsByProduct :=
       groupBy (flat_map Double.PurchaseRecord.items (Double.Dataset.purchase_records data))
               Double.Item.sku;
     Double.sellers := Double.Dataset.sellers data;
     Double.customers := Double.Dataset.customers data;
     Double.products := Double.Dataset.products data;
     Double.calculateProfit := calculateProfit |}.

(** The keys the three groupings of lines 85-87 meet, in the order in
    which they meet them. *)
Definition groupingKeys (records : list Double.PurchaseRecord.t) : list string :=
  map Double.PurchaseRecord.seller_id records
  ++ map Double.PurchaseRecord.customer_id records
  ++ map Double.Item.sku (flat_map Double.PurchaseRecord.items records).

(** A sale of several items to a customer. *)
Definition saleTo (seller customer date : string) (amount : float)
    (items : list Double.Item.t) : Double.PurchaseRecord.t :=
  {| Double.PurchaseRecord.seller_id := seller;
     Double.PurchaseRecord.customer_id := customer;
     Double.PurchaseRecord.date := date;
     Double.PurchaseRecord.total_amount := amount;
     Double.PurchaseRecord.items := items |}.

(** Three sales of two sellers to two customers. *)
Definition marketRecords : list Double.PurchaseRecord.t :=
  [ saleTo "seller_1" "customer_1" "2024-01-10" 0.2 [ unitAt "SKU_001" 0.2 ];
    saleTo "seller_2" "customer_2" "2024-01-11" 0.3 [ unitAt "SKU_001" 0.3 ];
    saleTo "seller_1" "customer_1" "2024-01-12" 0.05 [ unitAt "SKU_001" 0.05 ] ].

Definition emptyMetrics64 : Double.Metrics.t :=
  {| Double.Metrics.sellers := JsObject.empty;
     Double.Metrics.customers := JsObject.empty;
     Double.Metrics.products := JsObject.empty |}.

Definition marketData : Double.Dataset.t :=
  {| Double.Dataset.customers := sampleCustomers;
     Double.Dataset.products := products64;
     Double.Dataset.sellers := sampleSellers;
     Double.Dataset.purchase_records := marketRecords |}.

(** The statistics of the market, as [baseMetrics] computes them. *)
Definition marketStats : Double.Metrics.t :=
  match Double.baseMetrics marketRecords Double.simpleProfit products64 with
  | Ok m => m
  | Throw _ => emptyMetrics64
  end.

Definition marketContext : Double.Context :=
  sharedContext64 marketData Double.simpleProfit marketStats.

(** Three sellers over several months: the profit of seller 1 grows by
    about two percent a month, that of seller 2 doubles, that of seller 3
    grows by two percent from a higher level. *)
Definition growthRecords : list Double.PurchaseRecord.t :=
  [ saleWith "seller_1" "2024-01-10" (unitAt "SKU_001" 100);
    saleWith "seller_2" "2024-01-12" (unitAt "SKU_001" 10);
    saleWith "seller_1" "2024-03-10" (unitAt "SKU_001" 104);
    saleWith "seller_3" "2024-02-20" (unitAt "SKU_002" 204);
    saleWith "seller_1" "2024-02-10" (unitAt "SKU_001" 102);
    saleWith "seller_2" "2024-02-12" (unitAt "SKU_001" 20);
    saleWith "seller_3" "2024-01-20" (unitAt "SKU_002" 200) ].

Definition growthContext : Double.Context :=
  contextOf64 (groupBy growthRecords Double.PurchaseRecord.seller_id)
              Double.simpleProfit products64.

(** No record names its seller, and no item its product, by a member of
    [Object.prototype]: the lookups of lines 320 and 326 then find own
    properties only. *)
Definition plainRecords (records : list PurchaseRecord.t) : Prop :=
  forall record,
    In record records ->
    inherited (PurchaseRecord.seller_id record) = false
    /\ forall item, In item (PurchaseRecord.items record) ->
                    inherited (Item.sku item) = false.

Definition plainRecordsb (records : list PurchaseRecord.t) : bool :=
  forallb (fun record =>
             (negb (inherited (PurchaseRecord.seller_id record))
              && forallb (fun item => negb (inherited (Item.sku item)))
                         (PurchaseRecord.items record))%bool)
          records.

(** A key that names no member of [Object.prototype]. *)
Definition plain (key : string) : bool := negb (inherited key).

(** The records that name a seller, and those that name a customer, in
    input order. *)
Definition recordsOfSeller (s : string) (records : list Double.PurchaseRecord.t)
    : list Double.PurchaseRecord.t :=
  filter (fun record => String.eqb (Double.PurchaseRecord.seller_id record) s) records.

Definition recordsOfCustomer (c : string) (records : list Double.PurchaseRecord.t)
    : list Double.PurchaseRecord.t :=
  filter (fun record => String.eqb (Double.PurchaseRecord.customer_id record) c) records.

(** [revenue] and [profit] are the totals of the item lines [lines]: the
    sum of sale_price * quantity * (1 - discount / 100) and the sum of
    what the profit function returned, each added line after line in
    binary64 from 0. *)
Definition totalsOfLines (calculateProfit : Double.ProfitFn)
    (products : list Double.Product.t) (lines : list Double.Item.t)
    (revenue profit : float) : Prop :=
  revenue
  = fold_left add
      (map (fun item =>
              (Double.Item.sale_price item * Double.Item.quantity item
               * (1 - Double.Item.discount item / 100))%float)
           lines)
      0%float
  /\ exists profits,
       Forall2 (fun item p =>
                  calculateProfit item (Double.findProduct products item) = Ok p)
               lines profits
       /\ profit = fold_left add profits 0%float.

(** A seller bucket that holds the item lines [lines]. *)
Definition sellerHolds (calculateProfit : Double.ProfitFn)
    (products : list Double.Product.t) (lines : list Double.Item.t)
    (bucket : Double.SellerAggregate.t) : Prop :=
  Double.SellerAggregate.items bucket = lines
  /\ totalsOfLines calculateProfit products lines
                   (Double.SellerAggregate.revenue bucket)
                   (Double.SellerAggregate.profit bucket).

(** A customer bucket that holds the item lines [lines]. *)
Definition customerHolds (calculateProfit : Double.ProfitFn)
    (products : list Double.Product.t) (lines : list Double.Item.t)
    (bucket : Double.CustomerAggregate.t) : Prop :=
  totalsOfLines calculateProfit products lines
                (Double.CustomerAggregate.revenue bucket)
                (Double.CustomerAggregate.profit bucket).

(** The dataset object of a call of [analyzeSalesData]. *)
Definition dataOf64 (customers : list Customer.t) (products : list Double.Product.t)
    (sellers : list Seller.t) (records : list Double.PurchaseRecord.t)
    : js unit Double.Data.t unit :=
  JObject {| Double.Data.customers := JArray customers;
             Double.Data.products := JArray products;
             Double.Data.sellers := JArray sellers;
             Double.Data.purchase_records := JArray records |}.

(** No record names its seller, and no item its product, by a member of
    [Object.prototype]. *)
Definition plainRecords64 (records : list Double.PurchaseRecord.t) : Prop :=
  forall record,
    In record records ->
    inherited (Double.PurchaseRecord.seller_id record) = false
    /\ forall item, In item (Double.PurchaseRecord.items record) ->
                    inherited (Double.Item.sku item) = false.

Definition plainRecords64b (records : list Double.PurchaseRecord.t) : bool :=
  forallb (fun record =>
             (negb (inherited (Double.PurchaseRecord.seller_id record))
              && forallb (fun item => negb (inherited (Double.Item.sku item)))
                         (Double.PurchaseRecord.items record))%bool)
          records.

(** The records the seller index sends to position [j] of [sellerStats]. *)
Definition refersTo64 (sellerIndex : JsObject.t nat) (j : nat)
    (record : Double.PurchaseRecord.t) : bool :=
  match JsObject.get sellerIndex (Double.PurchaseRecord.seller_id record) with
  | Some ref => (ref =? j)%nat
  | None => false
  end.

(** The item's sku is the sku of a product of the catalog. *)
Definition inCatalog (products : list Double.Product.t) (item : Double.Item.t) : bool :=
  existsb (String.eqb (Double.Item.sku item)) (map Double.Product.sku products).

(** [p] is the profit of the item line: what the revenue strategy
    returned for the item and a product of the catalog with its sku, less
    the purchase price of that product times the quantity. *)
Definition lineProfit (products : list Double.Product.t)
    (calculateRevenue : Double.RevenueFn) (item : Double.Item.t) (p : float) : Prop :=
  exists product revenue,
    In product products
    /\ Double.Product.sku product = Double.Item.sku item
    /\ calculateRevenue item product = Ok revenue
    /\ p = (revenue - Double.Product.purchase_price product * Double.Item.quantity item)%float.

(** The reference bonus strategy, given its arguments in the order it
    declares them. *)
Definition bonusByProfitAsCalled64 : Double.BonusFn :=
  fun seller index total => Double.calculateBonusByProfit index total seller.

(** The rate of a rank: 0.15 at the top, 0.1 at the next two ranks, 0.05
    from there on. *)
Definition rateAt64 (index : nat) : float :=
  match index with
  | O => 0.15
  | S O | S (S O) => 0.1
  | _ => 0.05
  end.

(** Two sales of seller 1 and one of seller 2, at figures that do not
    round as their decimals do. *)
Definition roundedSales : list Double.PurchaseRecord.t :=
  [ saleTo "seller_1" "customer_1" "2024-01-10" 1.005 [ unitAt "SKU_001" 0.15 ];
    saleTo "seller_2" "customer_2" "2024-01-11" 291.465
           [ {| Double.Item.sku := "SKU_003"; Double.Item.sale_price := 68.58;
                Double.Item.quantity := 5; Double.Item.discount := 15 |};
             unitAt "SKU_404" 10 ] ].

Definition roundedProducts : list Double.Product.t :=
  [ {| Double.Product.sku := "SKU_001"; Double.Product.purchase_price := 0.05 |};
    {| Double.Product.sku := "SKU_003"; Double.Product.purchase_price := 34.48 |} ].

Definition roundedData : js unit Double.Data.t unit :=
  dataOf64 sampleCustomers roundedProducts [ sampleSeller "1"; sampleSeller "2" ] roundedSales.

Definition correctedOptions64 : js unit Double.Options.t unit :=
  JObject {| Double.Options.calculateRevenue := JFunction Double.calculateSimpleRevenue;
             Double.Options.calculateBonus := JFunction bonusByProfitAsCalled64 |}.
(** * Properties *)

(** ** Comparisons and rounding *)

Lemma Qlt_bool_iff (x y : Q) : Qlt_bool x y = true <-> x < y.
Proof.
  unfold Qlt_bool. rewrite negb_true_iff.
  split; intro H.
  - apply Qnot_le_lt. intro L. apply Qle_bool_iff in L. congruence.
  - destruct (Qle_bool y x) eqn:E; [|reflexivity].
    apply Qle_bool_iff in E. apply Qle_not_lt in E. contradiction.
Qed.

Lemma Qlt_bool_false_iff (x y : Q) : Qlt_bool x y = false <-> y <= x.
Proof.
  split; intro H.
  - apply Qnot_lt_le. intro L. apply Qlt_bool_iff in L. congruence.
  - destruct (Qlt_bool x y) eqn:E; [|reflexivity].
    apply Qlt_bool_iff in E. apply Qle_not_lt in H. contradiction.
Qed.

Lemma Qeq_bool_false_iff (x y : Q) : Qeq_bool x y = false <-> ~ x == y.
Proof.
  split; intro H.
  - intro E. apply Qeq_bool_iff in E. congruence.
  - destruct (Qeq_bool x y) eqn:E; [|reflexivity].
    apply Qeq_bool_iff in E. contradiction.
Qed.

(** ** [analyzeSequence] *)

Example analyzeSequence_growing :
  analyzeSequence [100; 102; 104; 106] 0.05
  = {| isStable := true; isIncreasing := true; isDecreasing := false |}.
Proof. reflexivity. Qed.

Example analyzeSequence_jump :
  analyzeSequence [100; 200] 0.05
  = {| isStable := false; isIncreasing := true; isDecreasing := false |}.
Proof. reflexivity. Qed.

(** A zero before the end: the change from 0 to 5 is infinite, the change
    from 0 to 0 is NaN and passes the test of line 40. *)
Example analyzeSequence_zero :
  isStable (analyzeSequence [0; 5] 0.05) = false
  /\ isStable (analyzeSequence [0; 0] 0.05) = true.
Proof. split; reflexivity. Qed.

(** ** Validation in [analyzeSalesData] *)

Lemma usableCatalog_dec {A} (c : Catalog A) :
  {usableCatalog c} + {isArray c = false \/ (length (elements c) =? 0)%nat = true}.
Proof.
  destruct c as [| | | | |[|x l]| |]; try (right; left; reflexivity).
  - right. right. reflexivity.
  - left. now exists x, l.
Defined.

Lemma usableCatalog_checks {A} (c : Catalog A) :
  usableCatalog c -> isArray c = true /\ (length (elements c) =? 0)%nat = false.
Proof. intros (x & l & ->). split; reflexivity. Qed.

Lemma validData_checks (data : js unit Data.t unit) :
  validData data ->
  (negb (truthy data)
   || negb (isArray (prop data Data.customers))
   || negb (isArray (prop data Data.products))
   || negb (isArray (prop data Data.sellers))
   || negb (isArray (prop data Data.purchase_records))
   || (length (elements (prop data Data.customers)) =? 0)%nat
   || (length (elements (prop data Data.products)) =? 0)%nat
   || (length (elements (prop data Data.sellers)) =? 0)%nat
   || (length (elements (prop data Data.purchase_records)) =? 0)%nat)%bool = false.
Proof.
  intros (d & -> & Hc & Hp & Hs & Hr). cbn [truthy prop negb orb].
  destruct (usableCatalog_checks _ Hc) as [-> ->].
  destruct (usableCatalog_checks _ Hp) as [-> ->].
  destruct (usableCatalog_checks _ Hs) as [-> ->].
  destruct (usableCatalog_checks _ Hr) as [-> ->].
  reflexivity.
Qed.

Lemma invalidData_checks (data : js unit Data.t unit) :
  ~ validData data ->
  (negb (truthy data)
   || negb (isArray (prop data Data.customers))
   || negb (isArray (prop data Data.products))
   || negb (isArray (prop data Data.sellers))
   || negb (isArray (prop data Data.purchase_records))
   || (length (elements (prop data Data.customers)) =? 0)%nat
   || (length (elements (prop data Data.products)) =? 0)%nat
   || (length (elements (prop data Data.sellers)) =? 0)%nat
   || (length (elements (prop data Data.purchase_records)) =? 0)%nat)%bool = true.
Proof.
  intro Hbad.
  destruct data as [| | | | | |d|];
    try (cbn [prop isArray negb]; now rewrite ?orb_true_r).
  cbn [truthy prop negb orb].
  destruct (usableCatalog_dec (Data.customers d)) as [Hc|[->| ->]];
    [|now rewrite ?orb_true_r..].
  destruct (usableCatalog_dec (Data.products d)) as [Hp|[->| ->]];
    [|now rewrite ?orb_true_r..].
  destruct (usableCatalog_dec (Data.sellers d)) as [Hs|[->| ->]];
    [|now rewrite ?orb_true_r..].
  destruct (usableCatalog_dec (Data.purchase_records d)) as [Hr|[->| ->]];
    [|now rewrite ?orb_true_r..].
  exfalso. apply Hbad. exists d. auto.
Qed.

Lemma validOptions_checks (options : js unit Options.t unit) :
  validOptions options ->
  forall data, validData data -> checkInput data options = Ok tt.
Proof.
  intros (o & -> & (f & Hf) & (g & Hg)) data Hdata.
  unfold checkInput. rewrite (validData_checks data Hdata).
  cbn [typeof isNull prop]. rewrite Hf, Hg. reflexivity.
Qed.

Lemma invalidOptions_checks (data : js unit Data.t unit) (options : js unit Options.t unit) :
  ~ validOptions options ->
  exists message, checkInput data options = Throw (Error message).
Proof.
  intro Hbad. unfold checkInput.
  match goal with |- context [if ?c then _ else _] => destruct c end;
    [eexists; reflexivity|].
  destruct options as [| | | | | |o|]; try (eexists; reflexivity).
  cbn [prop].
  destruct (Options.calculateRevenue o) as [| | | | | | |f] eqn:Hf;
    destruct (Options.calculateBonus o) as [| | | | | | |g] eqn:Hg;
    cbn;
    repeat match goal with
           | |- context [if ?c then _ else _] => destruct c
           end;
    try (eexists; reflexivity).
  exfalso. apply Hbad. exists o. eauto.
Qed.

(** C4. [analyzeSalesData] throws, with the error of the checks of lines
    269-293 and whatever the strategies would do, as soon as a catalog is
    missing, not an array or empty, the options are missing or not an
    object, or a strategy is missing or not callable; on a dataset and
    options free of these defects the checks pass. *)
Theorem analyzeSalesData_validation
    (data : js unit Data.t unit) (options : js unit Options.t unit) :
  (~ validData data \/ ~ validOptions options ->
   exists message,
     checkInput data options = Throw (Error message)
     /\ analyzeSalesData data options = Throw (Error message))
  /\ (validData data -> validOptions options -> checkInput data options = Ok tt).
Proof.
  split.
  - intros [Hd|Ho].
    + exists "Некорректные входные данные".
      unfold analyzeSalesData, checkInput.
      rewrite (invalidData_checks data Hd). split; reflexivity.
    + destruct (invalidOptions_checks data options Ho) as [message Hm].
      exists message. unfold analyzeSalesData. rewrite Hm. split; reflexivity.
  - intros Hd Ho. now apply validOptions_checks.
Qed.

Lemma analyzeSalesData_validation_witness :
  validData sampleData /\ validOptions referenceOptions
  /\ checkInput sampleData referenceOptions = Ok tt.
Proof.
  assert (Hd : validData sampleData).
  { eexists. split; [reflexivity|].
    repeat split; eexists; eexists; reflexivity. }
  assert (Ho : validOptions referenceOptions).
  { eexists. split; [reflexivity|]. split; eexists; reflexivity. }
  split; [exact Hd|]. split; [exact Ho|].
  exact (proj2 (analyzeSalesData_validation sampleData referenceOptions) Hd Ho).
Defined.

(** ** Objects: enumeration is a rearrangement of the own properties *)

Section ObjectFacts.

Context {V : Type}.

Lemma insertKey_perm (e : string * V) (l : list (string * V)) :
  Permutation (JsObject.insertKey e l) (e :: l).
Proof.
  induction l as [|e' r IH]; cbn [JsObject.insertKey]; [reflexivity|].
  destruct (_ <=? _)%N; [reflexivity|].
  rewrite IH. apply perm_swap.
Qed.

Lemma ascending_perm (l : list (string * V)) :
  Permutation (JsObject.ascending l) l.
Proof.
  induction l as [|e r IH]; cbn; [reflexivity|].
  unfold JsObject.ascending in IH. rewrite insertKey_perm. now constructor.
Qed.

Lemma partition_perm (f : string * V -> bool) (l : list (string * V)) :
  Permutation (filter f l ++ filter (fun e => negb (f e)) l) l.
Proof.
  induction l as [|e r IH]; cbn; [reflexivity|].
  destruct (f e); cbn.
  - now constructor.
  - rewrite <- Permutation_middle. now constructor.
Qed.

Lemma entries_perm (o : JsObject.t V) : Permutation (JsObject.entries o) o.
Proof.
  unfold JsObject.entries. rewrite ascending_perm. apply partition_perm.
Qed.

Lemma get_set_same (o : JsObject.t V) (k : string) (v : V) :
  JsObject.get (JsObject.set o k v) k = Some v.
Proof.
  induction o as [|[k' v'] r IH]; cbn.
  - now rewrite String.eqb_refl.
  - destruct (String.eqb k' k) eqn:E; cbn; now rewrite E.
Qed.

Lemma set_absent (o : JsObject.t V) (k : string) (v : V) :
  JsObject.get o k = None -> JsObject.set o k v = o ++ [(k, v)].
Proof.
  induction o as [|[k' v'] r IH]; cbn; [reflexivity|].
  destruct (String.eqb k' k); [discriminate|]. intro H. now rewrite IH.
Qed.

Lemma get_modify_same (o : JsObject.t V) (k : string) (f : V -> V) :
  JsObject.get (JsObject.modify o k f) k = option_map f (JsObject.get o k).
Proof.
  induction o as [|[k' v'] r IH]; cbn; [reflexivity|].
  destruct (String.eqb k' k) eqn:E; cbn; now rewrite E.
Qed.

End ObjectFacts.

Lemma sumQ_app (l1 l2 : list Q) : sumQ (l1 ++ l2) == sumQ l1 + sumQ l2.
Proof.
  unfold sumQ. induction l1 as [|x l1 IH]; cbn [app fold_right]; [lra|].
  rewrite IH. lra.
Qed.

(** ** [baseMetrics]: an item without a product *)

(** C1, at [strayRecords].  The item "SKU_404" has no product in the
    catalog.  It is not skipped: the profit function is called for it with
    no product, so the reference [simpleProfit] throws; with a profit
    function that returns, the item adds its revenue and profit to the
    seller and the customer and gets a product bucket of its own. *)
Theorem baseMetrics_unknown_sku_not_skipped :
  baseMetrics strayRecords simpleProfit sampleProducts = Throw TypeError
  /\ exists m seller customer product,
       baseMetrics strayRecords lenientProfit sampleProducts = Ok m
       /\ JsObject.get (Metrics.sellers m) "seller_1" = Some seller
       /\ SellerAggregate.revenue seller == 200 + 70
       /\ SellerAggregate.profit seller == 100 + 70
       /\ length (SellerAggregate.items seller) = 2%nat
       /\ JsObject.get (Metrics.customers m) "customer_1" = Some customer
       /\ CustomerAggregate.revenue customer == 200 + 70
       /\ JsObject.get (Metrics.products m) "SKU_404" = Some product
       /\ ProductAggregate.quantity product == 1
       /\ ProductAggregate.revenue product == 70.
Proof.
  split; [reflexivity|].
  do 4 eexists.
  repeat match goal with |- _ /\ _ => split end;
    try (vm_compute; reflexivity).
Qed.

(** ** The reference bonus strategy *)

(** Called as it is declared, [(index, total, seller)], the strategy pays
    15% of the profit at rank 0, 10% at ranks 1 and 2, nothing at rank -1
    and 5% at any other rank. *)
Lemma calculateBonusByProfit_declared (index : Q) (total : argument) (seller : SellerStat.t) :
  calculateBonusByProfit (ANumber index) total (ASeller seller)
  = Ok (Fin (if Qeq_bool index 0 then SellerStat.profit seller * 0.15
             else if (Qeq_bool index 1 || Qeq_bool index 2)%bool
                  then SellerStat.profit seller * 0.10
             else if Qeq_bool index (-1) then 0
             else SellerStat.profit seller * 0.05)).
Proof.
  unfold calculateBonusByProfit, strictEquals, profitTimes.
  destruct (Qeq_bool index 0); [reflexivity|].
  destruct (Qeq_bool index 1 || Qeq_bool index 2)%bool; [reflexivity|].
  destruct (Qeq_bool index (-1)); reflexivity.
Qed.

(** Called as line 348 calls it, [(seller, index, total)], it compares the
    seller object with the rank literals and multiplies the missing
    [profit] of a number: the result is NaN. *)
Lemma calculateBonusByProfit_as_called (seller : SellerStat.t) (index total : Q) :
  calculateBonusByProfit (ASeller seller) (ANumber index) (ANumber total) = Ok NaN.
Proof. reflexivity. Qed.

Lemma assignBonus_reference (total : nat) (l : list (nat * SellerStat.t)) :
  exists assigned,
    mapM (assignBonus calculateBonusByProfit total) l = Ok assigned
    /\ Forall (fun s => SellerStat.bonus s = NaN) assigned.
Proof.
  induction l as [|[i s] l (assigned & IH & Hall)]; cbn [mapM].
  - exists []. split; [reflexivity|constructor].
  - unfold assignBonus at 1. cbn [fst snd].
    rewrite calculateBonusByProfit_as_called. cbn [bind]. rewrite IH. cbn [bind].
    eexists. split; [reflexivity|]. constructor; [reflexivity|assumption].
Qed.

(** With the reference strategy injected, every seller of every report has
    bonus 0. *)
Lemma analyzeSalesData_reference_bonus
    (data : js unit Data.t unit) (o : Options.t) (reports : list Report.t) :
  Options.calculateBonus o = JFunction calculateBonusByProfit ->
  analyzeSalesData data (JObject o) = Ok reports ->
  Forall (fun r => Report.bonus r = Fin (toFixed2 0)) reports.
Proof.
  intros Hbonus. unfold analyzeSalesData.
  destruct (checkInput data (JObject o)); [|discriminate]. cbn [bind prop].
  rewrite Hbonus. cbn [callBonus]. unfold rankSellers.
  destruct (foldM _ _ _) as [collected|]; [|discriminate]. cbn [bind].
  match goal with
  | |- context [mapM (assignBonus _ ?n) ?l] =>
      destruct (assignBonus_reference n l) as (assigned & -> & Hall)
  end.
  cbn [bind]. intros [= <-].
  induction Hall as [|s assigned Hs _ IH]; cbn [map]; constructor; [|exact IH].
  unfold report. cbn [Report.bonus]. now rewrite Hs.
Qed.

(** C2, at [sampleData] with the options of the repository.  The four
    sellers are ranked by profit 180, 100, 40 and 10; the claim promises
    them 27, 10, 4 and 0.5, and each gets 0. *)
Theorem analyzeSalesData_reference_bonus_lost :
  exists reports,
    analyzeSalesData sampleData referenceOptions = Ok reports
    /\ map Report.seller_id reports = ["seller_1"; "seller_2"; "seller_3"; "seller_4"]
    /\ Forall2 Qeq (map Report.profit reports) [180; 100; 40; 10]
    /\ Forall (fun r => exists q, Report.bonus r = Fin q /\ q == 0) reports
    /\ toFixed2 (180 * 0.15) == 27.
Proof.
  eexists. split; [vm_compute; reflexivity|].
  split; [reflexivity|].
  split; [repeat constructor|].
  split; [|vm_compute; reflexivity].
  repeat constructor; eexists; (split; [reflexivity|vm_compute; reflexivity]).
Qed.

(** ** [groupBy] *)

Example groupBy_ex :
  JsObject.entries (groupBy ["b1"; "a1"; "b2"; "7x"; "10"; "9"] (fun s => substring 0 1 s))
  = [("1", ["10"]); ("7", ["7x"]); ("9", ["9"]); ("b", ["b1"; "b2"]); ("a", ["a1"])].
Proof. reflexivity. Qed.

Lemma firstOccurrences_In (keys : list string) (k : string) :
  In k (firstOccurrences keys) <-> In k keys.
Proof.
  induction keys as [|k0 r IH]; cbn; [tauto|].
  rewrite filter_In, IH, negb_true_iff, String.eqb_neq.
  destruct (String.eqb_spec k k0) as [->|Hne]; [tauto|].
  split; [tauto|]. intros [->|H]; [congruence|]. right. tauto.
Qed.

Lemma firstOccurrences_NoDup (keys : list string) : NoDup (firstOccurrences keys).
Proof.
  induction keys as [|k0 r IH]; cbn; constructor.
  - rewrite filter_In, String.eqb_refl. cbn. intros [_ H]. discriminate.
  - now apply NoDup_filter.
Qed.

Lemma firstOccurrences_snoc (keys : list string) (k : string) :
  firstOccurrences (keys ++ [k])
  = if existsb (String.eqb k) keys then firstOccurrences keys
    else firstOccurrences keys ++ [k].
Proof.
  induction keys as [|k0 r IH]; cbn [app firstOccurrences existsb filter]; [reflexivity|].
  rewrite IH. destruct (String.eqb_spec k k0) as [->|Hne]; cbn [orb].
  - destruct (existsb (String.eqb k0) r); [reflexivity|].
    rewrite filter_app. cbn. rewrite String.eqb_refl. cbn. now rewrite app_nil_r.
  - destruct (existsb (String.eqb k) r); [reflexivity|].
    rewrite filter_app. cbn.
    destruct (String.eqb_spec k k0); [contradiction|]. reflexivity.
Qed.

Lemma existsb_eqb_In (k : string) (l : list string) :
  existsb (String.eqb k) l = true <-> In k l.
Proof.
  rewrite existsb_exists. split.
  - intros (x & Hx & E). apply String.eqb_eq in E. now subst.
  - intro H. exists k. split; [assumption|apply String.eqb_refl].
Qed.

Section Tabulated.

(** Objects given by a list of distinct keys and a function of the key. *)
Context {V : Type}.

Lemma get_tabulate (g : string -> V) (ks : list string) (k : string) :
  JsObject.get (map (fun k' => (k', g k')) ks) k
  = if existsb (String.eqb k) ks then Some (g k) else None.
Proof.
  induction ks as [|k0 r IH]; cbn; [reflexivity|].
  rewrite (String.eqb_sym k k0).
  destruct (String.eqb_spec k0 k) as [->|Hne]; cbn; [reflexivity|exact IH].
Qed.

Lemma modify_tabulate (g : string -> V) (f : V -> V) (ks : list string) (k : string) :
  NoDup ks ->
  JsObject.modify (map (fun k' => (k', g k')) ks) k f
  = map (fun k' => (k', if String.eqb k' k then f (g k') else g k')) ks.
Proof.
  induction 1 as [|k0 r Hnotin Hnd IH]; cbn; [reflexivity|].
  destruct (String.eqb_spec k0 k) as [->|Hne]; cbn.
  - f_equal. apply map_ext_in. intros k' Hk'.
    destruct (String.eqb_spec k' k) as [->|]; [contradiction|reflexivity].
  - now rewrite IH.
Qed.

Lemma modify_app_absent (o : JsObject.t V) (k : string) (v : V) (f : V -> V) :
  JsObject.get o k = None ->
  JsObject.modify (o ++ [(k, v)]) k f = o ++ [(k, f v)].
Proof.
  induction o as [|[k' v'] r IH]; cbn.
  - now rewrite String.eqb_refl.
  - destruct (String.eqb k' k); [discriminate|]. intro H. now rewrite IH.
Qed.

End Tabulated.

Section Grouping.

Context {A : Type}.
Variable keyFn : A -> string.

(** The body of the reduce of lines 8-13. *)
Let step (acc : JsObject.t (list A)) (item : A) : JsObject.t (list A) :=
  let key := keyFn item in
  let acc := match JsObject.get acc key with
             | None => JsObject.set acc key []
             | Some _ => acc
             end in
  JsObject.modify acc key (fun bucket => bucket ++ [item]).

Lemma itemsWithKey_snoc (array : list A) (item : A) (k : string) :
  itemsWithKey (array ++ [item]) keyFn k
  = if String.eqb (keyFn item) k then itemsWithKey array keyFn k ++ [item]
    else itemsWithKey array keyFn k.
Proof.
  unfold itemsWithKey. rewrite filter_app. cbn.
  destruct (String.eqb (keyFn item) k); [reflexivity|apply app_nil_r].
Qed.

Lemma itemsWithKey_absent (array : list A) (k : string) :
  ~ In k (map keyFn array) -> itemsWithKey array keyFn k = [].
Proof.
  unfold itemsWithKey. induction array as [|x r IH]; cbn; [reflexivity|].
  intro H. destruct (String.eqb_spec (keyFn x) k); [tauto|]. apply IH. tauto.
Qed.

(** The own properties of the result, in creation order. *)
Lemma groupBy_tabulated (array : list A) :
  groupBy array keyFn
  = map (fun k => (k, itemsWithKey array keyFn k)) (firstOccurrences (map keyFn array)).
Proof.
  induction array as [|item array IH] using rev_ind; [reflexivity|].
  unfold groupBy in *. rewrite fold_left_app. cbn [fold_left]. rewrite IH. clear IH.
  rewrite map_app. cbn [map]. rewrite firstOccurrences_snoc.
  rewrite get_tabulate.
  destruct (existsb (String.eqb (keyFn item)) (firstOccurrences (map keyFn array))) eqn:E.
  - assert (E' : existsb (String.eqb (keyFn item)) (map keyFn array) = true).
    { apply existsb_eqb_In. apply firstOccurrences_In. now apply existsb_eqb_In. }
    rewrite E'. rewrite modify_tabulate by apply firstOccurrences_NoDup.
    apply map_ext. intro k. rewrite itemsWithKey_snoc.
    rewrite (String.eqb_sym k). reflexivity.
  - assert (E' : existsb (String.eqb (keyFn item)) (map keyFn array) = false).
    { destruct (existsb _ (map keyFn array)) eqn:E2; [|reflexivity].
      apply existsb_eqb_In, firstOccurrences_In, existsb_eqb_In in E2. congruence. }
    rewrite E'. rewrite set_absent
      by (rewrite get_tabulate; now rewrite E).
    rewrite modify_app_absent by (rewrite get_tabulate; now rewrite E).
    rewrite map_app. cbn [map]. f_equal.
    + apply map_ext_in. intros k Hk. rewrite itemsWithKey_snoc.
      destruct (String.eqb_spec (keyFn item) k) as [<-|]; [|reflexivity].
      apply existsb_eqb_In in Hk. congruence.
    + rewrite itemsWithKey_snoc, String.eqb_refl.
      rewrite itemsWithKey_absent; [reflexivity|].
      intro H. apply existsb_eqb_In in H. congruence.
Qed.

End Grouping.

Section Enumeration.

Context {V W : Type}.
Variable h : string * V -> W.

Let relabel (e : string * V) : string * W := (fst e, h e).

Lemma insertKey_relabel (e : string * V) (l : list (string * V)) :
  JsObject.insertKey (relabel e) (map relabel l) = map relabel (JsObject.insertKey e l).
Proof.
  induction l as [|e' r IH]; cbn [JsObject.insertKey map]; [reflexivity|].
  cbn [relabel fst]. destruct (_ <=? _)%N; [reflexivity|].
  cbn [map]. f_equal. exact IH.
Qed.

Lemma ascending_relabel (l : list (string * V)) :
  JsObject.ascending (map relabel l) = map relabel (JsObject.ascending l).
Proof.
  unfold JsObject.ascending.
  induction l as [|e r IH]; cbn [fold_right map]; [reflexivity|].
  rewrite IH. apply insertKey_relabel.
Qed.

Lemma filter_relabel (p : string -> bool) (l : list (string * V)) :
  filter (fun e => p (fst e)) (map relabel l) = map relabel (filter (fun e => p (fst e)) l).
Proof.
  induction l as [|e r IH]; cbn [filter map]; [reflexivity|].
  cbn [relabel fst]. destruct (p (fst e)); cbn [map]; now rewrite IH.
Qed.

Lemma entries_relabel (o : JsObject.t V) :
  JsObject.entries (map relabel o) = map relabel (JsObject.entries o).
Proof.
  unfold JsObject.entries.
  rewrite (filter_relabel JsObject.isIndex).
  rewrite (filter_relabel (fun k => negb (JsObject.isIndex k))).
  now rewrite ascending_relabel, map_app.
Qed.

Lemma keys_relabel (o : JsObject.t V) :
  JsObject.keys (map relabel o) = JsObject.keys o.
Proof.
  unfold JsObject.keys. rewrite entries_relabel, map_map. reflexivity.
Qed.

End Enumeration.

Lemma keys_enumerationOrder {V} (o : JsObject.t V) :
  JsObject.keys o = enumerationOrder (map fst o).
Proof.
  unfold enumerationOrder. rewrite map_map.
  symmetry. apply (keys_relabel (fun _ => tt)).
Qed.

Lemma entries_without_index {V} (o : JsObject.t V) :
  (forall e, In e o -> JsObject.isIndex (fst e) = false) -> JsObject.entries o = o.
Proof.
  intro H. unfold JsObject.entries.
  assert (E1 : filter (fun e => JsObject.isIndex (fst e)) o = []).
  { induction o as [|e r IH]; cbn; [reflexivity|].
    rewrite (H e) by now left. apply IH. intros e' He'. apply H. now right. }
  assert (E2 : filter (fun e => negb (JsObject.isIndex (fst e))) o = o).
  { induction o as [|e r IH]; cbn; [reflexivity|].
    rewrite (H e) by now left. cbn. f_equal. apply IH.
    - intros e' He'. apply H. now right.
    - cbn in E1. rewrite (H e) in E1 by now left. exact E1. }
  rewrite E1, E2. reflexivity.
Qed.

Lemma enumerationOrder_without_index (keys : list string) :
  (forall k, In k keys -> JsObject.isIndex k = false) -> enumerationOrder keys = keys.
Proof.
  intro H. unfold enumerationOrder, JsObject.keys.
  rewrite entries_without_index.
  - rewrite map_map. cbn. apply map_id.
  - intros e He. apply in_map_iff in He. destruct He as (k & <- & Hk). now apply H.
Qed.

(** C6, as amended.  The mapping returned by [groupBy] enumerates its keys
    as the language orders the keys of an object: those that are array
    indices first, ascending, then the others in order of first occurrence
    in the input.  When no key is an array index this is the order of first
    occurrence.  Every bucket holds the items with its key in their input
    order. *)
Theorem groupBy_enumeration {A} (array : list A) (keyFn : A -> string) :
  JsObject.keys (groupBy array keyFn)
  = enumerationOrder (firstOccurrences (map keyFn array))
  /\ ((forall item, In item array -> JsObject.isIndex (keyFn item) = false) ->
      JsObject.keys (groupBy array keyFn) = firstOccurrences (map keyFn array))
  /\ (forall k bucket,
        In (k, bucket) (JsObject.entries (groupBy array keyFn)) ->
        bucket = itemsWithKey array keyFn k).
Proof.
  assert (Hkeys : JsObject.keys (groupBy array keyFn)
                  = enumerationOrder (firstOccurrences (map keyFn array))).
  { rewrite keys_enumerationOrder, groupBy_tabulated, map_map. cbn [fst].
    now rewrite map_id. }
  split; [exact Hkeys|]. split.
  - intro Hplain. rewrite Hkeys. apply enumerationOrder_without_index.
    intros k Hk. apply firstOccurrences_In, in_map_iff in Hk.
    destruct Hk as (item & <- & Hitem). now apply Hplain.
  - intros k bucket Hin.
    apply (Permutation_in _ (entries_perm _)) in Hin.
    rewrite groupBy_tabulated in Hin. apply in_map_iff in Hin.
    destruct Hin as (k' & [= -> <-] & _). reflexivity.
Qed.

Lemma groupBy_enumeration_witness :
  let array := ["pear"; "plum"; "apple"; "peach"; "apricot"] in
  let keyFn := substring 0 1 in
  (forall item, In item array -> JsObject.isIndex (keyFn item) = false)
  /\ JsObject.keys (groupBy array keyFn) = firstOccurrences (map keyFn array).
Proof.
  intros array keyFn.
  assert (H : forall item, In item array -> JsObject.isIndex (keyFn item) = false).
  { intros item Hin. cbn in Hin.
    repeat (destruct Hin as [<-|Hin]; [reflexivity|]). destruct Hin. }
  split; [exact H|].
  exact (proj1 (proj2 (groupBy_enumeration array keyFn)) H).
Defined.

(** C6, as stated, fails: grouping "2", "1" by the item itself creates the
    bucket "2" first, and the object enumerates the key "1" before the key
    "2", as it does for all array-index keys. *)
Lemma groupBy_first_occurrence_counterexample :
  JsObject.keys (groupBy ["2"; "1"] (fun s => s)) = ["1"; "2"]
  /\ JsObject.keys (groupBy ["2"; "1"] (fun s => s))
     <> firstOccurrences (map (fun s => s) ["2"; "1"]).
Proof. split; [reflexivity|discriminate]. Qed.

(** ** Reductions seeded with [null] *)

Section NullSeed.

Context {E T : Type}.
Variable step : option T -> E -> option T.
Hypothesis step_keeps : forall t e, step (Some t) e <> None.

Lemma fold_from_some (l : list E) (t : T) : fold_left step l (Some t) <> None.
Proof.
  revert t. induction l as [|e l IH]; intro t; cbn [fold_left]; [discriminate|].
  destruct (step (Some t) e) as [t'|] eqn:Ht; [apply IH|].
  now apply step_keeps in Ht.
Qed.

(** The accumulator stays [null] exactly when no element replaces it. *)
Lemma fold_stays_null (l : list E) :
  fold_left step l None = None <-> forall e, In e l -> step None e = None.
Proof.
  induction l as [|e l IH]; cbn [fold_left].
  - split; [intros _ e []|reflexivity].
  - destruct (step None e) as [t|] eqn:Ht.
    + split.
      * intro H. now apply fold_from_some in H.
      * intro H. specialize (H e (or_introl eq_refl)). congruence.
    + rewrite IH. split.
      * intros H e' [<-|Hin]; [assumption|now apply H].
      * intros H e' Hin. apply H. now right.
Qed.

End NullSeed.

Ltac order_bool :=
  repeat match goal with
         | H : Qlt_bool _ _ = true |- _ => apply Qlt_bool_iff in H
         | H : Qlt_bool _ _ = false |- _ => apply Qlt_bool_false_iff in H
         | |- Qlt_bool _ _ = true => apply Qlt_bool_iff
         | |- Qlt_bool _ _ = false => apply Qlt_bool_false_iff
         end.

(** The shape shared by the reduces of the rules: a candidate replaces the
    accumulator when its value exceeds [max?.value || 0]. *)
Section Strict.

Context {E T : Type}.
Variables (value : E -> Q) (keep : E -> T) (valueOf : T -> Q).

Let step (max : option T) (e : E) : option T :=
  if Qlt_bool (fieldOrZero valueOf max) (value e) then Some (keep e) else max.

Lemma strict_null (l : list E) :
  fold_left step l None = None <-> forall e, In e l -> value e <= 0.
Proof.
  rewrite fold_stays_null.
  - subst step. cbn [fieldOrZero]. split; intros H e Hin; specialize (H e Hin).
    + destruct (Qlt_bool 0 (value e)) eqn:E0; [discriminate|]. now order_bool.
    + destruct (Qlt_bool 0 (value e)) eqn:E0; [|reflexivity]. order_bool. lra.
  - intros t e. subst step. cbn. destruct (Qlt_bool _ _); discriminate.
Qed.

Lemma strict_found (l : list E) :
  (exists e, In e l /\ 0 < value e) -> exists t, fold_left step l None = Some t.
Proof.
  intros (e & Hin & Hpos).
  destruct (fold_left step l None) as [t|] eqn:F; [now exists t|].
  pose proof (proj1 (strict_null l) F e Hin) as Hle. lra.
Qed.

Hypothesis keep_value : forall e, valueOf (keep e) == value e.

Lemma strict_positive_from (l : list E) :
  forall acc t,
  (forall a, acc = Some a -> 0 < valueOf a) ->
  fold_left step l acc = Some t -> 0 < valueOf t.
Proof.
  induction l as [|e l IH]; intros acc t Hacc; cbn [fold_left].
  - intro H. now apply Hacc.
  - apply IH. intros a. subst step. cbn beta.
    destruct (Qlt_bool (fieldOrZero valueOf acc) (value e)) eqn:C.
    + intros [= <-]. rewrite keep_value. order_bool.
      destruct acc as [a0|]; cbn [fieldOrZero] in C;
        [specialize (Hacc a0 eq_refl); lra|exact C].
    + apply Hacc.
Qed.

Lemma strict_positive (l : list E) (t : T) :
  fold_left step l None = Some t -> 0 < valueOf t.
Proof. apply strict_positive_from. discriminate. Qed.

End Strict.

(** ** The four rules that dereference their accumulator *)

Lemma not_positive_all {E} (value : E -> Q) (l : list E) :
  ~ (exists e, In e l /\ 0 < value e) -> forall e, In e l -> value e <= 0.
Proof.
  intros H e Hin. apply Qnot_lt_le. intro Hpos. apply H. now exists e.
Qed.

Lemma bestCustomerOf_null (stats : Metrics.t) :
  ~ positiveCustomer stats -> bestCustomerOf stats = None.
Proof.
  intro H. unfold bestCustomerOf.
  apply (strict_null (fun e => CustomerAggregate.revenue (snd e)) (fun e => e)
           (fun m => CustomerAggregate.revenue (snd m))).
  exact (not_positive_all _ _ H).
Qed.

Lemma bestCustomerOf_found (stats : Metrics.t) :
  positiveCustomer stats -> exists best, bestCustomerOf stats = Some best.
Proof.
  intro H. unfold bestCustomerOf.
  exact (strict_found (fun e => CustomerAggregate.revenue (snd e)) (fun e => e)
           (fun m => CustomerAggregate.revenue (snd m)) _ H).
Qed.

Lemma topSellerOf_null (stats : Metrics.t) (customer : CustomerAggregate.t) :
  ~ positiveSellerOf stats customer ->
  topSellerOf stats (CustomerAggregate.sellers customer) = None.
Proof.
  intro H. unfold topSellerOf.
  apply (strict_null (sellerRevenueOrZero stats)
           (fun sellerId => (sellerId, sellerRevenueOrZero stats sellerId)) snd).
  exact (not_positive_all _ _ H).
Qed.

Lemma topSellerOf_found (stats : Metrics.t) (customer : CustomerAggregate.t) :
  positiveSellerOf stats customer ->
  exists top, topSellerOf stats (CustomerAggregate.sellers customer) = Some top.
Proof.
  intro H. unfold topSellerOf.
  exact (strict_found (sellerRevenueOrZero stats)
           (fun sellerId => (sellerId, sellerRevenueOrZero stats sellerId)) snd _ H).
Qed.

Lemma bestRetentionOf_null (stats : Metrics.t) :
  bestRetentionOf stats = None <-> ~ positiveRetention stats.
Proof.
  unfold bestRetentionOf, positiveRetention. rewrite fold_stays_null.
  - cbn [orZero]. change (Qeq_bool 0 0) with true. cbv iota.
    fold (retentionOf stats). split.
    + intros H (e & Hin & Hpos). specialize (H e Hin).
      unfold retentionOf in Hpos. rewrite Hpos in H. discriminate.
    + intros H e Hin.
      destruct (gt (mathMax _) (Fin 0)) eqn:C; [|reflexivity].
      exfalso. apply H. now exists e.
  - intros t e. destruct (gt _ _); discriminate.
Qed.

Lemma largestRecordOf_null (records : list PurchaseRecord.t) :
  largestRecordOf records = None <->
  forall record, In record records -> PurchaseRecord.total_amount record <= 0.
Proof.
  exact (strict_null PurchaseRecord.total_amount (fun r => r) PurchaseRecord.total_amount
           records).
Qed.

Lemma largestRecordOf_positive (records : list PurchaseRecord.t) (r : PurchaseRecord.t) :
  largestRecordOf records = Some r -> 0 < PurchaseRecord.total_amount r.
Proof.
  apply (strict_positive PurchaseRecord.total_amount (fun r => r)
           PurchaseRecord.total_amount).
  intro e. reflexivity.
Qed.

Lemma largestSaleOf_null (recordsBySeller : JsObject.t (list PurchaseRecord.t)) :
  largestSaleOf recordsBySeller = None <-> ~ positiveSale recordsBySeller.
Proof.
  unfold largestSaleOf, positiveSale. rewrite fold_stays_null.
  - cbn [fieldOrZero]. split.
    + intros H (e & record & Hin & Hrec & Hpos). specialize (H e Hin).
      destruct (largestRecordOf (snd e)) as [r|] eqn:L.
      * pose proof (largestRecordOf_positive _ _ L) as Hr.
        apply Qlt_bool_iff in Hr. rewrite Hr in H. discriminate.
      * pose proof (proj1 (largestRecordOf_null _) L record Hrec). lra.
    + intros H e Hin.
      destruct (largestRecordOf (snd e)) as [r|] eqn:L; [|reflexivity].
      exfalso. apply H.
      assert (Hr : In r (snd e) /\ 0 < PurchaseRecord.total_amount r).
      { split; [|now apply largestRecordOf_positive in L].
        clear - L. unfold largestRecordOf in L.
        assert (G : forall l acc, fold_left
                   (fun recordMax record =>
                      if Qlt_bool (fieldOrZero PurchaseRecord.total_amount recordMax)
                                  (PurchaseRecord.total_amount record)
                      then Some record else recordMax) l acc = Some r ->
                   acc = Some r \/ In r l).
        { induction l as [|x l IH]; cbn [fold_left]; intros acc Hf; [now left|].
          apply IH in Hf. destruct Hf as [Hf|Hf]; [|right; now right].
          destruct (Qlt_bool _ _); [injection Hf as ->; right; now left|now left]. }
        apply G in L. destruct L as [L|L]; [discriminate|exact L]. }
      exists e, r. tauto.
  - intros t e. destruct (largestRecordOf (snd e)); [|discriminate].
    destruct (Qlt_bool _ _); discriminate.
Qed.

Lemma bestAverageOf_null (stats : Metrics.t) :
  ~ positiveAverage stats -> bestAverageOf stats = None.
Proof.
  intro H. unfold bestAverageOf.
  apply (strict_null (fun e => averageProfit (snd e))
           (fun e => (fst e, averageProfit (snd e))) snd).
  exact (not_positive_all _ _ H).
Qed.

Lemma bestAverageOf_found (stats : Metrics.t) :
  positiveAverage stats -> exists best, bestAverageOf stats = Some best.
Proof.
  intro H. unfold bestAverageOf.
  exact (strict_found (fun e => averageProfit (snd e))
           (fun e => (fst e, averageProfit (snd e))) snd _ H).
Qed.

(** C10, as amended.  Each of the four rules throws a [TypeError] when no
    candidate of its reduce has a strictly positive value, and returns a
    result when one has; [bonusBestCustomer] dereferences a second
    accumulator, over the sellers of the best customer, and returns a
    result only when one of them has a strictly positive seller revenue as
    well. *)
Theorem reference_rules_null_dereference (ctx : Context) :
  (~ positiveCustomer (stats ctx) -> bonusBestCustomer ctx = Throw TypeError)
  /\ (positiveCustomer (stats ctx) ->
      exists best,
        bestCustomerOf (stats ctx) = Some best
        /\ (~ positiveSellerOf (stats ctx) (snd best) ->
            bonusBestCustomer ctx = Throw TypeError)
        /\ (positiveSellerOf (stats ctx) (snd best) ->
            exists result, bonusBestCustomer ctx = Ok result))
  /\ (~ positiveRetention (stats ctx) -> bonusCustomerRetention ctx = Throw TypeError)
  /\ (positiveRetention (stats ctx) -> exists result, bonusCustomerRetention ctx = Ok result)
  /\ (~ positiveSale (recordsBySeller ctx) -> bonusLargestSingleSale ctx = Throw TypeError)
  /\ (positiveSale (recordsBySeller ctx) ->
      exists result, bonusLargestSingleSale ctx = Ok result)
  /\ (~ positiveAverage (stats ctx) -> bonusHighestAverageProfit ctx = Throw TypeError)
  /\ (positiveAverage (stats ctx) ->
      exists result, bonusHighestAverageProfit ctx = Ok result).
Proof.
  repeat split.
  - intro H. unfold bonusBestCustomer. now rewrite bestCustomerOf_null.
  - intro H. destruct (bestCustomerOf_found _ H) as [best Hbest].
    exists best. split; [exact Hbest|]. unfold bonusBestCustomer. rewrite Hbest. split.
    + intro Hs. now rewrite topSellerOf_null.
    + intro Hs. destruct (topSellerOf_found _ _ Hs) as [top ->]. eexists. reflexivity.
  - intro H. unfold bonusCustomerRetention.
    apply bestRetentionOf_null in H. now rewrite H.
  - intro H. unfold bonusCustomerRetention.
    destruct (bestRetentionOf (stats ctx)) eqn:B; [eexists; reflexivity|].
    apply bestRetentionOf_null in B. contradiction.
  - intro H. unfold bonusLargestSingleSale.
    apply largestSaleOf_null in H. now rewrite H.
  - intro H. unfold bonusLargestSingleSale.
    destruct (largestSaleOf (recordsBySeller ctx)) eqn:B; [eexists; reflexivity|].
    apply largestSaleOf_null in B. contradiction.
  - intro H. unfold bonusHighestAverageProfit. now rewrite bestAverageOf_null.
  - intro H. unfold bonusHighestAverageProfit.
    destruct (bestAverageOf_found _ H) as [best ->]. eexists. reflexivity.
Qed.

Lemma positive_by_search {E} (value : E -> Q) (l : list E) :
  existsb (fun e => Qlt_bool 0 (value e)) l = true ->
  exists e, In e l /\ 0 < value e.
Proof.
  intro H. apply existsb_exists in H. destruct H as (e & Hin & Hpos).
  exists e. split; [assumption|now apply Qlt_bool_iff].
Qed.

Lemma reference_rules_null_dereference_witness :
  positiveRetention (stats sampleContext)
  /\ positiveSale (recordsBySeller sampleContext)
  /\ positiveAverage (stats sampleContext)
  /\ (exists result, bonusCustomerRetention sampleContext = Ok result)
  /\ (exists result, bonusLargestSingleSale sampleContext = Ok result)
  /\ (exists result, bonusHighestAverageProfit sampleContext = Ok result).
Proof.
  assert (Hr : positiveRetention (stats sampleContext)).
  { unfold positiveRetention.
    assert (H : existsb (fun e => gt (retentionOf (stats sampleContext) (snd e)) (Fin 0))
                  (JsObject.entries (Metrics.sellers (stats sampleContext))) = true)
      by (vm_compute; reflexivity).
    apply existsb_exists in H. exact H. }
  assert (Hs : positiveSale (recordsBySeller sampleContext)).
  { unfold positiveSale.
    assert (H : existsb (fun e => existsb (fun r => Qlt_bool 0 (PurchaseRecord.total_amount r))
                                    (snd e))
                  (JsObject.entries (recordsBySeller sampleContext)) = true)
      by (vm_compute; reflexivity).
    apply existsb_exists in H. destruct H as (e & Hin & H).
    apply positive_by_search in H. destruct H as (r & Hr' & Hpos).
    exists e, r. auto. }
  assert (Ha : positiveAverage (stats sampleContext)).
  { apply (positive_by_search (fun e => averageProfit (snd e))).
    vm_compute. reflexivity. }
  pose proof (reference_rules_null_dereference sampleContext)
    as (_ & _ & _ & Kr & _ & Ks & _ & Ka).
  repeat split; auto.
Defined.

(** C10, as stated, fails for [bonusBestCustomer]: in [returnsRecords]
    customer 1 has a positive revenue, and its only seller has a negative
    one, so the second accumulator is [null] when line 115 reads its
    [sellerId]. *)
Lemma bonusBestCustomer_positive_customer_counterexample :
  baseMetrics returnsRecords simpleProfit sampleProducts = Ok returnsStats
  /\ positiveCustomer returnsStats
  /\ bonusBestCustomer (contextOf returnsRecords simpleProfit returnsStats)
     = Throw TypeError.
Proof.
  split; [vm_compute; reflexivity|]. split; [|vm_compute; reflexivity].
  apply (positive_by_search (fun e => CustomerAggregate.revenue (snd e))).
  vm_compute. reflexivity.
Qed.

(** ** The first strict maximum *)

Section FirstMaximum.

Context {E : Type}.
Variable value : E -> Q.

Let step (max : option E) (e : E) : option E :=
  if Qlt_bool (fieldOrZero value max) (value e) then Some e else max.

Let reduce (l : list E) (acc : option E) : option E := fold_left step l acc.



End FirstMaximum.

(** ** The buckets of [groupBy] laid end to end *)

Section Buckets.

Context {A : Type}.
Variable keyFn : A -> string.

Lemma flat_buckets_cons (x : A) (array : list A) (ks : list string) :
  NoDup ks ->
  In (keyFn x) ks ->
  Permutation (flat_map (itemsWithKey (x :: array) keyFn) ks)
              (x :: flat_map (itemsWithKey array keyFn) ks).
Proof.
  induction 1 as [|k ks Hnotin Hnd IH]; intro Hin; [destruct Hin|].
  cbn [flat_map]. unfold itemsWithKey at 1. cbn [filter].
  destruct (String.eqb_spec (keyFn x) k) as [E|Hne].
  - cbn [app]. constructor. apply Permutation_app_head.
    assert (Hsame : forall k', In k' ks ->
              itemsWithKey (x :: array) keyFn k' = itemsWithKey array keyFn k').
    { intros k' Hk'. unfold itemsWithKey. cbn [filter].
      destruct (String.eqb_spec (keyFn x) k'); [congruence|reflexivity]. }
    clear - Hsame. induction ks as [|k' ks IH]; cbn [flat_map]; [reflexivity|].
    rewrite Hsame by now left. apply Permutation_app_head, IH.
    intros k'' Hk''. apply Hsame. now right.
  - destruct Hin as [Hin|Hin]; [congruence|].
    fold (itemsWithKey array keyFn k).
    rewrite (IH Hin). symmetry. apply Permutation_middle.
Qed.

Lemma flat_buckets_perm (array : list A) (ks : list string) :
  NoDup ks ->
  (forall x, In x array -> In (keyFn x) ks) ->
  Permutation (flat_map (itemsWithKey array keyFn) ks) array.
Proof.
  intros Hnd. induction array as [|x array IH]; intro Hcover.
  - clear. induction ks as [|k ks IH]; cbn; [reflexivity|exact IH].
  - rewrite flat_buckets_cons by (auto; apply Hcover; now left).
    constructor. apply IH. intros y Hy. apply Hcover. now right.
Qed.

(** The buckets of [groupBy] laid end to end rearrange the input. *)
Lemma groupBy_flat_perm (array : list A) :
  Permutation (flat_map snd (JsObject.entries (groupBy array keyFn))) array.
Proof.
  rewrite (Permutation_flat_map snd (entries_perm (groupBy array keyFn))).
  rewrite groupBy_tabulated, flat_map_concat_map, map_map. cbn [snd].
  rewrite <- flat_map_concat_map.
  apply flat_buckets_perm; [apply firstOccurrences_NoDup|].
  intros x Hx. apply firstOccurrences_In. now apply in_map.
Qed.

Lemma itemsWithKey_other (array : list A) (k k' : string) :
  k' <> k ->
  filter (fun x => String.eqb (keyFn x) k) (itemsWithKey array keyFn k') = [].
Proof.
  intro Hne. unfold itemsWithKey.
  induction array as [|x array IH]; cbn [filter]; [reflexivity|].
  destruct (String.eqb_spec (keyFn x) k') as [E|]; [|exact IH].
  cbn [filter]. destruct (String.eqb_spec (keyFn x) k); [congruence|exact IH].
Qed.

Lemma itemsWithKey_self (array : list A) (k : string) :
  filter (fun x => String.eqb (keyFn x) k) (itemsWithKey array keyFn k)
  = itemsWithKey array keyFn k.
Proof.
  unfold itemsWithKey.
  induction array as [|x array IH]; cbn [filter]; [reflexivity|].
  destruct (String.eqb (keyFn x) k) eqn:E; [|exact IH].
  cbn [filter]. rewrite E. now rewrite IH.
Qed.

Lemma filter_flat_absent (array : list A) (k : string) (l : list (string * list A)) :
  (forall e, In e l -> snd e = itemsWithKey array keyFn (fst e)) ->
  ~ In k (map fst l) ->
  filter (fun x => String.eqb (keyFn x) k) (flat_map snd l) = [].
Proof.
  induction l as [|e l IH]; intros Hb Hk; cbn [flat_map]; [reflexivity|].
  rewrite filter_app, (Hb e) by now left.
  rewrite itemsWithKey_other by (intro E; apply Hk; left; exact E).
  cbn [app]. apply IH; [intros e' He'; apply Hb; now right|].
  intro H. apply Hk. now right.
Qed.

(** Selecting one key from the buckets laid end to end gives its
    bucket. *)
Lemma filter_flat_buckets (array : list A) (k : string) (l : list (string * list A)) :
  NoDup (map fst l) ->
  (forall e, In e l -> snd e = itemsWithKey array keyFn (fst e)) ->
  In k (map fst l) ->
  filter (fun x => String.eqb (keyFn x) k) (flat_map snd l) = itemsWithKey array keyFn k.
Proof.
  induction l as [|e l IH]; intros Hnd Hb Hin; [destruct Hin|].
  cbn [flat_map]. rewrite filter_app, (Hb e) by now left.
  cbn [map] in Hnd. apply NoDup_cons_iff in Hnd. destruct Hnd as [Hnotin Hnd].
  destruct (String.eqb_spec (fst e) k) as [E|Hne].
  - rewrite E in *. rewrite itemsWithKey_self.
    rewrite (filter_flat_absent array); [apply app_nil_r| |exact Hnotin].
    intros e' He'. apply Hb. now right.
  - rewrite itemsWithKey_other by exact Hne. cbn [app].
    apply IH; [exact Hnd|intros e' He'; apply Hb; now right|].
    destruct Hin as [Hin|Hin]; [contradiction|exact Hin].
Qed.

Lemma groupBy_filter_flat (array : list A) (x : A) :
  In x array ->
  filter (fun y => String.eqb (keyFn y) (keyFn x))
         (flat_map snd (JsObject.entries (groupBy array keyFn)))
  = filter (fun y => String.eqb (keyFn y) (keyFn x)) array.
Proof.
  intro Hx.
  pose proof (entries_perm (groupBy array keyFn)) as P.
  apply filter_flat_buckets.
  - apply (Permutation_NoDup (Permutation_sym (Permutation_map fst P))).
    rewrite groupBy_tabulated, map_map. cbn [fst]. rewrite map_id.
    apply firstOccurrences_NoDup.
  - intros e He. apply (Permutation_in _ P) in He.
    rewrite groupBy_tabulated in He. apply in_map_iff in He.
    destruct He as (k & <- & _). reflexivity.
  - apply (Permutation_in _ (Permutation_sym (Permutation_map fst P))).
    rewrite groupBy_tabulated, map_map. cbn [fst]. rewrite map_id.
    apply firstOccurrences_In. now apply in_map.
Qed.

End Buckets.

(** ** Order of occurrence *)

Section Precedes.

Context {A : Type}.







End Precedes.

(** ** The stable sort by a descending key *)

Section DescendingSort.

Context {A : Type}.
Variable key : A -> Q.

Let cmp (a b : A) : number := Fin (key b - key a).






End DescendingSort.


(** ** [topProducts] *)




(** ** The keys of [products_sold] *)

Section Keys.

Context {V : Type}.

Lemma keys_modify (o : JsObject.t V) (k : string) (f : V -> V) :
  map fst (JsObject.modify o k f) = map fst o.
Proof.
  induction o as [|[k' v'] r IH]; cbn; [reflexivity|].
  destruct (String.eqb k' k); cbn; [reflexivity|now rewrite IH].
Qed.

Lemma get_keys (o : JsObject.t V) (k : string) :
  existsb (String.eqb k) (map fst o)
  = match JsObject.get o k with Some _ => true | None => false end.
Proof.
  induction o as [|[k' v'] r IH]; cbn; [reflexivity|].
  rewrite (String.eqb_sym k k'). destruct (String.eqb k' k); [reflexivity|exact IH].
Qed.

Lemma keys_set (o : JsObject.t V) (k : string) (v : V) :
  map fst (JsObject.set o k v) = setAdd (map fst o) k.
Proof.
  unfold setAdd. rewrite get_keys.
  induction o as [|[k' v'] r IH]; cbn; [reflexivity|].
  destruct (String.eqb k' k); cbn; [reflexivity|].
  rewrite IH. now destruct (JsObject.get r k).
Qed.

End Keys.

Lemma setAdd_present (ks : list string) (k : string) :
  existsb (String.eqb k) ks = true -> setAdd ks k = ks.
Proof. unfold setAdd. now intros ->. Qed.

Lemma addSold_keys (sold : JsObject.t Q) (item : Item.t) :
  map fst (addSold sold item) = setAdd (map fst sold) (Item.sku item).
Proof.
  unfold addSold. rewrite keys_modify.
  destruct (JsObject.get sold (Item.sku item)) as [q|] eqn:G.
  - assert (P : existsb (String.eqb (Item.sku item)) (map fst sold) = true)
      by now rewrite get_keys, G.
    destruct (Qeq_bool q 0); [rewrite keys_set|]; now rewrite setAdd_present.
  - apply keys_set.
Qed.

Lemma existsb_firstOccurrences (k : string) (l : list string) :
  existsb (String.eqb k) (firstOccurrences l) = existsb (String.eqb k) l.
Proof.
  destruct (existsb (String.eqb k) l) eqn:E.
  - apply (proj1 (existsb_eqb_In k l)) in E.
    apply (proj2 (existsb_eqb_In k _)), (proj2 (firstOccurrences_In l k)), E.
  - destruct (existsb _ (firstOccurrences l)) eqn:E'; [|reflexivity].
    apply (proj1 (existsb_eqb_In k _)) in E'.
    apply (proj1 (firstOccurrences_In l k)) in E'.
    apply (proj2 (existsb_eqb_In k l)) in E'. congruence.
Qed.

(** Adding keys one by one to a set lists them by first occurrence. *)
Lemma setAdd_firstOccurrences (l l0 : list string) :
  fold_left setAdd l (firstOccurrences l0) = firstOccurrences (l0 ++ l).
Proof.
  revert l0. induction l as [|k l IH]; intro l0; cbn [fold_left].
  - now rewrite app_nil_r.
  - replace (setAdd (firstOccurrences l0) k) with (firstOccurrences (l0 ++ [k])).
    + rewrite IH, <- app_assoc. reflexivity.
    + rewrite firstOccurrences_snoc. unfold setAdd.
      now rewrite existsb_firstOccurrences.
Qed.

Lemma nth_error_mutate {A} (f : A -> A) (store : list A) (ref j : nat) :
  nth_error (mutate ref f store) j
  = if (ref =? j)%nat then option_map f (nth_error store j) else nth_error store j.
Proof.
  revert ref j. induction store as [|x r IH]; intros ref j; cbn [mutate].
  - destruct (ref =? j)%nat; destruct j; reflexivity.
  - destruct ref as [|ref], j as [|j]; cbn; try reflexivity. apply IH.
Qed.

Lemma map_mutate {A B} (g : A -> B) (f : A -> A) (store : list A) (ref : nat) :
  (forall x, g (f x) = g x) -> map g (mutate ref f store) = map g store.
Proof.
  intro H. revert ref. induction store as [|x r IH]; intro ref; cbn [mutate]; [reflexivity|].
  destruct ref; cbn [map]; [now rewrite H|now rewrite IH].
Qed.

(** ** What the collecting loop leaves in [products_sold] *)

Section Collecting.

Variables (sellerIndex : JsObject.t nat) (productIndex : JsObject.t Product.t).
Variable calculateRevenue : RevenueFn.

(** The key lists of the seller objects, and their identifiers. *)
Let keysAt (j : nat) (sellerStats : list SellerStat.t) : option (list string) :=
  option_map (fun s => map fst (SellerStat.products_sold s)) (nth_error sellerStats j).

Let known (item : Item.t) : bool :=
  match JsObject.get productIndex (Item.sku item) with
  | Some _ => true
  | None => false
  end.

Let counted (ref j : nat) (items : list Item.t) : list Item.t :=
  if (ref =? j)%nat then filter known items else [].

Let countedOf (j : nat) (record : PurchaseRecord.t) : list Item.t :=
  match JsObject.get sellerIndex (PurchaseRecord.seller_id record) with
  | Some ref => counted ref j (PurchaseRecord.items record)
  | None => []
  end.

Let grow (items : list Item.t) (keys : list string) : list string :=
  fold_left setAdd (map Item.sku items) keys.

Lemma collectItem_effect (ref : nat) (sellerStats sellerStats' : list SellerStat.t)
    (item : Item.t) :
  collectItem productIndex calculateRevenue ref sellerStats item = Ok sellerStats' ->
  map SellerStat.sellerId sellerStats' = map SellerStat.sellerId sellerStats
  /\ forall j, keysAt j sellerStats'
               = option_map (grow (counted ref j [item])) (keysAt j sellerStats).
Proof.
  unfold collectItem, counted, known, grow, keysAt. cbn [filter].
  destruct (JsObject.get productIndex (Item.sku item)) as [product|].
  - destruct (calculateRevenue item product) as [revenue|]; [|discriminate].
    cbn [bind]. intros [= <-]. split; [now apply map_mutate|].
    intro j. rewrite nth_error_mutate.
    destruct (ref =? j)%nat; destruct (nth_error sellerStats j); cbn; try reflexivity.
    now rewrite addSold_keys.
  - intros [= <-]. split; [reflexivity|]. intro j.
    destruct (ref =? j)%nat; now destruct (nth_error sellerStats j).
Qed.

Lemma collectItems_effect (ref : nat) (items : list Item.t) :
  forall sellerStats sellerStats',
  foldM (collectItem productIndex calculateRevenue ref) items sellerStats = Ok sellerStats' ->
  map SellerStat.sellerId sellerStats' = map SellerStat.sellerId sellerStats
  /\ forall j, keysAt j sellerStats'
               = option_map (grow (counted ref j items)) (keysAt j sellerStats).
Proof.
  induction items as [|item items IH]; intros sellerStats sellerStats'; cbn [foldM].
  - intros [= <-]. split; [reflexivity|]. intro j.
    unfold counted, grow. cbn. destruct (ref =? j)%nat; now destruct (keysAt j sellerStats).
  - destruct (collectItem _ _ ref sellerStats item) as [mid|] eqn:E; [|discriminate].
    cbn [bind]. intro F. destruct (collectItem_effect _ _ _ _ E) as [I1 K1].
    destruct (IH _ _ F) as [I2 K2]. split; [congruence|].
    intro j. rewrite K2, K1. unfold counted, grow.
    destruct (keysAt j sellerStats); [|reflexivity]. cbn [option_map filter]. f_equal.
    destruct (ref =? j)%nat; [|reflexivity].
    destruct (known item); reflexivity.
Qed.

Lemma collectRecord_effect (sellerStats sellerStats' : list SellerStat.t)
    (record : PurchaseRecord.t) :
  collectRecord sellerIndex productIndex calculateRevenue sellerStats record
  = Ok sellerStats' ->
  map SellerStat.sellerId sellerStats' = map SellerStat.sellerId sellerStats
  /\ forall j, keysAt j sellerStats'
               = option_map (grow (countedOf j record)) (keysAt j sellerStats).
Proof.
  unfold collectRecord, countedOf.
  destruct (JsObject.get sellerIndex (PurchaseRecord.seller_id record)) as [ref|].
  - intro F. destruct (collectItems_effect _ _ _ _ F) as [I K]. split.
    + rewrite I. now apply map_mutate.
    + intro j. rewrite K. f_equal. unfold keysAt. rewrite nth_error_mutate.
      destruct (ref =? j)%nat; now destruct (nth_error sellerStats j).
  - intros [= <-]. split; [reflexivity|]. intro j. now destruct (keysAt j sellerStats).
Qed.

Lemma collectRecords_effect (records : list PurchaseRecord.t) :
  forall sellerStats sellerStats',
  foldM (collectRecord sellerIndex productIndex calculateRevenue) records sellerStats
  = Ok sellerStats' ->
  map SellerStat.sellerId sellerStats' = map SellerStat.sellerId sellerStats
  /\ forall j, keysAt j sellerStats'
               = option_map (grow (flat_map (countedOf j) records)) (keysAt j sellerStats).
Proof.
  induction records as [|record records IH]; intros sellerStats sellerStats'; cbn [foldM].
  - intros [= <-]. split; [reflexivity|]. intro j. now destruct (keysAt j sellerStats).
  - destruct (collectRecord _ _ _ sellerStats record) as [mid|] eqn:E; [|discriminate].
    cbn [bind]. intro F. destruct (collectRecord_effect _ _ _ E) as [I1 K1].
    destruct (IH _ _ F) as [I2 K2]. split; [congruence|].
    intro j. rewrite K2, K1. destruct (keysAt j sellerStats); [|reflexivity].
    cbn [option_map flat_map]. f_equal. unfold grow.
    now rewrite map_app, fold_left_app.
Qed.

End Collecting.






(** * Further properties of the code *)

(** ** [analyzeSequence] on every sequence *)


(** ** [getTopN] *)

Lemma insertSorted_perm {A} (cmp : A -> A -> number) (x : A) (l : list A) :
  Permutation (insertSorted cmp x l) (x :: l).
Proof.
  induction l as [|y l IH]; cbn [insertSorted]; [reflexivity|].
  destruct (gt _ _); [|reflexivity].
  rewrite IH. apply perm_swap.
Qed.

Lemma sort_perm {A} (cmp : A -> A -> number) (l : list A) : Permutation (sort cmp l) l.
Proof.
  unfold sort. induction l as [|x l IH]; cbn [fold_right]; [reflexivity|].
  rewrite insertSorted_perm. now constructor.
Qed.



(** ** Results of [mapM] *)

Lemma mapM_Forall2 {A B} (f : A -> outcome B) (l : list A) (l' : list B) :
  mapM f l = Ok l' <-> Forall2 (fun x y => f x = Ok y) l l'.
Proof.
  revert l'. induction l as [|x l IH]; intro l'; cbn [mapM].
  - split; [intros [= <-]; constructor|intro H; now inversion H].
  - split.
    + destruct (f x) as [y|] eqn:E; [|discriminate]. cbn [bind].
      destruct (mapM f l) as [ys|]; [|discriminate]. cbn [bind].
      intros [= <-]. constructor; [exact E|]. now apply IH.
    + intro H. inversion H as [|? y ? ys Hy Hrest]; subst.
      rewrite Hy. cbn [bind]. apply IH in Hrest. rewrite Hrest. reflexivity.
Qed.

Lemma mapM_first_throw {A B} (f : A -> outcome B) (l1 l2 : list A) (x : A) (e : exn) :
  (forall y, In y l1 -> exists r, f y = Ok r) ->
  f x = Throw e ->
  mapM f (l1 ++ x :: l2) = Throw e.
Proof.
  intros Hok Hx. induction l1 as [|y l1 IH]; cbn [app mapM].
  - now rewrite Hx.
  - destruct (Hok y (or_introl eq_refl)) as [r ->]. cbn [bind].
    rewrite IH; [reflexivity|]. intros z Hz. apply Hok. now right.
Qed.

(** ** [baseMetrics]: the state of the accumulator *)

Section Measures.

Context {V : Type}.
Variable measure : V -> Q.




End Measures.

Lemma ensure_keys {V} (o : JsObject.t V) (k : string) (fresh : V) :
  map fst (match JsObject.get o k return JsObject.t V with
           | None => JsObject.set o k fresh
           | Some _ => o
           end)
  = setAdd (map fst o) k.
Proof.
  destruct (JsObject.get o k) eqn:G; [|apply keys_set].
  symmetry. apply setAdd_present. now rewrite get_keys, G.
Qed.

Lemma get_modify_present {V} (o : JsObject.t V) (k : string) (f : V -> V) :
  JsObject.get o k <> None -> JsObject.get (JsObject.modify o k f) k <> None.
Proof.
  intro H. rewrite get_modify_same. destruct (JsObject.get o k); [discriminate|congruence].
Qed.

Section Accumulation.

Variables (calculateProfit : ProfitFn) (products : list Product.t).









End Accumulation.

Lemma foldM_returns_iff {A S} (step : S -> A -> outcome S) (P : A -> Prop) :
  (forall s x, (exists s', step s x = Ok s') <-> P x) ->
  forall l s, (exists s', foldM step l s = Ok s') <-> forall x, In x l -> P x.
Proof.
  intros Hstep. induction l as [|x l IH]; intro s; cbn [foldM].
  - split; [intros _ x []|intros _; now exists s].
  - split.
    + intros [s' H]. destruct (step s x) as [s1|] eqn:E; [|discriminate].
      cbn [bind] in H. intros y [<-|Hy].
      * apply (Hstep s). now exists s1.
      * apply (proj1 (IH s1)); [now exists s'|exact Hy].
    + intro H. destruct (proj2 (Hstep s x) (H x (or_introl eq_refl))) as [s1 ->].
      cbn [bind]. apply IH. intros y Hy. apply H. now right.
Qed.

Lemma foldM_throw_origin {A S} (step : S -> A -> outcome S) (e : exn) :
  forall l s, foldM step l s = Throw e -> exists s0 x, In x l /\ step s0 x = Throw e.
Proof.
  induction l as [|x l IH]; intro s; cbn [foldM]; [discriminate|].
  destruct (step s x) as [s1|e'] eqn:E; cbn [bind].
  - intro H. destruct (IH s1 H) as (s0 & y & Hy & Hs). exists s0, y. split; [now right|exact Hs].
  - intros [= ->]. exists s, x. split; [now left|exact E].
Qed.

(** ** [baseMetrics]: who sold to whom *)

Section Lookup.

Context {V : Type}.

Lemma get_modify (o : JsObject.t V) (k k' : string) (f : V -> V) :
  JsObject.get (JsObject.modify o k f) k'
  = if String.eqb k k' then option_map f (JsObject.get o k') else JsObject.get o k'.
Proof.
  induction o as [|[k0 v0] r IH]; cbn [JsObject.modify JsObject.get].
  - now destruct (String.eqb k k').
  - destruct (String.eqb_spec k0 k) as [->|Hne]; cbn [JsObject.get].
    + destruct (String.eqb k k'); reflexivity.
    + destruct (String.eqb_spec k0 k') as [->|Hne']; [|exact IH].
      destruct (String.eqb_spec k k'); [congruence|reflexivity].
Qed.

Lemma get_ensure (o : JsObject.t V) (k k' : string) (fresh : V) :
  JsObject.get (match JsObject.get o k return JsObject.t V with
                | None => JsObject.set o k fresh
                | Some _ => o
                end) k'
  = match JsObject.get o k' with
    | Some v => Some v
    | None => if String.eqb k k' then Some fresh else None
    end.
Proof.
  destruct (JsObject.get o k) eqn:G.
  - destruct (JsObject.get o k') eqn:G'; [reflexivity|].
    destruct (String.eqb_spec k k'); [congruence|reflexivity].
  - rewrite (set_absent _ _ _ G).
    induction o as [|[k0 v0] r IH]; cbn [app JsObject.get] in *.
    + now destruct (String.eqb k k').
    + destruct (String.eqb k0 k); [discriminate|].
      destruct (String.eqb k0 k'); [reflexivity|]. now apply IH.
Qed.


End Lookup.

Lemma setAdd_In (s : list string) (x y : string) :
  In y (setAdd s x) <-> In y s \/ y = x.
Proof.
  unfold setAdd. destruct (existsb (String.eqb x) s) eqn:E.
  - apply existsb_eqb_In in E. split; [tauto|]. intros [H| ->]; assumption.
  - rewrite in_app_iff. cbn [In]. split.
    + intros [H|[<-|[]]]; [now left|now right].
    + intros [H| ->]; [now left|right; now left].
Qed.

Section Links.

Variables (calculateProfit : ProfitFn) (products : list Product.t).

Lemma accumulateItem_links (sellerId customerId : string) (acc acc' : Metrics.t)
    (item : Item.t) :
  JsObject.get (Metrics.sellers acc) sellerId <> None ->
  JsObject.get (Metrics.customers acc) customerId <> None ->
  accumulateItem calculateProfit products sellerId customerId acc item = Ok acc' ->
  JsObject.get (Metrics.sellers acc') sellerId <> None
  /\ JsObject.get (Metrics.customers acc') customerId <> None
  /\ (forall s c, sellerLists acc' s c <->
                  sellerLists acc s c \/ (s = sellerId /\ c = customerId))
  /\ (forall s c, customerLists acc' s c <->
                  customerLists acc s c \/ (s = sellerId /\ c = customerId)).
Proof.
  intros Hs Hc. unfold accumulateItem.
  destruct (calculateProfit item (findProduct products item)) as [profit|]; [|discriminate].
  cbn [bind]. intros [= <-]. cbn [Metrics.sellers Metrics.customers].
  split; [now apply get_modify_present|]. split; [now apply get_modify_present|].
  unfold sellerLists, customerLists. cbn [Metrics.sellers Metrics.customers].
  split; intros s c; rewrite get_modify.
  - destruct (String.eqb_spec sellerId s) as [<-|Hne].
    + destruct (JsObject.get (Metrics.sellers acc) sellerId) as [data|]; [|congruence].
      cbn [option_map]. split.
      * intros (d & [= <-] & Hin). cbn [SellerAggregate.customers] in Hin.
        apply setAdd_In in Hin. destruct Hin as [Hin| ->]; [left; now exists data|now right].
      * intros [(d & [= <-] & Hin)|[_ ->]]; eexists; (split; [reflexivity|]);
          cbn [SellerAggregate.customers]; apply setAdd_In; auto.
    + split; [now left|]. intros [H|[-> _]]; [exact H|congruence].
  - destruct (String.eqb_spec customerId c) as [<-|Hne].
    + destruct (JsObject.get (Metrics.customers acc) customerId) as [data|]; [|congruence].
      cbn [option_map]. split.
      * intros (d & [= <-] & Hin). cbn [CustomerAggregate.sellers] in Hin.
        apply setAdd_In in Hin. destruct Hin as [Hin| ->]; [left; now exists data|now right].
      * intros [(d & [= <-] & Hin)|[-> _]]; eexists; (split; [reflexivity|]);
          cbn [CustomerAggregate.sellers]; apply setAdd_In; auto.
    + split; [now left|]. intros [H|[_ ->]]; [exact H|congruence].
Qed.

Lemma accumulateItems_links (sellerId customerId : string) (items : list Item.t) :
  forall acc acc',
  JsObject.get (Metrics.sellers acc) sellerId <> None ->
  JsObject.get (Metrics.customers acc) customerId <> None ->
  foldM (accumulateItem calculateProfit products sellerId customerId) items acc = Ok acc' ->
  (forall s c, sellerLists acc' s c <->
               sellerLists acc s c \/ (items <> [] /\ s = sellerId /\ c = customerId))
  /\ (forall s c, customerLists acc' s c <->
                  customerLists acc s c \/ (items <> [] /\ s = sellerId /\ c = customerId)).
Proof.
  induction items as [|item items IH]; intros acc acc' Hs Hc; cbn [foldM].
  - intros [= <-]. split; intros s c; (split; [now left|]); intros [H|[H _]]; congruence.
  - destruct (accumulateItem _ _ _ _ acc item) as [mid|] eqn:E; [|discriminate].
    cbn [bind]. intro F.
    destruct (accumulateItem_links _ _ _ _ _ Hs Hc E) as (Hs' & Hc' & L1 & R1).
    destruct (IH _ _ Hs' Hc' F) as [L2 R2].
    split; intros s c; [rewrite L2, L1|rewrite R2, R1];
      (split; [intros [[H|H]|(_ & H)]; [now left|right|right]|
               intros [H|(_ & H)]; [left; now left|left; now right]]);
      (split; [discriminate|exact H]).
Qed.

Lemma ensure_sellerLists (acc : Metrics.t) (k : string) (customers0 : JsObject.t CustomerAggregate.t)
    (products0 : JsObject.t ProductAggregate.t) (s c : string) :
  sellerLists
    {| Metrics.sellers :=
         match JsObject.get (Metrics.sellers acc) k return JsObject.t SellerAggregate.t with
         | None => JsObject.set (Metrics.sellers acc) k
                     {| SellerAggregate.revenue := 0; SellerAggregate.profit := 0;
                        SellerAggregate.items := []; SellerAggregate.customers := [] |}
         | Some _ => Metrics.sellers acc
         end;
       Metrics.customers := customers0; Metrics.products := products0 |} s c
  <-> sellerLists acc s c.
Proof.
  unfold sellerLists. cbn [Metrics.sellers]. rewrite get_ensure.
  destruct (JsObject.get (Metrics.sellers acc) s); [reflexivity|].
  destruct (String.eqb k s); split; intros (d & H & Hin); try discriminate.
  injection H as <-. destruct Hin.
Qed.

Lemma ensure_customerLists (acc : Metrics.t) (k : string) (sellers0 : JsObject.t SellerAggregate.t)
    (products0 : JsObject.t ProductAggregate.t) (s c : string) :
  customerLists
    {| Metrics.sellers := sellers0;
       Metrics.customers :=
         match JsObject.get (Metrics.customers acc) k return JsObject.t CustomerAggregate.t with
         | None => JsObject.set (Metrics.customers acc) k
                     {| CustomerAggregate.revenue := 0; CustomerAggregate.profit := 0;
                        CustomerAggregate.sellers := [] |}
         | Some _ => Metrics.customers acc
         end;
       Metrics.products := products0 |} s c
  <-> customerLists acc s c.
Proof.
  unfold customerLists. cbn [Metrics.customers]. rewrite get_ensure.
  destruct (JsObject.get (Metrics.customers acc) c); [reflexivity|].
  destruct (String.eqb k c); split; intros (d & H & Hin); try discriminate.
  injection H as <-. destruct Hin.
Qed.

Lemma accumulateRecord_links (acc acc' : Metrics.t) (record : PurchaseRecord.t) :
  accumulateRecord calculateProfit products acc record = Ok acc' ->
  (forall s c, sellerLists acc' s c <-> sellerLists acc s c \/ soldTo [record] s c)
  /\ (forall s c, customerLists acc' s c <-> customerLists acc s c \/ soldTo [record] s c).
Proof.
  unfold accumulateRecord. intro F.
  match type of F with
  | foldM _ _ ?start = _ =>
      assert (Hs : JsObject.get (Metrics.sellers start) (PurchaseRecord.seller_id record)
                   <> None);
      [|assert (Hc : JsObject.get (Metrics.customers start)
                       (PurchaseRecord.customer_id record) <> None);
        [|destruct (accumulateItems_links _ _ _ start acc' Hs Hc F) as [L R]]]
  end.
  { cbn [Metrics.sellers]. rewrite get_ensure.
    destruct (JsObject.get _ _); [discriminate|]. rewrite String.eqb_refl. discriminate. }
  { cbn [Metrics.customers]. rewrite get_ensure.
    destruct (JsObject.get (Metrics.customers acc) _); [discriminate|].
    rewrite String.eqb_refl. discriminate. }
  assert (Sold : forall s c,
            soldTo [record] s c <->
            (PurchaseRecord.items record <> []
             /\ s = PurchaseRecord.seller_id record
             /\ c = PurchaseRecord.customer_id record)).
  { intros s c. unfold soldTo. split.
    - intros (r & [<-|[]] & <- & <- & H). auto.
    - intros (H & -> & ->). exists record. cbn. auto. }
  split; intros s c; rewrite Sold.
  - rewrite L, ensure_sellerLists. reflexivity.
  - rewrite R.
    match goal with
    | |- customerLists {| Metrics.sellers := ?s0; Metrics.customers := _;
                          Metrics.products := ?p0 |} _ _ \/ _ <-> _ =>
        rewrite (ensure_customerLists acc (PurchaseRecord.customer_id record) s0 p0)
    end.
    reflexivity.
Qed.

Lemma accumulateRecords_links (records : list PurchaseRecord.t) :
  forall acc acc',
  foldM (accumulateRecord calculateProfit products) records acc = Ok acc' ->
  (forall s c, sellerLists acc' s c <-> sellerLists acc s c \/ soldTo records s c)
  /\ (forall s c, customerLists acc' s c <-> customerLists acc s c \/ soldTo records s c).
Proof.
  assert (Cons : forall record rest s c,
            soldTo (record :: rest) s c <-> soldTo [record] s c \/ soldTo rest s c).
  { intros record rest s c. unfold soldTo. split.
    - intros (r & [E|Hr] & H); [left|right]; exists r; cbn [In]; tauto.
    - intros [(r & [E|[]] & H)|(r & Hr & H)]; exists r; cbn [In]; tauto. }
  induction records as [|record records IH]; intros acc acc'; cbn [foldM].
  - intros [= <-]. split; intros s c; (split; [now left|]);
      intros [H|(r & [] & _)]; exact H.
  - destruct (accumulateRecord _ _ acc record) as [mid|] eqn:E; [|discriminate].
    cbn [bind]. intro F.
    destruct (accumulateRecord_links _ _ _ E) as [L1 R1].
    destruct (IH _ _ F) as [L2 R2].
    split; intros s c; [rewrite L2, L1|rewrite R2, R1];
      rewrite (Cons record records); tauto.
Qed.

End Links.

(** When [baseMetrics] returns, a seller lists a customer exactly when the
    customer lists the seller, and exactly when some record of that seller
    for that customer has an item: a record without items links nobody. *)
Theorem baseMetrics_links (records : list PurchaseRecord.t)
    (calculateProfit : ProfitFn) (products : list Product.t) (m : Metrics.t) :
  baseMetrics records calculateProfit products = Ok m ->
  forall s c,
    (sellerLists m s c <-> soldTo records s c)
    /\ (customerLists m s c <-> soldTo records s c).
Proof.
  unfold baseMetrics. intros H s c.
  destruct (accumulateRecords_links _ _ _ _ _ H) as [L R].
  rewrite L, R. unfold sellerLists, customerLists. cbn.
  split; (split; [intros [(d & Hd & _)|Hsold]; [discriminate|exact Hsold]|now right]).
Qed.

Lemma baseMetrics_links_witness :
  baseMetrics sampleRecords simpleProfit sampleProducts = Ok sampleStats
  /\ (sellerLists sampleStats "seller_3" "customer_1"
      <-> soldTo sampleRecords "seller_3" "customer_1").
Proof.
  assert (H : baseMetrics sampleRecords simpleProfit sampleProducts = Ok sampleStats)
    by (vm_compute; reflexivity).
  split; [exact H|].
  exact (proj1 (baseMetrics_links _ _ _ _ H "seller_3" "customer_1")).
Defined.

(** ** [bonusBestCustomer] on the statistics of [baseMetrics] *)

Section Sound.

Variables (calculateProfit : ProfitFn) (products : list Product.t).





End Sound.



(** ** [bonusCustomerRetention] *)

Lemma mathMax_spec (values : list Q) :
  match mathMax values with
  | NegInfinity => values = []
  | Fin q => In q values /\ forall x, In x values -> x <= q
  | _ => False
  end.
Proof.
  unfold mathMax. induction values as [|v values IH] using rev_ind; [reflexivity|].
  rewrite fold_left_app. cbn [fold_left].
  destruct (fold_left _ values NegInfinity) as [q| | |]; try contradiction; cbn [gt].
  - destruct IH as [Hin Hmax].
    destruct (Qlt_bool q v) eqn:C; order_bool.
    + split; [apply in_or_app; right; now left|].
      intros x Hx. apply in_app_or in Hx.
      destruct Hx as [Hx|[<-|[]]]; [specialize (Hmax x Hx); lra|lra].
    + split; [apply in_or_app; now left|].
      intros x Hx. apply in_app_or in Hx.
      destruct Hx as [Hx|[<-|[]]]; [now apply Hmax|exact C].
  - subst values. split; [now left|]. intros x [<-|[]]. lra.
Qed.

Lemma mathMax_below (values : list Q) (q : Q) :
  gt (mathMax values) (Fin q) = false -> forall x, In x values -> x <= q.
Proof.
  intros H x Hx. pose proof (mathMax_spec values) as M.
  destruct (mathMax values) as [m| | |]; try contradiction.
  - cbn [gt] in H. order_bool. destruct M as [_ M]. specialize (M x Hx). lra.
  - subst values. destruct Hx.
Qed.

Lemma mathMax_strictly_below (values : list Q) (q : Q) :
  gt (Fin q) (mathMax values) = true -> forall x, In x values -> x < q.
Proof.
  intros H x Hx. pose proof (mathMax_spec values) as M.
  destruct (mathMax values) as [m| | |]; try contradiction.
  - cbn [gt] in H. order_bool. destruct M as [_ M]. specialize (M x Hx). lra.
  - subst values. destruct Hx.
Qed.

Section Retention.

Variable stats : Metrics.t.

Let metric (e : string * SellerAggregate.t) : number := retentionOf stats (snd e).

Let step (best : option (string * number)) (e : string * SellerAggregate.t) :=
  if gt (metric e) (orZero (match best with Some b => snd b | None => Fin 0 end))
  then Some (fst e, metric e) else best.

Lemma metric_shape (e : string * SellerAggregate.t) :
  metric e = NegInfinity \/ exists q, metric e = Fin q.
Proof.
  unfold metric, retentionOf.
  pose proof (mathMax_spec (map (customerRevenueOrZero stats)
                                (SellerAggregate.customers (snd e)))) as S.
  destruct (mathMax _) as [q| | |]; try contradiction; [right; now exists q|now left].
Qed.

Lemma retention_spec (l : list (string * SellerAggregate.t)) :
  match fold_left step l None with
  | None => forall e, In e l -> gt (metric e) (Fin 0) = false
  | Some b =>
      exists l1 e l2 q,
        l = l1 ++ e :: l2 /\ b = (fst e, Fin q) /\ metric e = Fin q /\ 0 < q
        /\ (forall e', In e' l1 -> gt (Fin q) (metric e') = true)
        /\ (forall e', In e' l2 -> gt (metric e') (Fin q) = false)
  end.
Proof.
  induction l as [|e l IH] using rev_ind; [intros e []|].
  rewrite fold_left_app. cbn [fold_left].
  destruct (fold_left step l None) as [b|].
  - destruct IH as (l1 & w & l2 & q & -> & -> & Hw & Hq & Hbefore & Hafter).
    unfold step. cbn [snd orZero].
    assert (Hnz : Qeq_bool q 0 = false) by (apply Qeq_bool_false_iff; lra).
    rewrite Hnz.
    destruct (gt (metric e) (Fin q)) eqn:C.
    + destruct (metric_shape e) as [He|[q' He]]; rewrite He in C; [discriminate|].
      cbn [gt] in C. order_bool.
      exists (l1 ++ w :: l2), e, [], q'.
      split; [now rewrite <- app_assoc|]. split; [now rewrite He|].
      split; [exact He|]. split; [lra|]. split; [|intros e' []].
      intros e' He'. apply in_app_or in He'. destruct He' as [He'|[<-|He']].
      * specialize (Hbefore e' He').
        destruct (metric_shape e') as [E|[x E]]; rewrite E in *; [reflexivity|].
        cbn [gt] in *. order_bool. lra.
      * rewrite Hw. cbn [gt]. order_bool. exact C.
      * specialize (Hafter e' He').
        destruct (metric_shape e') as [E|[x E]]; rewrite E in *; [reflexivity|].
        cbn [gt] in *. order_bool. lra.
    + exists l1, w, (l2 ++ [e]), q.
      split; [now rewrite <- app_assoc|]. split; [reflexivity|].
      split; [exact Hw|]. split; [exact Hq|]. split; [exact Hbefore|].
      intros e' He'. apply in_app_or in He'.
      destruct He' as [He'|[<-|[]]]; [now apply Hafter|exact C].
  - unfold step. cbn [orZero]. change (Qeq_bool 0 0) with true. cbv iota.
    destruct (gt (metric e) (Fin 0)) eqn:C.
    + destruct (metric_shape e) as [He|[q He]]; rewrite He in C; [discriminate|].
      cbn [gt] in C. order_bool.
      exists l, e, [], q. split; [reflexivity|]. split; [now rewrite He|].
      split; [exact He|]. split; [exact C|]. split; [|intros e' []].
      intros e' He'. specialize (IH e' He').
      destruct (metric_shape e') as [E|[x E]]; rewrite E in *; [reflexivity|].
      cbn [gt] in *. order_bool. lra.
    + intros e' He'. apply in_app_or in He'.
      destruct He' as [He'|[<-|[]]]; [now apply IH|exact C].
Qed.

End Retention.

(** When [bonusCustomerRetention] returns, the bonus is 1000 whatever the
    revenues, and the award goes to the first seller who has a customer of
    the greatest revenue among the customers of all sellers; that revenue
    is positive. *)
Theorem bonusCustomerRetention_winner (ctx : Context) (result : BonusResult) :
  bonusCustomerRetention ctx = Ok result ->
  exists before seller after top,
    JsObject.entries (Metrics.sellers (stats ctx)) = before ++ seller :: after
    /\ result = {| category := "Best Customer Retention";
                   seller_id := Some (fst seller);
                   bonus := 1000 |}
    /\ 0 < top
    /\ In top (map (customerRevenueOrZero (stats ctx)) (SellerAggregate.customers (snd seller)))
    /\ (forall e c, In e (before ++ seller :: after) ->
          In c (SellerAggregate.customers (snd e)) ->
          customerRevenueOrZero (stats ctx) c <= top)
    /\ (forall e c, In e before ->
          In c (SellerAggregate.customers (snd e)) ->
          customerRevenueOrZero (stats ctx) c < top).
Proof.
  unfold bonusCustomerRetention.
  destruct (bestRetentionOf (stats ctx)) as [best|] eqn:B; [|discriminate].
  intros [= <-].
  pose proof (retention_spec (stats ctx) (JsObject.entries (Metrics.sellers (stats ctx)))) as S.
  cbv beta zeta in S. unfold retentionOf in S. unfold bestRetentionOf in B.
  rewrite B in S.
  destruct S as (l1 & w & l2 & q & Hl & -> & Hw & Hq & Hbefore & Hafter).
  exists l1, w, l2, q. split; [exact Hl|]. split; [reflexivity|]. split; [exact Hq|].
  pose proof (mathMax_spec (map (customerRevenueOrZero (stats ctx))
                                (SellerAggregate.customers (snd w)))) as Mw.
  rewrite Hw in Mw. destruct Mw as [Mw1 Mw2].
  split; [exact Mw1|]. split.
  - intros e c He Hc. apply in_app_or in He. destruct He as [He|[<-|He]].
    + apply Qlt_le_weak.
      exact (mathMax_strictly_below _ _ (Hbefore e He) _
               (in_map (customerRevenueOrZero (stats ctx)) _ _ Hc)).
    + apply Mw2. now apply in_map.
    + exact (mathMax_below _ _ (Hafter e He) _
               (in_map (customerRevenueOrZero (stats ctx)) _ _ Hc)).
  - intros e c He Hc.
    exact (mathMax_strictly_below _ _ (Hbefore e He) _
             (in_map (customerRevenueOrZero (stats ctx)) _ _ Hc)).
Qed.

Lemma bonusCustomerRetention_winner_witness :
  exists result,
    bonusCustomerRetention sampleContext = Ok result
    /\ seller_id result = Some "seller_1"
    /\ bonus result = 1000.
Proof.
  destruct (bonusCustomerRetention sampleContext) as [result|] eqn:E;
    [|vm_compute in E; discriminate E].
  exists result. split; [reflexivity|].
  destruct (bonusCustomerRetention_winner sampleContext result E)
    as (before & seller & after & top & _ & -> & _).
  split; [|reflexivity].
  vm_compute in E. injection E as E. cbn [seller_id]. f_equal. symmetry. exact E.
Defined.

(** ** The reports of [analyzeSalesData] *)

Lemma assignBonus_fields (calculateBonus : BonusFn) (total index : nat)
    (seller assigned : SellerStat.t) :
  assignBonus calculateBonus total (index, seller) = Ok assigned ->
  SellerStat.sellerId assigned = SellerStat.sellerId seller
  /\ SellerStat.firstName assigned = SellerStat.firstName seller
  /\ SellerStat.lastName assigned = SellerStat.lastName seller
  /\ SellerStat.revenue assigned = SellerStat.revenue seller
  /\ SellerStat.profit assigned = SellerStat.profit seller
  /\ SellerStat.sales_count assigned = SellerStat.sales_count seller
  /\ SellerStat.top_products assigned = topProducts (SellerStat.products_sold seller)
  /\ calculateBonus (ASeller seller) (ANumber (inject_Z (Z.of_nat index)))
                    (ANumber (inject_Z (Z.of_nat total)))
     = Ok (SellerStat.bonus assigned).
Proof.
  unfold assignBonus. cbn [fst snd].
  destruct (calculateBonus _ _ _) as [bonus|]; [|discriminate].
  cbn [bind]. intros [= <-]. cbn. repeat split; reflexivity.
Qed.

Lemma Forall2_combine_seq {A B} (R : nat * A -> B -> Prop) (l : list A) (l' : list B) :
  forall start,
  Forall2 R (combine (seq start (length l)) l) l' ->
  length l' = length l
  /\ forall i x y, nth_error l i = Some x -> nth_error l' i = Some y -> R ((start + i)%nat, x) y.
Proof.
  revert l'. induction l as [|x l IH]; intros l' start H; cbn [length seq combine] in H.
  - inversion H; subst. split; [reflexivity|]. intros [|i] ? ? E; discriminate E.
  - inversion H as [|? y ? ys Hxy Hrest]; subst.
    destruct (IH ys (S start) Hrest) as [Hlen Hnth]. split; [cbn; congruence|].
    intros [|i] x' y' Ex Ey; cbn [nth_error] in Ex, Ey.
    + injection Ex as <-. injection Ey as <-. now rewrite Nat.add_0_r.
    + rewrite Nat.add_succ_r. now apply (Hnth i).
Qed.

(** The stages of lines 295-364 when the call returns. *)
Lemma rankSellers_stages
    (customers : list Customer.t) (products : list Product.t) (sellers : list Seller.t)
    (purchase_records : list PurchaseRecord.t)
    (calculateRevenue : RevenueFn) (calculateBonus : BonusFn) (reports : list Report.t) :
  rankSellers customers products sellers purchase_records calculateRevenue calculateBonus
  = Ok reports ->
  exists collected assigned,
    foldM (collectRecord (indexSellers (map initialStat sellers)) (indexProducts products)
                         calculateRevenue)
          purchase_records (map initialStat sellers) = Ok collected
    /\ reports = map report assigned
    /\ length assigned = length collected
    /\ forall i seller a,
         nth_error (sort (fun a b => Fin (SellerStat.profit b - SellerStat.profit a))
                         collected) i = Some seller ->
         nth_error assigned i = Some a ->
         assignBonus calculateBonus (length collected) (i, seller) = Ok a.
Proof.
  unfold rankSellers.
  destruct (foldM _ purchase_records _) as [collected|] eqn:C; [|discriminate].
  cbn [bind].
  destruct (mapM _ _) as [assigned|] eqn:M; [|discriminate].
  cbn [bind]. intros [= <-].
  exists collected, assigned. split; [reflexivity|]. split; [reflexivity|].
  apply mapM_Forall2 in M.
  apply Forall2_combine_seq in M. destruct M as [Hlen Hnth].
  assert (Hl : length (sort (fun a b => Fin (SellerStat.profit b - SellerStat.profit a))
                            collected) = length collected)
    by apply Permutation_length, sort_perm.
  rewrite Hl in *. split; [exact Hlen|].
  intros i seller a Hs Ha. exact (Hnth i seller a Hs Ha).
Qed.

Lemma pointwise_map {A B C} (f : A -> C) (g : B -> C) (l : list A) (l' : list B) :
  length l' = length l ->
  (forall i x y, nth_error l i = Some x -> nth_error l' i = Some y -> g y = f x) ->
  map g l' = map f l.
Proof.
  revert l'. induction l as [|x l IH]; intros [|y l'] Hlen H; try discriminate; [reflexivity|].
  cbn [map]. f_equal.
  - exact (H O x y eq_refl eq_refl).
  - apply IH; [now injection Hlen|]. intros i x' y'. exact (H (S i) x' y').
Qed.

(** When [analyzeSalesData] returns, it gives one report for every seller
    of the catalog, seller by seller: the identifiers of the reports are
    those of the catalog in another order, so a seller without sales is
    reported too and a record of an unknown seller adds no report. *)
Theorem analyzeSalesData_one_report_per_seller
    (data : js unit Data.t unit) (options : js unit Options.t unit)
    (reports : list Report.t) :
  analyzeSalesData data options = Ok reports ->
  Permutation (map Report.seller_id reports)
              (map Seller.id (elements (prop data Data.sellers))).
Proof.
  unfold analyzeSalesData.
  destruct (checkInput data options) as [[]|]; [|discriminate]. cbn [bind].
  intro H. apply rankSellers_stages in H.
  destruct H as (collected & assigned & C & -> & Hlen & Hnth).
  pose proof (collectRecords_effect _ _ _ _ _ _ C) as E. cbv beta zeta in E.
  destruct E as [Ids _].
  assert (I : map SellerStat.sellerId (map initialStat (elements (prop data Data.sellers)))
              = map Seller.id (elements (prop data Data.sellers)))
    by (rewrite map_map; reflexivity).
  rewrite <- I, <- Ids, map_map.
  set (sorted := sort (fun a b => Fin (SellerStat.profit b - SellerStat.profit a)) collected)
    in *.
  assert (P : Permutation sorted collected) by apply sort_perm.
  rewrite <- (Permutation_map SellerStat.sellerId P).
  rewrite (pointwise_map SellerStat.sellerId (fun a => Report.seller_id (report a))
             sorted assigned); [reflexivity| |].
  - now rewrite (Permutation_length P).
  - intros i s a Hs Ha. cbn [report Report.seller_id].
    now destruct (assignBonus_fields _ _ _ _ _ (Hnth i s a Hs Ha)).
Qed.









Lemma analyzeSalesData_one_report_per_seller_witness :
  let reports :=
    match analyzeSalesData numberedData referenceOptions with
    | Ok l => l
    | Throw _ => []
    end in
  analyzeSalesData numberedData referenceOptions = Ok reports
  /\ Permutation (map Report.seller_id reports) ["seller_1"].
Proof.
  intro reports.
  assert (H : analyzeSalesData numberedData referenceOptions = Ok reports)
    by (vm_compute; reflexivity).
  split; [exact H|].
  exact (analyzeSalesData_one_report_per_seller numberedData referenceOptions reports H).
Defined.

(** ** The indexes of lines 311-316 *)

Section Indexes.

Context {V : Type}.

Lemma get_set (o : JsObject.t V) (k k' : string) (v : V) :
  JsObject.get (JsObject.set o k v) k'
  = if String.eqb k k' then Some v else JsObject.get o k'.
Proof.
  induction o as [|[k0 v0] r IH]; cbn [JsObject.set JsObject.get].
  - now destruct (String.eqb k k').
  - destruct (String.eqb_spec k0 k) as [->|Hne]; cbn [JsObject.get].
    + destruct (String.eqb k k'); reflexivity.
    + destruct (String.eqb_spec k0 k') as [->|Hne']; [|exact IH].
      destruct (String.eqb_spec k k') as [->|_]; [contradiction|reflexivity].
Qed.

Lemma keys_fold_set (l : list (string * V)) :
  forall o,
  map fst (fold_left (fun o e => JsObject.set o (fst e) (snd e)) l o)
  = fold_left setAdd (map fst l) (map fst o).
Proof.
  induction l as [|[k v] l IH]; intro o; cbn [fold_left map fst snd]; [reflexivity|].
  now rewrite IH, keys_set.
Qed.

Lemma keys_fromEntries (l : list (string * V)) :
  map fst (JsObject.fromEntries l) = firstOccurrences (map fst l).
Proof.
  unfold JsObject.fromEntries. rewrite keys_fold_set.
  exact (setAdd_firstOccurrences (map fst l) []).
Qed.

(** A key is in [Object.fromEntries(l)] exactly when an entry of [l] has it. *)
Lemma fromEntries_known (l : list (string * V)) (k : string) :
  match JsObject.get (JsObject.fromEntries l) k with Some _ => true | None => false end
  = existsb (String.eqb k) (map fst l).
Proof. now rewrite <- get_keys, keys_fromEntries, existsb_firstOccurrences. Qed.

Lemma get_fold_set_In (l : list (string * V)) (k : string) (v : V) :
  forall o,
  JsObject.get (fold_left (fun o e => JsObject.set o (fst e) (snd e)) l o) k = Some v ->
  In (k, v) l \/ JsObject.get o k = Some v.
Proof.
  induction l as [|[k0 v0] l IH]; intros o; cbn [fold_left fst snd]; [now right|].
  intro H. destruct (IH _ H) as [Hin|Hget]; [left; now right|].
  rewrite get_set in Hget. destruct (String.eqb_spec k0 k) as [->|_]; [|now right].
  injection Hget as ->. left. now left.
Qed.

(** What [Object.fromEntries(l)] holds under a key is an entry of [l]. *)
Lemma get_fromEntries_In (l : list (string * V)) (k : string) (v : V) :
  JsObject.get (JsObject.fromEntries l) k = Some v -> In (k, v) l.
Proof.
  intro H. destruct (get_fold_set_In l k v _ H) as [Hin|Hget]; [exact Hin|discriminate Hget].
Qed.

End Indexes.

Lemma In_combine_seq {A} (l : list A) (x : A) (j : nat) :
  forall start,
  In (x, j) (combine l (seq start (length l))) ->
  (start <= j)%nat /\ nth_error l (j - start) = Some x.
Proof.
  induction l as [|y l IH]; intros start; cbn [length seq combine]; [intros []|].
  intros [[= -> ->]|Hin].
  - split; [lia|]. now rewrite Nat.sub_diag.
  - destruct (IH _ Hin) as [Hle Hnth]. split; [lia|].
    replace (j - start)%nat with (S (j - S start)) by lia. exact Hnth.
Qed.

Lemma map_fst_combine_seq {A} (l : list A) :
  forall start, map fst (combine l (seq start (length l))) = l.
Proof.
  induction l as [|y l IH]; intro start; cbn [length seq combine map fst]; [reflexivity|].
  now rewrite IH.
Qed.

(** A reference of the seller index leads to a seller of that identifier. *)
Lemma indexSellers_ref (sellerStats : list SellerStat.t) (k : string) (ref : nat) :
  JsObject.get (indexSellers sellerStats) k = Some ref ->
  nth_error (map SellerStat.sellerId sellerStats) ref = Some k.
Proof.
  unfold indexSellers. intro H. apply get_fromEntries_In in H.
  rewrite <- (length_map SellerStat.sellerId) in H.
  apply In_combine_seq in H. destruct H as [_ H]. now rewrite Nat.sub_0_r in H.
Qed.

Lemma indexSellers_known (sellers : list Seller.t) (record : PurchaseRecord.t) :
  match JsObject.get (indexSellers (map initialStat sellers))
                     (PurchaseRecord.seller_id record) with
  | Some _ => true
  | None => false
  end = knownSeller sellers record.
Proof.
  unfold indexSellers, knownSeller. rewrite fromEntries_known.
  rewrite <- (length_map SellerStat.sellerId), map_fst_combine_seq, map_map.
  reflexivity.
Qed.

Lemma indexProducts_known (products : list Product.t) (item : Item.t) :
  match JsObject.get (indexProducts products) (Item.sku item) with
  | Some _ => true
  | None => false
  end = knownProduct products item.
Proof.
  unfold indexProducts, knownProduct. rewrite fromEntries_known, map_map. reflexivity.
Qed.

Lemma foldM_filter {S A} (step : S -> A -> outcome S) (keep : A -> bool) (l : list A) :
  (forall s x, keep x = false -> step s x = Ok s) ->
  forall s, foldM step (filter keep l) s = foldM step l s.
Proof.
  intro H. induction l as [|x l IH]; intro s; cbn [filter foldM]; [reflexivity|].
  destruct (keep x) eqn:E; cbn [foldM].
  - destruct (step s x); cbn [bind]; [apply IH|reflexivity].
  - rewrite (H s x E). cbn [bind]. apply IH.
Qed.

Lemma foldM_map {S A B} (step : S -> A -> outcome S) (step' : S -> B -> outcome S)
    (g : B -> A) (l : list B) :
  (forall s x, step s (g x) = step' s x) ->
  forall s, foldM step (map g l) s = foldM step' l s.
Proof.
  intro H. induction l as [|x l IH]; intro s; cbn [map foldM]; [reflexivity|].
  rewrite H. destruct (step' s x); cbn [bind]; [apply IH|reflexivity].
Qed.

Lemma checkInput_records (customers : list Customer.t) (products : list Product.t)
    (sellers : list Seller.t) (records records' : list PurchaseRecord.t)
    (options : js unit Options.t unit) :
  records <> [] -> records' <> [] ->
  checkInput (dataOf customers products sellers records) options
  = checkInput (dataOf customers products sellers records') options.
Proof.
  destruct records, records'; try contradiction; intros _ _; reflexivity.
Qed.

Lemma plainRecords_check (records : list PurchaseRecord.t) :
  plainRecordsb records = true -> plainRecords records.
Proof.
  unfold plainRecordsb. intros H record Hr. rewrite forallb_forall in H.
  specialize (H record Hr). apply andb_prop in H. destruct H as [Hs Hi].
  split; [now apply negb_true_iff|].
  intros item Hitem. rewrite forallb_forall in Hi. now apply negb_true_iff, Hi.
Qed.

(** When no seller id and no sku of the records names a member of
    [Object.prototype], the records of sellers outside the catalog, and the
    items of products outside the catalog, count for nothing: as long as a
    record of a known seller is left, [analyzeSalesData] gives the same
    result, or the same error, with them as without them. *)
Theorem analyzeSalesData_ignores_unknown
    (customers : list Customer.t) (products : list Product.t) (sellers : list Seller.t)
    (records : list PurchaseRecord.t) (options : js unit Options.t unit) :
  plainRecords records ->
  cleaned sellers products records <> [] ->
  analyzeSalesData (dataOf customers products sellers records) options
  = analyzeSalesData (dataOf customers products sellers (cleaned sellers products records))
                     options.
Proof.
  intros _ Hne. unfold analyzeSalesData.
  assert (Hrec : records <> []) by (intros ->; now apply Hne).
  rewrite (checkInput_records customers products sellers records
             (cleaned sellers products records) options Hrec Hne).
  destruct (checkInput _ options) as [[]|]; [|reflexivity]. cbn [bind].
  cbn [dataOf prop elements Data.customers Data.products Data.sellers Data.purchase_records].
  unfold rankSellers. cbv zeta.
  replace (foldM _ (cleaned sellers products records) (map initialStat sellers))
    with (foldM (collectRecord (indexSellers (map initialStat sellers))
                               (indexProducts products)
                               (callRevenue (prop options Options.calculateRevenue)))
                records (map initialStat sellers)); [reflexivity|].
  unfold cleaned. symmetry.
  rewrite (foldM_map _
             (collectRecord (indexSellers (map initialStat sellers)) (indexProducts products)
                            (callRevenue (prop options Options.calculateRevenue)))).
  - apply foldM_filter. intros s record Hk. unfold collectRecord.
    pose proof (indexSellers_known sellers record) as K. rewrite Hk in K.
    now destruct (JsObject.get _ (PurchaseRecord.seller_id record)).
  - intros s record. unfold collectRecord. cbn [PurchaseRecord.seller_id PurchaseRecord.items].
    destruct (JsObject.get _ (PurchaseRecord.seller_id record)) as [ref|]; [|reflexivity].
    change (countSale _) with (countSale record).
    apply foldM_filter. intros s' item Hk. unfold collectItem.
    pose proof (indexProducts_known products item) as K. rewrite Hk in K.
    now destruct (JsObject.get _ (Item.sku item)).
Qed.

Lemma analyzeSalesData_ignores_unknown_witness :
  plainRecords strayRecords
  /\ cleaned sampleSellers sampleProducts strayRecords <> []
  /\ cleaned sampleSellers sampleProducts strayRecords <> strayRecords
  /\ analyzeSalesData (dataOf sampleCustomers sampleProducts sampleSellers strayRecords)
                      referenceOptions
     = analyzeSalesData
         (dataOf sampleCustomers sampleProducts sampleSellers
                 (cleaned sampleSellers sampleProducts strayRecords))
         referenceOptions.
Proof.
  assert (P : plainRecords strayRecords)
    by (apply plainRecords_check; vm_compute; reflexivity).
  assert (H : cleaned sampleSellers sampleProducts strayRecords <> [])
    by (vm_compute; discriminate).
  split; [exact P|]. split; [exact H|]. split; [vm_compute; discriminate|].
  exact (analyzeSalesData_ignores_unknown sampleCustomers sampleProducts sampleSellers
           strayRecords referenceOptions P H).
Defined.

(** ** What the collecting loop leaves in one seller (lines 319-341) *)

Section Figures.

Variable sellerIndex : JsObject.t nat.
Variable productIndex : JsObject.t Product.t.
Variable calculateRevenue : RevenueFn.

Lemma collectItems_other (ref j : nat) (items : list Item.t) :
  j <> ref ->
  forall sellerStats sellerStats',
  foldM (collectItem productIndex calculateRevenue ref) items sellerStats = Ok sellerStats' ->
  nth_error sellerStats' j = nth_error sellerStats j.
Proof.
  intro Hne. induction items as [|item items IH]; intros sellerStats sellerStats'; cbn [foldM].
  - now intros [= <-].
  - destruct (collectItem _ _ ref sellerStats item) as [mid|] eqn:E; [|discriminate].
    cbn [bind]. intro F. rewrite (IH _ _ F). clear F IH.
    unfold collectItem in E.
    destruct (JsObject.get productIndex (Item.sku item)) as [product|]; [|now injection E as <-].
    destruct (calculateRevenue item product) as [revenue|]; [|discriminate].
    cbn [bind] in E. injection E as <-. rewrite nth_error_mutate.
    destruct (Nat.eqb_spec ref j) as [->|_]; [contradiction|reflexivity].
Qed.

Lemma collectItems_at (ref : nat) (items : list Item.t) :
  forall sellerStats sellerStats' seller,
  foldM (collectItem productIndex calculateRevenue ref) items sellerStats = Ok sellerStats' ->
  nth_error sellerStats ref = Some seller ->
  exists seller',
    nth_error sellerStats' ref = Some seller'
    /\ SellerStat.sales_count seller' = SellerStat.sales_count seller
    /\ SellerStat.revenue seller' = SellerStat.revenue seller
    /\ SellerStat.profit seller'
       == SellerStat.profit seller
          + sumQ (map (itemProfit productIndex calculateRevenue) items).
Proof.
  induction items as [|item items IH]; intros sellerStats sellerStats' seller; cbn [foldM].
  - intros [= <-] H. exists seller. cbn [map sumQ fold_right].
    repeat split; [exact H|lra].
  - destruct (collectItem _ _ ref sellerStats item) as [mid|] eqn:E; [|discriminate].
    cbn [bind]. intros F H. unfold collectItem in E.
    cbn [map]. unfold itemProfit at 1.
    destruct (JsObject.get productIndex (Item.sku item)) as [product|].
    + destruct (calculateRevenue item product) as [revenue|]; [|discriminate].
      cbn [bind] in E. injection E as <-.
      assert (H1 : nth_error (mutate ref (countItem item
                      (revenue - Product.purchase_price product * Item.quantity item))
                      sellerStats) ref
                   = Some (countItem item
                      (revenue - Product.purchase_price product * Item.quantity item) seller)).
      { now rewrite nth_error_mutate, Nat.eqb_refl, H. }
      destruct (IH _ _ _ F H1) as (seller' & N & C & R & P).
      exists seller'. cbn [countItem SellerStat.sales_count SellerStat.revenue
                           SellerStat.profit] in C, R, P.
      repeat split; try assumption. unfold sumQ in *. cbn [fold_right]. lra.
    + injection E as <-. destruct (IH _ _ _ F H) as (seller' & N & C & R & P).
      exists seller'. repeat split; try assumption. unfold sumQ in *. cbn [fold_right]. lra.
Qed.

(** After the loop the seller at position [j] has gained one sale, the
    total amount and the item profits of every record the index sends to
    it, and nothing else. *)
Lemma collectRecords_at (j : nat) (records : list PurchaseRecord.t) :
  forall sellerStats sellerStats' seller,
  foldM (collectRecord sellerIndex productIndex calculateRevenue) records sellerStats
  = Ok sellerStats' ->
  nth_error sellerStats j = Some seller ->
  exists seller',
    nth_error sellerStats' j = Some seller'
    /\ SellerStat.sales_count seller'
       = (SellerStat.sales_count seller
          + Z.of_nat (length (filter (refersTo sellerIndex j) records)))%Z
    /\ SellerStat.revenue seller'
       == SellerStat.revenue seller
          + sumQ (map PurchaseRecord.total_amount (filter (refersTo sellerIndex j) records))
    /\ SellerStat.profit seller'
       == SellerStat.profit seller
          + sumQ (map (itemProfit productIndex calculateRevenue)
                      (flat_map PurchaseRecord.items
                                (filter (refersTo sellerIndex j) records)))
    /\ (filter (refersTo sellerIndex j) records = [] -> seller' = seller).
Proof.
  induction records as [|record records IH]; intros sellerStats sellerStats' seller;
    cbn [foldM filter].
  - intros [= <-] H. exists seller. cbn [length map flat_map sumQ fold_right Z.of_nat].
    repeat split; [exact H|lia|lra|lra].
  - destruct (collectRecord _ _ _ sellerStats record) as [mid|] eqn:E; [|discriminate].
    cbn [bind]. intros F H. unfold collectRecord in E.
    destruct (refersTo sellerIndex j record) eqn:Hit; unfold refersTo in Hit;
      destruct (JsObject.get sellerIndex (PurchaseRecord.seller_id record)) as [ref|];
      try discriminate Hit.
    + apply Nat.eqb_eq in Hit. subst ref.
      assert (H1 : nth_error (mutate j (countSale record) sellerStats) j
                   = Some (countSale record seller))
        by now rewrite nth_error_mutate, Nat.eqb_refl, H.
      destruct (collectItems_at _ _ _ _ _ E H1) as (s1 & N1 & C1 & R1 & P1).
      destruct (IH _ _ _ F N1) as (seller' & N & C & R & P & _).
      exists seller'.
      cbn [countSale SellerStat.sales_count SellerStat.revenue SellerStat.profit]
        in C1, R1, P1.
      split; [exact N|]. split; [|split; [|split; [|intro K; discriminate K]]].
      * rewrite C, C1. cbn [length]. lia.
      * cbn [map]. rewrite R, R1. unfold sumQ. cbn [fold_right]. lra.
      * cbn [flat_map]. rewrite map_app, sumQ_app, P, P1. lra.
    + apply Nat.eqb_neq in Hit.
      assert (H1 : nth_error mid j = Some seller).
      { rewrite (collectItems_other ref j _ (not_eq_sym Hit) _ _ E), nth_error_mutate.
        destruct (Nat.eqb_spec ref j) as [->|_]; [contradiction|exact H]. }
      exact (IH _ _ _ F H1).
    + injection E as <-. exact (IH _ _ _ F H).
Qed.

End Figures.

(** The seller statistics behind a report of [analyzeSalesData]: its place
    in the catalog, and what the collecting loop left there. *)
Lemma report_origin
    (data : js unit Data.t unit) (options : js unit Options.t unit)
    (reports : list Report.t) (r : Report.t) :
  analyzeSalesData data options = Ok reports ->
  In r reports ->
  exists collected j seller initial,
    foldM (collectRecord
             (indexSellers (map initialStat (elements (prop data Data.sellers))))
             (indexProducts (elements (prop data Data.products)))
             (callRevenue (prop options Options.calculateRevenue)))
          (elements (prop data Data.purchase_records))
          (map initialStat (elements (prop data Data.sellers))) = Ok collected
    /\ nth_error collected j = Some seller
    /\ nth_error (elements (prop data Data.sellers)) j = Some initial
    /\ SellerStat.sellerId seller = Seller.id initial
    /\ Report.seller_id r = SellerStat.sellerId seller
    /\ Report.sales_count r = SellerStat.sales_count seller
    /\ Report.revenue r = toFixed2 (SellerStat.revenue seller)
    /\ Report.profit r = toFixed2 (SellerStat.profit seller)
    /\ Report.top_products r = topProducts (SellerStat.products_sold seller).
Proof.
  unfold analyzeSalesData.
  destruct (checkInput data options) as [[]|]; [|discriminate]. cbn [bind].
  intros H Hin. apply rankSellers_stages in H.
  destruct H as (collected & assigned & C & -> & Hlen & Hnth).
  apply in_map_iff in Hin. destruct Hin as (a & <- & Hin).
  apply In_nth_error in Hin. destruct Hin as [i Hi].
  set (sorted := sort (fun a b => Fin (SellerStat.profit b - SellerStat.profit a)) collected)
    in *.
  assert (P : Permutation sorted collected) by apply sort_perm.
  destruct (nth_error sorted i) as [seller|] eqn:Hs.
  2:{ apply nth_error_None in Hs. rewrite (Permutation_length P), <- Hlen in Hs.
      apply nth_error_None in Hs. congruence. }
  destruct (assignBonus_fields _ _ _ _ _ (Hnth i seller a Hs Hi))
    as (Fid & _ & _ & Frev & Fprofit & Fcount & Ftop & _).
  assert (Hc : In seller collected).
  { apply (Permutation_in _ P). eapply nth_error_In. exact Hs. }
  apply In_nth_error in Hc. destruct Hc as [j Hj].
  pose proof (collectRecords_effect _ _ _ _ _ _ C) as E. cbv beta zeta in E.
  destruct E as [Ids _].
  assert (Ij : nth_error (map SellerStat.sellerId collected) j
               = Some (SellerStat.sellerId seller))
    by (rewrite nth_error_map, Hj; reflexivity).
  rewrite Ids, map_map, nth_error_map in Ij.
  destruct (nth_error (elements (prop data Data.sellers)) j) as [initial|] eqn:Hinit;
    [|discriminate].
  cbn [option_map initialStat SellerStat.sellerId] in Ij. injection Ij as Ij.
  exists collected, j, seller, initial.
  split; [exact C|]. split; [exact Hj|]. split; [exact Hinit|]. split; [now symmetry|].
  cbn [report Report.seller_id Report.sales_count Report.revenue Report.profit
       Report.top_products].
  rewrite Fid, Fcount, Frev, Fprofit, Ftop. repeat split; reflexivity.
Qed.

(** A seller of the catalog that no record names is reported with no sale,
    no revenue, no profit and no top product. *)
Theorem analyzeSalesData_idle_seller
    (data : js unit Data.t unit) (options : js unit Options.t unit)
    (reports : list Report.t) (r : Report.t) :
  analyzeSalesData data options = Ok reports ->
  In r reports ->
  (forall record, In record (elements (prop data Data.purchase_records)) ->
                  PurchaseRecord.seller_id record <> Report.seller_id r) ->
  Report.sales_count r = 0%Z
  /\ Report.revenue r == 0
  /\ Report.profit r == 0
  /\ Report.top_products r = [].
Proof.
  intros H Hin Hidle.
  destruct (report_origin data options reports r H Hin)
    as (collected & j & seller & initial & C & Hj & Hinit & Eid & Rid & -> & -> & -> & ->).
  assert (H0 : nth_error (map initialStat (elements (prop data Data.sellers))) j
               = Some (initialStat initial))
    by (rewrite nth_error_map, Hinit; reflexivity).
  destruct (collectRecords_at _ _ _ j _ _ _ _ C H0) as (seller' & N & _ & _ & _ & Same).
  rewrite Hj in N. injection N as <-.
  rewrite Same.
  - cbn [initialStat SellerStat.sales_count SellerStat.revenue SellerStat.profit
         SellerStat.products_sold].
    repeat split; vm_compute; reflexivity.
  - destruct (filter _ _) as [|record rest] eqn:Ef; [reflexivity|exfalso].
    assert (Hr : In record (filter
                   (refersTo (indexSellers (map initialStat (elements (prop data Data.sellers))))
                             j)
                   (elements (prop data Data.purchase_records))))
      by (rewrite Ef; now left).
    apply filter_In in Hr. destruct Hr as [Hr Href].
    apply (Hidle record Hr). unfold refersTo in Href.
    destruct (JsObject.get _ (PurchaseRecord.seller_id record)) as [ref|] eqn:G;
      [|discriminate].
    apply Nat.eqb_eq in Href. subst ref. apply indexSellers_ref in G.
    rewrite map_map, nth_error_map, Hinit in G. cbn [option_map initialStat
      SellerStat.sellerId] in G. injection G as G. congruence.
Qed.

Lemma analyzeSalesData_idle_seller_witness :
  exists reports r,
    analyzeSalesData (dataOf sampleCustomers sampleProducts sampleSellers tiedRecords)
                     referenceOptions = Ok reports
    /\ In r reports
    /\ Report.seller_id r = "seller_3"
    /\ Report.sales_count r = 0%Z
    /\ Report.revenue r == 0
    /\ Report.profit r == 0
    /\ Report.top_products r = [].
Proof.
  destruct (analyzeSalesData (dataOf sampleCustomers sampleProducts sampleSellers tiedRecords)
                             referenceOptions) as [reports|] eqn:H;
    [|exfalso; vm_compute in H; discriminate H].
  assert (Hr : exists r, In r reports /\ Report.seller_id r = "seller_3").
  { vm_compute in H. injection H as <-. eexists. split; [do 2 right; left|]; reflexivity. }
  destruct Hr as (r & Hin & Hid).
  exists reports, r. split; [reflexivity|]. split; [exact Hin|]. split; [exact Hid|].
  apply (analyzeSalesData_idle_seller
           (dataOf sampleCustomers sampleProducts sampleSellers tiedRecords)
           referenceOptions reports r H Hin).
  rewrite Hid. intros record Hrec.
  cbn [dataOf prop elements Data.purchase_records tiedRecords In] in Hrec.
  destruct Hrec as [<-|[<-|[<-|[]]]]; discriminate.
Defined.

(** ** Returning *)

Lemma foldM_total {S A} (step : S -> A -> outcome S) :
  (forall s x, exists s', step s x = Ok s') ->
  forall l s, exists s', foldM step l s = Ok s'.
Proof.
  intro H. induction l as [|x l IH]; intro s; cbn [foldM]; [now exists s|].
  destruct (H s x) as [s1 ->]. cbn [bind]. apply IH.
Qed.

Lemma mapM_total {A B} (f : A -> outcome B) :
  (forall x, exists y, f x = Ok y) -> forall l, exists l', mapM f l = Ok l'.
Proof.
  intro H. induction l as [|x l [l' IH]]; cbn [mapM]; [now exists []|].
  destruct (H x) as [y ->]. cbn [bind]. rewrite IH. cbn [bind]. now eexists.
Qed.

(** On a dataset and options that pass the checks, and records of which
    no seller id and no sku names a member of [Object.prototype],
    [analyzeSalesData] returns a report as soon as the two strategies
    return on every argument: nothing of its own throws, whether the
    catalog knows the sellers and the products of the records or not. *)
Theorem analyzeSalesData_returns
    (data : js unit Data.t unit) (o : Options.t)
    (calculateRevenue : RevenueFn) (calculateBonus : BonusFn) :
  validData data ->
  plainRecords (elements (prop data Data.purchase_records)) ->
  Options.calculateRevenue o = JFunction calculateRevenue ->
  Options.calculateBonus o = JFunction calculateBonus ->
  (forall item product, exists revenue, calculateRevenue item product = Ok revenue) ->
  (forall seller index total, exists bonus, calculateBonus seller index total = Ok bonus) ->
  exists reports, analyzeSalesData data (JObject o) = Ok reports.
Proof.
  intros Hdata _ Hrev Hbonus Trev Tbonus. unfold analyzeSalesData.
  rewrite (validOptions_checks (JObject o)); [|exists o; eauto|exact Hdata].
  cbn [bind prop]. rewrite Hrev, Hbonus. cbn [callRevenue callBonus].
  unfold rankSellers. cbv zeta.
  match goal with
  | |- context [foldM ?step ?records ?start] =>
      assert (Hfold : exists collected, foldM step records start = Ok collected)
  end.
  2: destruct Hfold as [collected ->].
  - apply foldM_total. intros s record. unfold collectRecord.
    destruct (JsObject.get _ (PurchaseRecord.seller_id record)) as [ref|]; [|now exists s].
    apply foldM_total. intros s' item. unfold collectItem.
    destruct (JsObject.get _ (Item.sku item)) as [product|]; [|now exists s'].
    destruct (Trev item product) as [revenue ->]. cbn [bind]. now eexists.
  - cbn [bind].
    match goal with
    | |- context [mapM ?f ?indexed] =>
        assert (Hmap : exists assigned, mapM f indexed = Ok assigned)
    end.
    2: destruct Hmap as [assigned ->].
    + apply mapM_total. intros [i seller]. unfold assignBonus. cbn [fst snd].
      destruct (Tbonus (ASeller seller) (ANumber (inject_Z (Z.of_nat i)))
                       (ANumber (inject_Z (Z.of_nat (length
                          (sort (fun a b => Fin (SellerStat.profit b - SellerStat.profit a))
                                collected))))))
        as [bonus ->].
      cbn [bind]. now eexists.
    + cbn [bind]. now eexists.
Qed.

Lemma analyzeSalesData_returns_witness :
  validData sampleData
  /\ plainRecords (elements (prop sampleData Data.purchase_records))
  /\ exists reports, analyzeSalesData sampleData referenceOptions = Ok reports.
Proof.
  assert (Hd : validData sampleData).
  { eexists. split; [reflexivity|]. repeat split; eexists; eexists; reflexivity. }
  assert (P : plainRecords (elements (prop sampleData Data.purchase_records)))
    by (apply plainRecords_check; vm_compute; reflexivity).
  split; [exact Hd|]. split; [exact P|].
  apply (analyzeSalesData_returns sampleData
           {| Options.calculateRevenue := JFunction calculateSimpleRevenue;
              Options.calculateBonus := JFunction calculateBonusByProfit |}
           calculateSimpleRevenue calculateBonusByProfit Hd P eq_refl eq_refl).
  - intros item product. eexists. reflexivity.
  - intros seller index total. unfold calculateBonusByProfit.
    destruct (strictEquals seller 0); [eexists; reflexivity|].
    destruct (strictEquals seller 1 || strictEquals seller 2)%bool; [eexists; reflexivity|].
    destruct (strictEquals seller (-1)); eexists; reflexivity.
Defined.

(** ** The sales counted over all reports *)

Lemma sumZ_perm (l1 l2 : list Z) : Permutation l1 l2 -> sumZ l1 = sumZ l2.
Proof. unfold sumZ. induction 1; cbn [fold_right]; lia. Qed.

Lemma sumZ_mutate {A} (g : A -> Z) (f : A -> A) (store : list A) :
  forall ref x,
  nth_error store ref = Some x ->
  sumZ (map g (mutate ref f store)) = (sumZ (map g store) - g x + g (f x))%Z.
Proof.
  unfold sumZ. induction store as [|y r IH]; intros [|ref] x; cbn [nth_error mutate];
    try discriminate.
  - intros [= ->]. cbn [map fold_right]. lia.
  - intro H. cbn [map fold_right]. rewrite (IH ref x H). lia.
Qed.

Lemma sumZ_zeros {A} (l : list A) : sumZ (map (fun _ => 0%Z) l) = 0%Z.
Proof. unfold sumZ. induction l as [|x l IH]; cbn [map fold_right]; [reflexivity|lia]. Qed.

Lemma length_mutate {A} (f : A -> A) (store : list A) :
  forall ref, length (mutate ref f store) = length store.
Proof.
  induction store as [|y r IH]; intros [|ref]; cbn [mutate length]; try reflexivity.
  now rewrite IH.
Qed.

Section Counting.

Variable sellerIndex : JsObject.t nat.
Variable productIndex : JsObject.t Product.t.
Variable calculateRevenue : RevenueFn.

Lemma collectItems_sales (ref : nat) (items : list Item.t) :
  forall sellerStats sellerStats',
  foldM (collectItem productIndex calculateRevenue ref) items sellerStats = Ok sellerStats' ->
  map SellerStat.sales_count sellerStats' = map SellerStat.sales_count sellerStats.
Proof.
  induction items as [|item items IH]; intros sellerStats sellerStats'; cbn [foldM].
  - now intros [= <-].
  - destruct (collectItem _ _ ref sellerStats item) as [mid|] eqn:E; [|discriminate].
    cbn [bind]. intro F. rewrite (IH _ _ F). clear F IH. unfold collectItem in E.
    destruct (JsObject.get productIndex (Item.sku item)) as [product|]; [|now injection E as <-].
    destruct (calculateRevenue item product) as [revenue|]; [|discriminate].
    cbn [bind] in E. injection E as <-. now apply map_mutate.
Qed.

Lemma collectRecords_sales (n : nat) (records : list PurchaseRecord.t) :
  (forall k ref, JsObject.get sellerIndex k = Some ref -> (ref < n)%nat) ->
  forall sellerStats sellerStats',
  length sellerStats = n ->
  foldM (collectRecord sellerIndex productIndex calculateRevenue) records sellerStats
  = Ok sellerStats' ->
  sumZ (map SellerStat.sales_count sellerStats')
  = (sumZ (map SellerStat.sales_count sellerStats)
     + Z.of_nat (length (filter
         (fun record =>
            match JsObject.get sellerIndex (PurchaseRecord.seller_id record) with
            | Some _ => true
            | None => false
            end) records)))%Z.
Proof.
  intro Hrefs. induction records as [|record records IH]; intros sellerStats sellerStats' Hn;
    cbn [foldM filter].
  - intros [= <-]. cbn [length Z.of_nat]. lia.
  - destruct (collectRecord _ _ _ sellerStats record) as [mid|] eqn:E; [|discriminate].
    cbn [bind]. intro F. unfold collectRecord in E.
    destruct (JsObject.get sellerIndex (PurchaseRecord.seller_id record)) as [ref|] eqn:G.
    + pose proof (collectItems_sales _ _ _ _ E) as M.
      assert (Hmid : length mid = n).
      { rewrite <- (length_map SellerStat.sales_count), M, length_map, length_mutate.
        exact Hn. }
      rewrite (IH _ _ Hmid F), M. cbn [length].
      destruct (nth_error sellerStats ref) as [seller|] eqn:Hs.
      * rewrite (sumZ_mutate _ _ _ _ _ Hs). cbn [countSale SellerStat.sales_count]. lia.
      * apply nth_error_None in Hs. specialize (Hrefs _ _ G). lia.
    + injection E as <-. exact (IH _ _ Hn F).
Qed.

End Counting.

(** The sales counts of the reports of [analyzeSalesData] add up to the
    number of records whose seller is in the catalog: each such record is
    counted once, for one seller, and no other record is counted. *)
Theorem analyzeSalesData_sales_counted
    (data : js unit Data.t unit) (options : js unit Options.t unit)
    (reports : list Report.t) :
  analyzeSalesData data options = Ok reports ->
  sumZ (map Report.sales_count reports)
  = Z.of_nat (length (filter (knownSeller (elements (prop data Data.sellers)))
                             (elements (prop data Data.purchase_records)))).
Proof.
  unfold analyzeSalesData.
  destruct (checkInput data options) as [[]|]; [|discriminate]. cbn [bind].
  intro H. apply rankSellers_stages in H.
  destruct H as (collected & assigned & C & -> & Hlen & Hnth).
  set (sorted := sort (fun a b => Fin (SellerStat.profit b - SellerStat.profit a)) collected)
    in *.
  assert (P : Permutation sorted collected) by apply sort_perm.
  rewrite map_map.
  rewrite (pointwise_map SellerStat.sales_count
             (fun a => Report.sales_count (report a)) sorted assigned).
  - rewrite (sumZ_perm _ _ (Permutation_map SellerStat.sales_count P)).
    assert (Hrefs : forall k ref,
              JsObject.get (indexSellers (map initialStat (elements (prop data Data.sellers))))
                           k = Some ref ->
              (ref < length (map initialStat (elements (prop data Data.sellers))))%nat).
    { intros k ref G. apply indexSellers_ref in G.
      rewrite <- (length_map SellerStat.sellerId). apply nth_error_Some.
      rewrite G. discriminate. }
    rewrite (collectRecords_sales _ _ _ _ _ Hrefs _ _ eq_refl C).
    rewrite map_map. cbn [initialStat SellerStat.sales_count].
    rewrite sumZ_zeros. cbn [Z.add]. do 2 f_equal. apply filter_ext. intro record.
    apply indexSellers_known.
  - now rewrite (Permutation_length P).
  - intros i s a Hs Ha. cbn [report Report.sales_count].
    now destruct (assignBonus_fields _ _ _ _ _ (Hnth i s a Hs Ha))
      as (_ & _ & _ & _ & _ & -> & _).
Qed.

Lemma analyzeSalesData_sales_counted_witness :
  exists reports,
    analyzeSalesData (dataOf sampleCustomers sampleProducts [sampleSeller "1"] tiedRecords)
                     referenceOptions = Ok reports
    /\ sumZ (map Report.sales_count reports) = 1%Z.
Proof.
  destruct (analyzeSalesData
              (dataOf sampleCustomers sampleProducts [sampleSeller "1"] tiedRecords)
              referenceOptions) as [reports|] eqn:H;
    [|exfalso; vm_compute in H; discriminate H].
  exists reports. split; [reflexivity|].
  rewrite (analyzeSalesData_sales_counted _ _ reports H). reflexivity.
Defined.

(** * Properties in binary64 arithmetic *)

(** ** The order of the numbers *)

Lemma lexCompare_Lt (a b : Z * Z * Z) : lexCompare a b = Lt <-> below a b.
Proof.
  destruct a as [[a1 a2] a3], b as [[b1 b2] b3]. cbn [lexCompare below].
  destruct (Z.compare_spec a1 b1) as [E1|E1|E1], (Z.compare_spec a2 b2) as [E2|E2|E2],
    (Z.compare_spec a3 b3) as [E3|E3|E3];
    split; intro K; try discriminate; try reflexivity; lia.
Qed.

Lemma lexCompare_Eq (a b : Z * Z * Z) : lexCompare a b = Eq <-> a = b.
Proof.
  destruct a as [[a1 a2] a3], b as [[b1 b2] b3]. cbn [lexCompare].
  destruct (Z.compare_spec a1 b1) as [E1|E1|E1], (Z.compare_spec a2 b2) as [E2|E2|E2],
    (Z.compare_spec a3 b3) as [E3|E3|E3];
    split; intro K; try discriminate; try reflexivity; try congruence;
    injection K; lia.
Qed.

(** The comparison of the format is the comparison of ranks. *)
Lemma SFcompare_rank (f g : spec_float) :
  SFcompare f g
  = match rank f, rank g with
    | Some a, Some b => Some (lexCompare a b)
    | _, _ => None
    end.
Proof.
  destruct f as [s| s| |s m e], g as [s'| s'| |s' m' e']; try reflexivity;
    try (destruct s; reflexivity); try (destruct s'; reflexivity);
    try (destruct s, s'; reflexivity).
  destruct s, s'; cbn [SFcompare rank lexCompare]; try reflexivity.
  rewrite Z.compare_opp. rewrite (Z.compare_antisym e e').
  destruct (e ?= e')%Z; cbn [CompOpp]; try reflexivity.
Qed.

Lemma ltb_key (x y : float) :
  (x <? y)%float = true <-> exists a b, key x = Some a /\ key y = Some b /\ below a b.
Proof.
  rewrite FloatAxioms.ltb_spec. unfold SFltb, key. rewrite SFcompare_rank.
  destruct (rank (Prim2SF x)) as [a|], (rank (Prim2SF y)) as [b|]; split;
    try discriminate; try (intros (a' & b' & H1 & H2 & _); discriminate).
  - intro H. exists a, b. split; [reflexivity|]. split; [reflexivity|].
    apply lexCompare_Lt. now destruct (lexCompare a b).
  - intros (a' & b' & [= <-] & [= <-] & H). apply lexCompare_Lt in H. now rewrite H.
Qed.

Lemma leb_key (x y : float) :
  (x <=? y)%float = true
  <-> exists a b, key x = Some a /\ key y = Some b /\ (below a b \/ a = b).
Proof.
  rewrite FloatAxioms.leb_spec. unfold SFleb, key. rewrite SFcompare_rank.
  destruct (rank (Prim2SF x)) as [a|], (rank (Prim2SF y)) as [b|]; split;
    try discriminate; try (intros (a' & b' & H1 & H2 & _); discriminate).
  - intro H. exists a, b. split; [reflexivity|]. split; [reflexivity|].
    destruct (lexCompare a b) eqn:C; try discriminate.
    + right. now apply lexCompare_Eq.
    + left. now apply lexCompare_Lt.
  - intros (a' & b' & [= <-] & [= <-] & [H|H]).
    + apply lexCompare_Lt in H. now rewrite H.
    + apply lexCompare_Eq in H. now rewrite H.
Qed.

Lemma eqb_key (x y : float) :
  (x =? y)%float = true <-> exists a, key x = Some a /\ key y = Some a.
Proof.
  rewrite FloatAxioms.eqb_spec. unfold SFeqb, key. rewrite SFcompare_rank.
  destruct (rank (Prim2SF x)) as [a|], (rank (Prim2SF y)) as [b|]; split;
    try discriminate; try (intros (a' & H1 & H2); discriminate).
  - intro H. exists a. split; [reflexivity|].
    destruct (lexCompare a b) eqn:C; try discriminate.
    apply lexCompare_Eq in C. now subst.
  - intros (c & E1 & E2). injection E1 as E1. injection E2 as E2. subst.
    now rewrite (proj2 (lexCompare_Eq c c) eq_refl).
Qed.

Lemma below_trans (a b c : Z * Z * Z) : below a b -> below b c -> below a c.
Proof.
  destruct a as [[a1 a2] a3], b as [[b1 b2] b3], c as [[c1 c2] c3]. cbn [below]. lia.
Qed.

Lemma below_irrefl (a : Z * Z * Z) : ~ below a a.
Proof. destruct a as [[a1 a2] a3]. cbn [below]. lia. Qed.

Lemma below_total (a b : Z * Z * Z) : below a b \/ a = b \/ below b a.
Proof.
  destruct a as [[a1 a2] a3], b as [[b1 b2] b3]. cbn [below].
  destruct (Z.lt_total a1 b1) as [|[|]], (Z.lt_total a2 b2) as [|[|]],
    (Z.lt_total a3 b3) as [|[|]]; subst; auto; try (left; lia); try (right; right; lia).
Qed.

Lemma ltb_trans (x y z : float) :
  (x <? y)%float = true -> (y <? z)%float = true -> (x <? z)%float = true.
Proof.
  rewrite !ltb_key. intros (a & b & Ha & Hb & H1) (b' & c & Hb' & Hc & H2).
  rewrite Hb in Hb'. injection Hb' as <-.
  exists a, c. split; [exact Ha|]. split; [exact Hc|]. eapply below_trans; eassumption.
Qed.

Lemma leb_ltb_trans (x y z : float) :
  (x <=? y)%float = true -> (y <? z)%float = true -> (x <? z)%float = true.
Proof.
  rewrite leb_key, !ltb_key. intros (a & b & Ha & Hb & H1) (b' & c & Hb' & Hc & H2).
  rewrite Hb in Hb'. injection Hb' as <-.
  exists a, c. split; [exact Ha|]. split; [exact Hc|].
  destruct H1 as [H1| ->]; [eapply below_trans; eassumption|exact H2].
Qed.

Lemma ltb_leb_trans (x y z : float) :
  (x <? y)%float = true -> (y <=? z)%float = true -> (x <? z)%float = true.
Proof.
  rewrite leb_key, !ltb_key. intros (a & b & Ha & Hb & H1) (b' & c & Hb' & Hc & H2).
  rewrite Hb in Hb'. injection Hb' as <-.
  exists a, c. split; [exact Ha|]. split; [exact Hc|].
  destruct H2 as [H2| <-]; [eapply below_trans; eassumption|exact H1].
Qed.

Lemma ltb_leb (x y : float) : (x <? y)%float = true -> (x <=? y)%float = true.
Proof.
  rewrite leb_key, ltb_key. intros (a & b & Ha & Hb & H). exists a, b. auto.
Qed.

Lemma ltb_irrefl (x : float) : (x <? x)%float = false.
Proof.
  destruct (x <? x)%float eqn:E; [|reflexivity].
  apply ltb_key in E. destruct E as (a & b & Ha & Hb & H).
  rewrite Ha in Hb. injection Hb as <-. now apply below_irrefl in H.
Qed.

(** Of two numbers, neither of them NaN, one is below the other or they
    are equal. *)
Lemma ltb_total (x y : float) :
  (x =? x)%float = true -> (y =? y)%float = true ->
  (x <? y)%float = false -> (y <=? x)%float = true.
Proof.
  intros Hx Hy H. apply eqb_key in Hx. destruct Hx as (a & Ha & _).
  apply eqb_key in Hy. destruct Hy as (b & Hb & _).
  apply leb_key. exists b, a. split; [exact Hb|]. split; [exact Ha|].
  destruct (below_total a b) as [L|[E|G]]; [|now right|now left].
  exfalso. assert (T : (x <? y)%float = true) by (apply ltb_key; eauto).
  congruence.
Qed.

Lemma ltb_number (x y : float) :
  (x <? y)%float = true -> (x =? x)%float = true /\ (y =? y)%float = true.
Proof.
  intro H. apply ltb_key in H. destruct H as (a & b & Ha & Hb & _).
  split; apply eqb_key; eauto.
Qed.

Lemma leb_antisym (x y : float) :
  (x <=? y)%float = true -> (y <=? x)%float = true -> (x =? y)%float = true.
Proof.
  rewrite !leb_key, eqb_key. intros (a & b & Ha & Hb & H1) (b' & a' & Hb' & Ha' & H2).
  rewrite Hb in Hb'. injection Hb' as <-. rewrite Ha in Ha'. injection Ha' as <-.
  exists a. split; [exact Ha|].
  destruct H1 as [H1| ->]; [|exact Hb].
  destruct H2 as [H2| ->]; [|exact Hb].
  exfalso. exact (below_irrefl a (below_trans _ _ _ H1 H2)).
Qed.

Lemma rank_inj (f g : spec_float) (a : Z * Z * Z) :
  rank f = Some a -> rank g = Some a -> a <> (0, 0, 0)%Z -> f = g.
Proof.
  destruct f as [s| s| |s m e], g as [s'| s'| |s' m' e']; cbn [rank];
    try destruct s; try destruct s'; intros Hf Hg Ha;
    try discriminate; try reflexivity;
    injection Hf as Hf; subst a;
    try (exfalso; apply Ha; reflexivity);
    try discriminate;
    injection Hg; intros; try lia; f_equal; try lia; congruence.
Qed.

(** Positive numbers that compare equal are the same value. *)
Lemma eqb_positive (x y : float) :
  (x =? y)%float = true -> (0 <? x)%float = true -> x = y.
Proof.
  intros E P. apply eqb_key in E. destruct E as (a & Ha & Hb).
  apply ltb_key in P. destruct P as (z & a' & Hz & Ha' & Hlt).
  rewrite Ha in Ha'. injection Ha' as <-.
  vm_compute in Hz. injection Hz as <-.
  apply Prim2SF_inj. apply (rank_inj _ _ a Ha Hb).
  intros ->. now apply below_irrefl in Hlt.
Qed.

(** [x || 0] leaves a positive number as it is. *)
Lemma orZero_positive (x : float) : (0 <? x)%float = true -> Double.orZero x = x.
Proof.
  intro P. unfold Double.orZero, is_zero, is_nan.
  destruct (ltb_number _ _ P) as [_ N]. rewrite N. cbn [negb].
  destruct (x =? PrimFloat.zero)%float eqn:Z; [|reflexivity]. exfalso.
  apply eqb_key in Z. destruct Z as (a & Ha & Hz).
  apply ltb_key in P. destruct P as (z & a' & Hz' & Ha' & Hlt).
  rewrite Ha in Ha'. injection Ha' as <-.
  vm_compute in Hz, Hz'. rewrite Hz in Hz'. injection Hz' as <-.
  now apply below_irrefl in Hlt.
Qed.

(** ** [analyzeSequence] *)

Section Trend64.

Variable sequence : list float.
Variable tolerance : float.

Let relativeChangeAt (j : nat) : float :=
  (abs (nth j sequence nan - nth (j - 1) sequence nan)
   / abs (nth (j - 1) sequence nan))%float.

Lemma stableLoop_exceeds (i steps : nat) :
  Double.stableLoop sequence tolerance i steps = true <->
  forall j, (i <= j < i + steps)%nat -> (tolerance <? relativeChangeAt j)%float = false.
Proof.
  revert i. induction steps as [|steps IH]; intro i; cbn [Double.stableLoop].
  - split; [intros _ j Hj; lia | reflexivity].
  - fold (relativeChangeAt i).
    destruct (tolerance <? relativeChangeAt i)%float eqn:E.
    + split; [discriminate|]. intro H.
      rewrite <- E. symmetry. apply H. lia.
    + rewrite IH. split; intros H j Hj.
      * destruct (Nat.eq_dec j i) as [->|Hne]; [exact E|]. apply H. lia.
      * apply H. lia.
Qed.

(** C3, as amended.  A sequence shorter than two elements is reported
    stable, neither increasing nor decreasing.  For a longer one,
    [isIncreasing] tells whether the difference last - first, computed in
    binary64, is above 0 and [isDecreasing] whether it is below 0; and
    [isStable] holds exactly when no consecutive pair has a relative change
    |s[i] - s[i-1]| / |s[i-1]| that, computed in binary64 (difference and
    quotient each rounded to nearest), exceeds the tolerance.  This holds
    for every sequence, zeros included. *)
Theorem analyzeSequence_binary64_contract :
  ((length sequence < 2)%nat ->
   Double.analyzeSequence sequence tolerance
   = {| isStable := true; isIncreasing := false; isDecreasing := false |})
  /\
  ((2 <= length sequence)%nat ->
   let first := nth 0 sequence nan in
   let last := nth (length sequence - 1) sequence nan in
   isIncreasing (Double.analyzeSequence sequence tolerance) = (0 <? last - first)%float
   /\ isDecreasing (Double.analyzeSequence sequence tolerance) = (last - first <? 0)%float
   /\ (isStable (Double.analyzeSequence sequence tolerance) = true <->
       forall i, (1 <= i < length sequence)%nat ->
         (tolerance <? abs (nth i sequence nan - nth (i - 1) sequence nan)
                       / abs (nth (i - 1) sequence nan))%float = false)).
Proof.
  unfold Double.analyzeSequence. split.
  - intro Hshort. apply Nat.ltb_lt in Hshort. now rewrite Hshort.
  - intros Hlong.
    destruct (Nat.ltb_spec (length sequence) 2) as [Hlt|_]; [lia|].
    cbn [isStable isIncreasing isDecreasing].
    split; [reflexivity|]. split; [reflexivity|].
    rewrite stableLoop_exceeds. unfold relativeChangeAt.
    split; intros H i Hi; apply H; lia.
Qed.

End Trend64.

(** C3, as stated, fails at the tolerance.  Read on the decimal figures,
    1.05 is within 5% of 1, and the program reports the pair unstable: the
    numbers nearest to 1.05 and 0.05 differ from them.  Read on the exact
    values of the numbers, 989.52 is more than 5% above 942.4, and the
    program reports the pair stable: the rounded quotient is the
    tolerance. *)
Lemma analyzeSequence_exact_quotient_counterexample :
  isStable (Double.analyzeSequence [1; 1.05]%float 0.05%float) = false
  /\ (Qabs ((105 # 100) - 1) / Qabs 1 <= 5 # 100)%Q
  /\ isStable (Double.analyzeSequence [942.4; 989.52]%float 0.05%float) = true
  /\ ~ (Qabs (Double.exact 989.52 - Double.exact 942.4) / Qabs (Double.exact 942.4)
        <= Double.exact 0.05)%Q.
Proof.
  split; [vm_compute; reflexivity|].
  split; [vm_compute; discriminate|].
  split; [vm_compute; reflexivity|].
  vm_compute. intro H. now apply H.
Qed.

(** ** [groupBy] through the prototype *)

(** Without a key that names an inherited member the grouping is that of
    the own properties alone; with one, line 11 throws at the first such
    key. *)
Lemma groupBy64_from {A} (keyFn : A -> string) (array : list A) :
  forall acc : JsObject.t (list A),
  (forall k, inherited k = true -> JsObject.get acc k = None) ->
  foldM
    (fun acc item =>
       let key := keyFn item in
       match JsObject.get acc key with
       | Some _ => Ok (JsObject.modify acc key (fun bucket => bucket ++ [item]))
       | None =>
           if inherited key then Throw TypeError
           else Ok (JsObject.modify (JsObject.set acc key []) key
                                    (fun bucket => bucket ++ [item]))
       end)
    array acc
  = if existsb inherited (map keyFn array) then Throw TypeError
    else Ok (fold_left
               (fun acc item =>
                  let key := keyFn item in
                  let acc := match JsObject.get acc key with
                             | None => JsObject.set acc key []
                             | Some _ => acc
                             end in
                  JsObject.modify acc key (fun bucket => bucket ++ [item]))
               array acc).
Proof.
  induction array as [|x array IH]; intros acc Hacc; cbn [foldM fold_left map existsb];
    [reflexivity|]. cbv zeta.
  destruct (inherited (keyFn x)) eqn:I.
  - rewrite (Hacc _ I). reflexivity.
  - cbn [orb].
    assert (Hnext : forall (o : JsObject.t (list A)) k,
              (forall k', inherited k' = true -> JsObject.get o k' = None) ->
              inherited k = true ->
              JsObject.get (JsObject.modify o (keyFn x) (fun bucket => bucket ++ [x])) k
              = None).
    { intros o k Ho Hk. rewrite get_modify, (Ho k Hk). now destruct (String.eqb _ _). }
    destruct (JsObject.get acc (keyFn x)) as [bucket|] eqn:G; cbn [bind]; apply IH.
    + intros k Hk. now apply Hnext.
    + intros k Hk. apply Hnext; [|exact Hk]. intros k' Hk'.
      rewrite get_set, (Hacc k' Hk').
      destruct (String.eqb_spec (keyFn x) k') as [E|_]; [congruence|reflexivity].
Qed.

Lemma groupBy64_plain {A} (array : list A) (keyFn : A -> string) :
  Double.groupBy array keyFn
  = if existsb inherited (map keyFn array) then Throw TypeError
    else Ok (groupBy array keyFn).
Proof. apply groupBy64_from. reflexivity. Qed.

Lemma groupBy64_returns {A} (array : list A) (keyFn : A -> string)
    (grouped : JsObject.t (list A)) :
  Double.groupBy array keyFn = Ok grouped -> grouped = groupBy array keyFn.
Proof.
  rewrite groupBy64_plain. destruct (existsb inherited _); [discriminate|]. now intros [= <-].
Qed.

(** ** [baseMetrics]: when it returns *)

Section Returning64.

Variable calculateProfit : Double.ProfitFn.
Variable products : list Double.Product.t.

Lemma accumulateItem64_returns_iff (sellerId customerId : string) (acc : Double.Metrics.t)
    (item : Double.Item.t) :
  (exists acc',
     Double.accumulateItem calculateProfit products sellerId customerId acc item = Ok acc')
  <-> (exists q, calculateProfit item (Double.findProduct products item) = Ok q)
      /\ inherited sellerId = false /\ inherited customerId = false.
Proof.
  unfold Double.accumulateItem.
  destruct (calculateProfit item (Double.findProduct products item)) as [q|e]; cbn [bind].
  - destruct (inherited sellerId), (inherited customerId); split;
      try (intros [x H]; discriminate); try (intros (_ & H1 & H2); discriminate).
    + intros _. split; [now exists q|]. split; reflexivity.
    + intros _. eexists. reflexivity.
  - split; [intros [x H]; discriminate|intros ([x H] & _); discriminate].
Qed.

Lemma accumulateItem64_throws (sellerId customerId : string) (acc : Double.Metrics.t)
    (item : Double.Item.t) (e : exn) :
  Double.accumulateItem calculateProfit products sellerId customerId acc item = Throw e ->
  calculateProfit item (Double.findProduct products item) = Throw e
  \/ (e = TypeError /\ (inherited sellerId = true \/ inherited customerId = true)).
Proof.
  unfold Double.accumulateItem.
  destruct (calculateProfit item (Double.findProduct products item)) as [q|e']; cbn [bind].
  - destruct (inherited sellerId); [intros [= <-]; right; auto|].
    destruct (inherited customerId); [intros [= <-]; right; auto|discriminate].
  - intros [= ->]. now left.
Qed.

End Returning64.

(** [baseMetrics] returns exactly when, for every item of every record,
    the profit function returns and neither the seller id nor the customer
    id of the record names a member of [Object.prototype].  An error it
    throws is the error the profit function threw on an item, or the
    TypeError of a record whose seller or customer id names such a
    member. *)
Theorem baseMetrics_binary64_returns_iff (records : list Double.PurchaseRecord.t)
    (calculateProfit : Double.ProfitFn) (products : list Double.Product.t) :
  ((exists m, Double.baseMetrics records calculateProfit products = Ok m)
   <-> forall record item,
         In record records -> In item (Double.PurchaseRecord.items record) ->
         (exists q, calculateProfit item (Double.findProduct products item) = Ok q)
         /\ inherited (Double.PurchaseRecord.seller_id record) = false
         /\ inherited (Double.PurchaseRecord.customer_id record) = false)
  /\ (forall e,
        Double.baseMetrics records calculateProfit products = Throw e ->
        exists record item,
          In record records /\ In item (Double.PurchaseRecord.items record)
          /\ (calculateProfit item (Double.findProduct products item) = Throw e
              \/ (e = TypeError
                  /\ (inherited (Double.PurchaseRecord.seller_id record) = true
                      \/ inherited (Double.PurchaseRecord.customer_id record) = true)))).
Proof.
  unfold Double.baseMetrics. split.
  - rewrite (foldM_returns_iff (Double.accumulateRecord calculateProfit products)
               (fun record => forall item, In item (Double.PurchaseRecord.items record) ->
                  (exists q, calculateProfit item (Double.findProduct products item) = Ok q)
                  /\ inherited (Double.PurchaseRecord.seller_id record) = false
                  /\ inherited (Double.PurchaseRecord.customer_id record) = false)).
    + split; intros H record; [intros item Hr; now apply H|intros Hr item; now apply H].
    + intros acc record. unfold Double.accumulateRecord.
      apply (foldM_returns_iff _ _ (fun s x =>
               accumulateItem64_returns_iff calculateProfit products _ _ s x)).
  - intros e H. apply foldM_throw_origin in H.
    destruct H as (acc & record & Hrecord & H). unfold Double.accumulateRecord in H.
    apply foldM_throw_origin in H. destruct H as (acc0 & item & Hitem & H).
    exists record, item. split; [exact Hrecord|]. split; [exact Hitem|].
    now apply accumulateItem64_throws in H.
Qed.

(** A record with an item and a seller named [constructor] makes the
    accumulator throw although the profit function returned. *)
Lemma baseMetrics_binary64_returns_iff_witness :
  Double.baseMetrics
    [ {| Double.PurchaseRecord.seller_id := "constructor";
         Double.PurchaseRecord.customer_id := "customer_1";
         Double.PurchaseRecord.date := "2024-01-10";
         Double.PurchaseRecord.total_amount := 1;
         Double.PurchaseRecord.items := [ unitAt "SKU_001" 1 ] |} ]
    Double.simpleProfit products64 = Throw TypeError
  /\ exists m, Double.baseMetrics roundingRecords Double.simpleProfit products64 = Ok m.
Proof.
  split; [vm_compute; reflexivity|].
  apply (proj1 (baseMetrics_binary64_returns_iff roundingRecords Double.simpleProfit
                  products64)).
  intros record item Hr Hi.
  cbn [roundingRecords In] in Hr.
  destruct Hr as [<-|[<-|[]]]; cbn [Double.PurchaseRecord.items In] in Hi;
    destruct Hi as [<-|[<-|[]]];
    (split; [eexists; vm_compute; reflexivity|split; reflexivity]).
Defined.

(** ** [baseMetrics]: the revenue of the sellers *)

Section Buckets64.

Context {V X : Type}.
Variable held : V -> list X.

Lemma modify_Forall (P : V -> Prop) (o : JsObject.t V) (k : string) (f : V -> V) :
  (forall v, P v -> P (f v)) ->
  Forall (fun e => P (snd e)) o ->
  Forall (fun e => P (snd e)) (JsObject.modify o k f).
Proof.
  intro Hf. induction 1 as [|[k' v] r Hv Hr IH]; cbn [JsObject.modify]; [constructor|].
  destruct (String.eqb k' k); constructor; auto. cbn [snd] in *. now apply Hf.
Qed.

Lemma set_Forall (P : V -> Prop) (o : JsObject.t V) (k : string) (v : V) :
  P v -> Forall (fun e => P (snd e)) o -> Forall (fun e => P (snd e)) (JsObject.set o k v).
Proof.
  intro Hv. induction 1 as [|[k' v'] r Hv' Hr IH]; cbn [JsObject.set].
  - constructor; [exact Hv|constructor].
  - destruct (String.eqb k' k); constructor; auto.
Qed.

(** A write that appends [x] to what the bucket under [k] holds appends
    it to what all the buckets hold, up to order. *)
Lemma modify_held (o : JsObject.t V) (k : string) (f : V -> V) (x : X) (b : V) :
  (forall v, held (f v) = held v ++ [x]) ->
  JsObject.get o k = Some b ->
  Permutation (flat_map (fun e => held (snd e)) (JsObject.modify o k f))
              (flat_map (fun e => held (snd e)) o ++ [x]).
Proof.
  intro Hf. induction o as [|[k' v] r IH]; cbn [JsObject.get JsObject.modify];
    [discriminate|].
  destruct (String.eqb k' k); cbn [flat_map snd].
  - intros _. rewrite Hf, <- !app_assoc. apply Permutation_app_head.
    apply Permutation_app_comm.
  - intro G. rewrite (IH G), app_assoc. reflexivity.
Qed.

Lemma set_held (o : JsObject.t V) (k : string) (v : V) :
  held v = [] ->
  JsObject.get o k = None ->
  flat_map (fun e => held (snd e)) (JsObject.set o k v)
  = flat_map (fun e => held (snd e)) o.
Proof.
  intros Hv G. rewrite (set_absent _ _ _ G), flat_map_app. cbn [flat_map snd].
  now rewrite Hv, !app_nil_r.
Qed.

End Buckets64.

Section Settled.

Variable calculateProfit : Double.ProfitFn.
Variable products : list Double.Product.t.

Lemma settled_next (bucket : Double.SellerAggregate.t) (item : Double.Item.t)
    (profit : float) (customerId : string) :
  settled bucket ->
  settled
    {| Double.SellerAggregate.revenue :=
         (Double.SellerAggregate.revenue bucket + Double.lineRevenue item)%float;
       Double.SellerAggregate.profit := (Double.SellerAggregate.profit bucket + profit)%float;
       Double.SellerAggregate.items := Double.SellerAggregate.items bucket ++ [item];
       Double.SellerAggregate.customers :=
         setAdd (Double.SellerAggregate.customers bucket) customerId |}.
Proof.
  unfold settled. cbn [Double.SellerAggregate.revenue Double.SellerAggregate.items].
  intros ->. rewrite map_app, fold_left_app. reflexivity.
Qed.

Lemma accumulateItem64_sellers (sellerId customerId : string)
    (acc acc' : Double.Metrics.t) (item : Double.Item.t) :
  Double.accumulateItem calculateProfit products sellerId customerId acc item = Ok acc' ->
  JsObject.get (Double.Metrics.sellers acc) sellerId <> None ->
  Forall (fun e => settled (snd e)) (Double.Metrics.sellers acc) ->
  JsObject.get (Double.Metrics.sellers acc') sellerId <> None
  /\ Forall (fun e => settled (snd e)) (Double.Metrics.sellers acc')
  /\ Permutation (heldItems (Double.Metrics.sellers acc'))
                 (heldItems (Double.Metrics.sellers acc) ++ [item]).
Proof.
  unfold Double.accumulateItem.
  destruct (calculateProfit item (Double.findProduct products item)) as [profit|];
    [|discriminate]. cbn [bind].
  destruct (inherited sellerId); [discriminate|].
  destruct (inherited customerId); [discriminate|].
  intros [= <-] Hpresent Hall. cbn [Double.Metrics.sellers].
  destruct (JsObject.get (Double.Metrics.sellers acc) sellerId) as [bucket|] eqn:G;
    [|contradiction].
  split; [rewrite get_modify_same, G; discriminate|].
  split.
  - apply modify_Forall; [|exact Hall]. intros v Hv. now apply settled_next.
  - unfold heldItems. apply (modify_held Double.SellerAggregate.items) with (b := bucket);
      [reflexivity|exact G].
Qed.

Lemma accumulateItems64_sellers (sellerId customerId : string) (items : list Double.Item.t) :
  forall acc acc',
  foldM (Double.accumulateItem calculateProfit products sellerId customerId) items acc
  = Ok acc' ->
  JsObject.get (Double.Metrics.sellers acc) sellerId <> None ->
  Forall (fun e => settled (snd e)) (Double.Metrics.sellers acc) ->
  Forall (fun e => settled (snd e)) (Double.Metrics.sellers acc')
  /\ Permutation (heldItems (Double.Metrics.sellers acc'))
                 (heldItems (Double.Metrics.sellers acc) ++ items).
Proof.
  induction items as [|item items IH]; intros acc acc'; cbn [foldM].
  - intros [= <-] _ Hall. split; [exact Hall|]. now rewrite app_nil_r.
  - destruct (Double.accumulateItem _ _ _ _ acc item) as [mid|] eqn:E; [|discriminate].
    cbn [bind]. intros F Hpresent Hall.
    destruct (accumulateItem64_sellers _ _ _ _ _ E Hpresent Hall) as (P1 & A1 & Perm1).
    destruct (IH _ _ F P1 A1) as [A2 Perm2]. split; [exact A2|].
    rewrite Perm2, Perm1, <- app_assoc. reflexivity.
Qed.

(** Under a seller id that names an inherited member the loop over the
    items returns only when there is no item. *)
Lemma accumulateItems64_inherited (sellerId customerId : string)
    (items : list Double.Item.t) (acc acc' : Double.Metrics.t) :
  inherited sellerId = true ->
  foldM (Double.accumulateItem calculateProfit products sellerId customerId) items acc
  = Ok acc' ->
  items = [] /\ acc' = acc.
Proof.
  intro I. destruct items as [|item items]; cbn [foldM].
  - intros [= <-]. split; reflexivity.
  - unfold Double.accumulateItem at 1.
    destruct (calculateProfit item (Double.findProduct products item)); cbn [bind];
      [rewrite I|]; discriminate.
Qed.

Lemma accumulateRecord64_sellers (acc acc' : Double.Metrics.t)
    (record : Double.PurchaseRecord.t) :
  Double.accumulateRecord calculateProfit products acc record = Ok acc' ->
  Forall (fun e => settled (snd e)) (Double.Metrics.sellers acc) ->
  Forall (fun e => settled (snd e)) (Double.Metrics.sellers acc')
  /\ Permutation (heldItems (Double.Metrics.sellers acc'))
                 (heldItems (Double.Metrics.sellers acc)
                  ++ Double.PurchaseRecord.items record).
Proof.
  unfold Double.accumulateRecord. cbv zeta. intros F Hall.
  destruct (JsObject.get (Double.Metrics.sellers acc) (Double.PurchaseRecord.seller_id record))
    as [bucket|] eqn:G.
  - apply (accumulateItems64_sellers _ _ _ _ _ F); cbn [Double.Metrics.sellers];
      [rewrite G; discriminate|exact Hall].
  - destruct (inherited (Double.PurchaseRecord.seller_id record)) eqn:I.
    + destruct (accumulateItems64_inherited _ _ _ _ _ I F) as [-> ->].
      cbn [Double.Metrics.sellers]. split; [exact Hall|]. now rewrite app_nil_r.
    + destruct (accumulateItems64_sellers _ _ _ _ _ F) as [A Perm];
        cbn [Double.Metrics.sellers].
      * rewrite get_set_same. discriminate.
      * apply set_Forall; [reflexivity|exact Hall].
      * split; [exact A|]. cbn [Double.Metrics.sellers] in Perm. rewrite Perm.
        unfold heldItems.
        rewrite (set_held Double.SellerAggregate.items); [reflexivity|reflexivity|exact G].
Qed.

Lemma accumulateRecords64_sellers (records : list Double.PurchaseRecord.t) :
  forall acc acc',
  foldM (Double.accumulateRecord calculateProfit products) records acc = Ok acc' ->
  Forall (fun e => settled (snd e)) (Double.Metrics.sellers acc) ->
  Forall (fun e => settled (snd e)) (Double.Metrics.sellers acc')
  /\ Permutation (heldItems (Double.Metrics.sellers acc'))
                 (heldItems (Double.Metrics.sellers acc)
                  ++ flat_map Double.PurchaseRecord.items records).
Proof.
  induction records as [|record records IH]; intros acc acc'; cbn [foldM flat_map].
  - intros [= <-] Hall. split; [exact Hall|]. now rewrite app_nil_r.
  - destruct (Double.accumulateRecord _ _ acc record) as [mid|] eqn:E; [|discriminate].
    cbn [bind]. intros F Hall.
    destruct (accumulateRecord64_sellers _ _ _ E Hall) as [A1 Perm1].
    destruct (IH _ _ F A1) as [A2 Perm2]. split; [exact A2|].
    rewrite Perm2, Perm1, <- app_assoc. reflexivity.
Qed.

End Settled.

(** C5, as amended.  With a profit function that returns on every
    argument, and no record with items whose seller or customer id names a
    member of [Object.prototype], [baseMetrics] returns; the revenue of
    every seller bucket is the sum of
    sale_price * quantity * (1 - discount / 100) over the items of the
    bucket, added one after the other in binary64 from 0 in the order the
    items came; and every item of every record is an item of exactly one
    seller bucket. *)
Theorem baseMetrics_seller_revenue_binary64
    (records : list Double.PurchaseRecord.t) (calculateProfit : Double.ProfitFn)
    (products : list Double.Product.t) :
  returnsAlways calculateProfit ->
  plainParties records ->
  exists m,
    Double.baseMetrics records calculateProfit products = Ok m
    /\ (forall e, In e (JsObject.entries (Double.Metrics.sellers m)) ->
          Double.SellerAggregate.revenue (snd e)
          = fold_left add
              (map (fun item =>
                      (Double.Item.sale_price item * Double.Item.quantity item
                       * (1 - Double.Item.discount item / 100))%float)
                   (Double.SellerAggregate.items (snd e)))
              0%float)
    /\ Permutation
         (flat_map (fun e => Double.SellerAggregate.items (snd e))
                   (JsObject.entries (Double.Metrics.sellers m)))
         (flat_map Double.PurchaseRecord.items records).
Proof.
  intros Htotal Hplain.
  destruct (proj2 (proj1 (baseMetrics_binary64_returns_iff records calculateProfit products)))
    as [m Hm].
  { intros record item Hr Hi. split; [apply Htotal|].
    apply (Hplain record Hr). intro E. rewrite E in Hi. destruct Hi. }
  exists m. split; [exact Hm|].
  unfold Double.baseMetrics in Hm.
  destruct (accumulateRecords64_sellers calculateProfit products records _ _ Hm)
    as [Hall Perm]; [constructor|].
  cbn [Double.Metrics.sellers heldItems flat_map app] in Perm.
  pose proof (entries_perm (Double.Metrics.sellers m)) as E.
  split.
  - intros e He. apply (Permutation_in _ E) in He.
    rewrite Forall_forall in Hall. exact (Hall e He).
  - rewrite (Permutation_flat_map _ E). exact Perm.
Qed.

Lemma lenientProfit64_returnsAlways : returnsAlways lenientProfit64.
Proof. intros item [p|]; eexists; reflexivity. Qed.

Lemma roundingRecords_plainParties : plainParties roundingRecords.
Proof.
  intros record Hr _. cbn [roundingRecords In] in Hr.
  destruct Hr as [<-|[<-|[]]]; split; reflexivity.
Qed.

Lemma baseMetrics_seller_revenue_binary64_witness :
  returnsAlways lenientProfit64
  /\ plainParties roundingRecords
  /\ exists m,
       Double.baseMetrics roundingRecords lenientProfit64 products64 = Ok m
       /\ map (fun e => Double.SellerAggregate.revenue (snd e))
              (JsObject.entries (Double.Metrics.sellers m))
          = [ (0.1 + 0.3)%float; (1.1 + 3.3)%float ].
Proof.
  split; [exact lenientProfit64_returnsAlways|].
  split; [exact roundingRecords_plainParties|].
  destruct (baseMetrics_seller_revenue_binary64 roundingRecords lenientProfit64 products64
              lenientProfit64_returnsAlways roundingRecords_plainParties)
    as (m & Hm & _ & _).
  exists m. split; [exact Hm|].
  vm_compute in Hm. injection Hm as <-. vm_compute. reflexivity.
Defined.

(** C5, as stated, fails: the revenues of the two sellers of
    [roundingRecords], 0.1 + 0.3 and 1.1 + 3.3, add up to
    4.800000000000001 and the four line revenues to 4.8; the two totals
    differ as well when the stored numbers are added without rounding.
    And with a seller named [constructor] the accumulator, whose profit
    function returns, produces no bucket at all: line 229 throws. *)
Lemma baseMetrics_revenue_rounding_counterexample :
  returnsAlways lenientProfit64
  /\ Double.baseMetrics
       [ saleTo "constructor" "customer_1" "2024-01-10" 1 [ unitAt "SKU_001" 1 ] ]
       lenientProfit64 products64
     = Throw TypeError
  /\ exists m,
       Double.baseMetrics roundingRecords lenientProfit64 products64 = Ok m
       /\ (let sellerRevenues :=
             map (fun e => Double.SellerAggregate.revenue (snd e))
                 (JsObject.entries (Double.Metrics.sellers m)) in
           let lineRevenues :=
             map (fun item =>
                    (Double.Item.sale_price item * Double.Item.quantity item
                     * (1 - Double.Item.discount item / 100))%float)
                 (flat_map Double.PurchaseRecord.items roundingRecords) in
           (fold_left add sellerRevenues 0 =? fold_left add lineRevenues 0)%float = false
           /\ ~ (sumQ (map Double.exact sellerRevenues)
                 == sumQ (map Double.exact lineRevenues))%Q).
Proof.
  split; [exact lenientProfit64_returnsAlways|].
  split; [vm_compute; reflexivity|].
  eexists. split; [vm_compute; reflexivity|].
  split; [vm_compute; reflexivity|].
  vm_compute. discriminate.
Qed.

(** ** The first greatest element *)

Section FirstGreatest.

Context {E : Type}.
Variable value : E -> float.

Let step (max : option E) (e : E) : option E :=
  if (Double.fieldOrZero value max <? value e)%float then Some e else max.

Let reduce (l : list E) (acc : option E) : option E := fold_left step l acc.

Lemma fieldOrZero_positive (a : E) :
  (0 <? value a)%float = true -> Double.fieldOrZero value (Some a) = value a.
Proof. intro H. cbn [Double.fieldOrZero]. now apply orZero_positive. Qed.

Lemma reduce64_spec (l : list E) :
  match reduce l None with
  | None => forall e, In e l -> (0 <? value e)%float = false
  | Some w => (0 <? value w)%float = true /\ firstGreatest value l w
  end.
Proof.
  unfold reduce.
  induction l as [|e l IH] using rev_ind; [intros e []|].
  rewrite fold_left_app. cbn [fold_left].
  destruct (fold_left step l None) as [w|]; unfold step.
  - destruct IH as (Hpos & l1 & l2 & -> & Hbefore & Hafter).
    rewrite (fieldOrZero_positive w Hpos).
    destruct (value w <? value e)%float eqn:C.
    + split; [exact (ltb_trans _ _ _ Hpos C)|].
      exists (l1 ++ w :: l2), []. split; [reflexivity|].
      split; [|intros e' []]. intros e' He'.
      destruct (value e <=? value e')%float eqn:L; [exfalso|reflexivity].
      pose proof (ltb_leb_trans _ _ _ C L) as T.
      apply in_app_or in He'. destruct He' as [He'|[<-|He']].
      * specialize (Hbefore e' He'). apply ltb_leb in T. congruence.
      * rewrite ltb_irrefl in T. discriminate.
      * specialize (Hafter e' He'). congruence.
    + split; [exact Hpos|]. exists l1, (l2 ++ [e]).
      split; [now rewrite <- app_assoc|]. split; [exact Hbefore|].
      intros e' He'. apply in_app_or in He'.
      destruct He' as [He'|[<-|[]]]; [now apply Hafter|exact C].
  - cbn [Double.fieldOrZero].
    destruct (0 <? value e)%float eqn:C.
    + split; [exact C|]. exists l, []. split; [reflexivity|].
      split; [|intros e' []]. intros e' He'.
      destruct (value e <=? value e')%float eqn:L; [exfalso|reflexivity].
      pose proof (ltb_leb_trans _ _ _ C L) as T.
      specialize (IH e' He'). congruence.
    + intros e' He'. apply in_app_or in He'.
      destruct He' as [He'|[<-|[]]]; [now apply IH|exact C].
Qed.

Lemma reduce64_stays (l : list E) (w : E) :
  (0 <? value w)%float = true ->
  (forall e, In e l -> (value w <? value e)%float = false) -> reduce l (Some w) = Some w.
Proof.
  unfold reduce. intro Hpos.
  induction l as [|e l IH]; intro H; cbn [fold_left]; [reflexivity|].
  unfold step at 2. rewrite (fieldOrZero_positive w Hpos).
  rewrite (H e (or_introl eq_refl)). apply IH. intros e' He'. apply H. now right.
Qed.

Lemma reduce64_intro (l : list E) (w : E) :
  (0 <? value w)%float = true -> firstGreatest value l w -> reduce l None = Some w.
Proof.
  intros Hpos (l1 & l2 & -> & Hbefore & Hafter).
  pose proof (reduce64_spec l1) as S1.
  unfold reduce in *. rewrite fold_left_app. cbn [fold_left].
  assert (Hw : step (fold_left step l1 None) w = Some w).
  { unfold step.
    destruct (fold_left _ l1 None) as [a|].
    - destruct S1 as (Ha & a1 & a2 & -> & _ & _).
      rewrite (fieldOrZero_positive a Ha).
      destruct (value a <? value w)%float eqn:C; [reflexivity|exfalso].
      assert (L : (value w <=? value a)%float = true).
      { apply ltb_total; [apply (ltb_number _ _ Ha)|apply (ltb_number _ _ Hpos)|exact C]. }
      rewrite (Hbefore a (in_elt _ _ _)) in L. discriminate.
    - cbn [Double.fieldOrZero]. now rewrite Hpos. }
  rewrite Hw. now apply reduce64_stays.
Qed.

Lemma reduce64_In (l : list E) (w : E) : reduce l None = Some w -> In w l.
Proof.
  intro H. pose proof (reduce64_spec l) as S. rewrite H in S.
  destruct S as (_ & l1 & l2 & -> & _). apply in_elt.
Qed.

Lemma reduce64_greatest (l : list E) (w : E) :
  reduce l None = Some w -> forall e, In e l -> (value w <? value e)%float = false.
Proof.
  intro H. pose proof (reduce64_spec l) as S. rewrite H in S.
  destruct S as (_ & l1 & l2 & -> & Hbefore & Hafter).
  intros e He. apply in_app_or in He.
  destruct He as [He|[<-|He]]; [|apply ltb_irrefl|now apply Hafter].
  specialize (Hbefore e He).
  destruct (value w <? value e)%float eqn:C; [|reflexivity].
  apply ltb_leb in C. congruence.
Qed.

(** Filtering keeps a winner that passes the filter. *)
Lemma reduce64_filter (p : E -> bool) (l : list E) (w : E) :
  reduce l None = Some w -> p w = true -> reduce (filter p l) None = Some w.
Proof.
  intros H Hp. pose proof (reduce64_spec l) as S. rewrite H in S.
  destruct S as (Hpos & l1 & l2 & -> & Hbefore & Hafter).
  apply reduce64_intro; [exact Hpos|].
  exists (filter p l1), (filter p l2).
  rewrite filter_app. cbn [filter]. rewrite Hp. split; [reflexivity|].
  split; intros e He; apply filter_In in He; destruct He as [He _]; auto.
Qed.

Lemma fieldOrZero_nonneg (acc : option E) :
  (forall a, acc = Some a -> (0 <? value a)%float = true) ->
  (0 <=? Double.fieldOrZero value acc)%float = true.
Proof.
  destruct acc as [a|]; intro H; [|reflexivity].
  rewrite (fieldOrZero_positive a (H a eq_refl)). apply ltb_leb, H. reflexivity.
Qed.

(** Reducing a segment from an accumulator, or from [null] and comparing
    the segment's winner with the accumulator, is the same. *)
Lemma reduce64_segment (l : list E) (acc : option E) :
  (forall a, acc = Some a -> (0 <? value a)%float = true) ->
  reduce l acc
  = match reduce l None with
    | Some r => if (Double.fieldOrZero value acc <? value r)%float then Some r else acc
    | None => acc
    end.
Proof.
  intro Hacc. unfold reduce.
  pose proof (fieldOrZero_nonneg acc Hacc) as Hz.
  induction l as [|e l IH] using rev_ind; [reflexivity|].
  rewrite !fold_left_app. cbn [fold_left]. rewrite IH. clear IH.
  pose proof (reduce64_spec l) as S. unfold reduce in S.
  destruct (fold_left step l None) as [r|].
  - destruct S as [Hr _].
    destruct (Double.fieldOrZero value acc <? value r)%float eqn:C1.
    + unfold step. rewrite (fieldOrZero_positive r Hr).
      destruct (value r <? value e)%float eqn:C2.
      * now rewrite (ltb_trans _ _ _ C1 C2).
      * now rewrite C1.
    + unfold step at 1 2. rewrite (fieldOrZero_positive r Hr).
      destruct (value r <? value e)%float eqn:C2; [reflexivity|].
      rewrite C1.
      destruct (Double.fieldOrZero value acc <? value e)%float eqn:C3; [exfalso|reflexivity].
      assert (L : (value e <=? value r)%float = true).
      { apply ltb_total; [apply (ltb_number _ _ Hr)|apply (ltb_number _ _ C3)|exact C2]. }
      rewrite (ltb_leb_trans _ _ _ C3 L) in C1. discriminate.
  - unfold step at 1 2. cbn [Double.fieldOrZero].
    destruct (0 <? value e)%float eqn:C2; [reflexivity|].
    destruct (Double.fieldOrZero value acc <? value e)%float eqn:C3; [exfalso|reflexivity].
    rewrite (leb_ltb_trans _ _ _ Hz C3) in C2. discriminate.
Qed.

Lemma reduce64_positive (l : list E) (acc r : option E) :
  (forall a, acc = Some a -> (0 <? value a)%float = true) ->
  reduce l acc = r -> forall a, r = Some a -> (0 <? value a)%float = true.
Proof.
  intros Hacc <- a Ha. rewrite reduce64_segment in Ha by exact Hacc.
  pose proof (reduce64_spec l) as S.
  destruct (reduce l None) as [w|]; [|now apply Hacc].
  destruct (_ <? _)%float; [|now apply Hacc].
  injection Ha as <-. tauto.
Qed.

End FirstGreatest.

(** ** [bonusLargestSingleSale] *)

(** The nested reduces of lines 143-147 are one reduce over the buckets
    laid end to end. *)
Lemma largestSaleOf64_flat (recordsBySeller : JsObject.t (list Double.PurchaseRecord.t)) :
  Double.largestSaleOf recordsBySeller
  = Double.largestRecordOf (flat_map snd (JsObject.entries recordsBySeller)).
Proof.
  unfold Double.largestSaleOf, Double.largestRecordOf.
  generalize (JsObject.entries recordsBySeller). intro l.
  assert (G : forall acc : option Double.PurchaseRecord.t,
             (forall a, acc = Some a ->
                        (0 <? Double.PurchaseRecord.total_amount a)%float = true) ->
             fold_left
               (fun max e =>
                  match Double.largestRecordOf (snd e) with
                  | Some r =>
                      if (Double.fieldOrZero Double.PurchaseRecord.total_amount max
                          <? Double.PurchaseRecord.total_amount r)%float
                      then Double.largestRecordOf (snd e) else max
                  | None => max
                  end) l acc
             = fold_left
                 (fun recordMax record =>
                    if (Double.fieldOrZero Double.PurchaseRecord.total_amount recordMax
                        <? Double.PurchaseRecord.total_amount record)%float
                    then Some record else recordMax)
                 (flat_map snd l) acc).
  { induction l as [|e l IH]; intros acc Hacc; cbn [fold_left flat_map]; [reflexivity|].
    rewrite fold_left_app.
    pose proof (reduce64_segment Double.PurchaseRecord.total_amount (snd e) acc Hacc) as Hseg.
    cbv beta zeta in Hseg. rewrite Hseg.
    pose proof (reduce64_positive Double.PurchaseRecord.total_amount (snd e) acc _ Hacc Hseg)
      as Hp.
    cbv beta zeta in Hp.
    change (fold_left _ (snd e) None) with (Double.largestRecordOf (snd e)) in *.
    destruct (Double.largestRecordOf (snd e)) as [r|]; apply IH; exact Hp. }
  apply G. discriminate.
Qed.

(** With a positive record in the list, the reduce of lines 144-145 over
    the list finds a record, its first greatest. *)
Lemma largestRecordOf64_found (records : list Double.PurchaseRecord.t) :
  (exists r, In r records /\ (0 <? Double.PurchaseRecord.total_amount r)%float = true) ->
  exists d, Double.largestRecordOf records = Some d
            /\ (0 <? Double.PurchaseRecord.total_amount d)%float = true
            /\ firstGreatest Double.PurchaseRecord.total_amount records d.
Proof.
  intros (r & Hin & Hpos).
  pose proof (reduce64_spec Double.PurchaseRecord.total_amount records) as S.
  cbv beta zeta in S. change (fold_left _ records None) with (Double.largestRecordOf records) in S.
  destruct (Double.largestRecordOf records) as [d|].
  - exists d. split; [reflexivity|exact S].
  - rewrite (S r Hin) in Hpos. discriminate.
Qed.

(** C7, as amended.  When the records group by seller and some record has
    a strictly positive [total_amount], the rule returns the award of the
    first greatest record in grouped order: its seller, and as bonus the
    product of its amount and 0.1, computed in binary64 and rounded by
    [toFixed(2)].  That record has the amount, hence the bonus, of the
    first greatest record of the input; it is that record whenever all
    records of that amount belong to one seller. *)
Theorem bonusLargestSingleSale_binary64
    (ctx : Double.Context) (records : list Double.PurchaseRecord.t) :
  Double.groupBy records Double.PurchaseRecord.seller_id = Ok (Double.recordsBySeller ctx) ->
  (exists r, In r records /\ (0 <? Double.PurchaseRecord.total_amount r)%float = true) ->
  exists w d,
    firstGreatest Double.PurchaseRecord.total_amount
                  (flat_map snd (JsObject.entries (Double.recordsBySeller ctx))) w
    /\ firstGreatest Double.PurchaseRecord.total_amount records d
    /\ (0 <? Double.PurchaseRecord.total_amount w)%float = true
    /\ Double.bonusLargestSingleSale ctx = Ok (largestSaleAward64 w)
    /\ Double.PurchaseRecord.total_amount w = Double.PurchaseRecord.total_amount d
    /\ Double.bonus (largestSaleAward64 w) = Double.bonus (largestSaleAward64 d)
    /\ ((forall r, In r records ->
           (Double.PurchaseRecord.total_amount r =? Double.PurchaseRecord.total_amount d)%float
           = true ->
           Double.PurchaseRecord.seller_id r = Double.PurchaseRecord.seller_id d) ->
        w = d).
Proof.
  intros Hgrouped Hpos. apply groupBy64_returns in Hgrouped. rewrite Hgrouped.
  set (grouped := flat_map snd (JsObject.entries
                                  (groupBy records Double.PurchaseRecord.seller_id))).
  pose proof (groupBy_flat_perm Double.PurchaseRecord.seller_id records) as P.
  fold grouped in P.
  destruct (largestRecordOf64_found records Hpos) as (d & Ld & Pd & Hd).
  assert (Hpos' : exists r, In r grouped
                            /\ (0 <? Double.PurchaseRecord.total_amount r)%float = true).
  { destruct Hpos as (r & Hin & Hr). exists r. split; [|exact Hr].
    now apply (Permutation_in _ (Permutation_sym P)). }
  destruct (largestRecordOf64_found grouped Hpos') as (w & Lw & Pw & Hw).
  assert (Win : In w records).
  { apply (Permutation_in _ P).
    now apply (reduce64_In Double.PurchaseRecord.total_amount). }
  assert (Din : In d records)
    by now apply (reduce64_In Double.PurchaseRecord.total_amount).
  assert (Hamount : Double.PurchaseRecord.total_amount w
                    = Double.PurchaseRecord.total_amount d).
  { apply eqb_positive; [|exact Pw]. apply leb_antisym.
    - apply ltb_total; [apply (ltb_number _ _ Pd)|apply (ltb_number _ _ Pw)|].
      exact (reduce64_greatest Double.PurchaseRecord.total_amount _ _ Ld w Win).
    - apply ltb_total; [apply (ltb_number _ _ Pw)|apply (ltb_number _ _ Pd)|].
      exact (reduce64_greatest Double.PurchaseRecord.total_amount _ _ Lw d
               (Permutation_in _ (Permutation_sym P) Din)). }
  exists w, d. split; [exact Hw|]. split; [exact Hd|]. split; [exact Pw|]. split.
  { unfold Double.bonusLargestSingleSale. rewrite Hgrouped, largestSaleOf64_flat.
    fold grouped. now rewrite Lw. }
  split; [exact Hamount|]. split.
  { cbn [largestSaleAward64 Double.bonus]. now rewrite Hamount. }
  intro Hone.
  set (p := fun y => String.eqb (Double.PurchaseRecord.seller_id y)
                                (Double.PurchaseRecord.seller_id d)).
  assert (Ew : (Double.PurchaseRecord.total_amount w
                =? Double.PurchaseRecord.total_amount d)%float = true).
  { rewrite Hamount. apply (ltb_number _ _ Pd). }
  assert (Hpw : p w = true) by (apply String.eqb_eq; now apply Hone).
  assert (Hpd : p d = true) by apply String.eqb_refl.
  pose proof (reduce64_filter Double.PurchaseRecord.total_amount p _ _ Lw Hpw) as Fw.
  pose proof (reduce64_filter Double.PurchaseRecord.total_amount p _ _ Ld Hpd) as Fd.
  unfold grouped in Fw. subst p. cbv beta in Fw, Fd.
  rewrite (groupBy_filter_flat Double.PurchaseRecord.seller_id records d Din) in Fw.
  congruence.
Qed.

Lemma bonusLargestSingleSale_binary64_witness :
  let ctx := contextOf64 (groupBy tiedSales Double.PurchaseRecord.seller_id)
                         Double.simpleProfit products64 in
  Double.groupBy tiedSales Double.PurchaseRecord.seller_id = Ok (Double.recordsBySeller ctx)
  /\ (exists r, In r tiedSales /\ (0 <? Double.PurchaseRecord.total_amount r)%float = true)
  /\ exists w d,
       firstGreatest Double.PurchaseRecord.total_amount tiedSales d
       /\ Double.bonusLargestSingleSale ctx = Ok (largestSaleAward64 w)
       /\ Double.PurchaseRecord.total_amount w = Double.PurchaseRecord.total_amount d.
Proof.
  intro ctx.
  assert (Hg : Double.groupBy tiedSales Double.PurchaseRecord.seller_id
               = Ok (Double.recordsBySeller ctx)) by (vm_compute; reflexivity).
  assert (Hpos : exists r, In r tiedSales
                           /\ (0 <? Double.PurchaseRecord.total_amount r)%float = true).
  { eexists. split; [left; reflexivity|vm_compute; reflexivity]. }
  split; [exact Hg|]. split; [exact Hpos|].
  destruct (bonusLargestSingleSale_binary64 ctx tiedSales Hg Hpos)
    as (w & d & _ & Hd & _ & Hw & Hamount & _).
  exists w, d. auto.
Defined.

(** C7, as stated, fails twice.  In [tiedSales] the first record of the
    largest amount is a sale of seller 1, and the rule awards seller 2,
    whose bucket is enumerated first.  And the bonus is not 10% of the
    amount rounded to two decimals: for a sale of 1.15 the product in
    binary64 is 0.11499999999999999 and the bonus 0.11, where 10% of 1.15
    is 0.115 and rounds to 0.12. *)
Lemma bonusLargestSingleSale_binary64_counterexample :
  (exists award,
     Double.bonusLargestSingleSale
       (contextOf64 (groupBy tiedSales Double.PurchaseRecord.seller_id)
                    Double.simpleProfit products64) = Ok award
     /\ Double.seller_id award = Some "seller_2"
     /\ firstGreatest Double.PurchaseRecord.total_amount tiedSales
                      (saleOf "seller_1" "customer_1" "2024-01-04" 100))
  /\ (exists award,
        Double.bonusLargestSingleSale
          (contextOf64 (groupBy [ saleOf "seller_1" "customer_1" "2024-01-04" 1.15 ]
                                Double.PurchaseRecord.seller_id)
                       Double.simpleProfit products64) = Ok award
        /\ Double.bonus award = 0.11%float
        /\ toFixed2 (1.15 * 0.1) == 0.12).
Proof.
  split.
  - eexists. split; [vm_compute; reflexivity|]. split; [reflexivity|].
    exists [saleOf "seller_2" "customer_1" "2024-01-03" 50],
           [saleOf "seller_2" "customer_2" "2024-01-05" 100].
    split; [reflexivity|].
    split; intros e [<-|[]]; vm_compute; reflexivity.
  - eexists. split; [vm_compute; reflexivity|]. split; [reflexivity|].
    vm_compute. reflexivity.
Qed.

(** ** [bonusStableGrowth] *)

Lemma validMonth_plain (key : string) : validMonth key = true -> inherited key = false.
Proof.
  intro V. destruct (inherited key) eqn:I; [exfalso|reflexivity].
  apply existsb_exists in I. destruct I as (member & Hin & E).
  apply String.eqb_eq in E. subst member.
  assert (C : forallb (fun k => negb (validMonth k)) prototypeMembers = true)
    by (vm_compute; reflexivity).
  rewrite forallb_forall in C. specialize (C key Hin). rewrite V in C. discriminate.
Qed.

Lemma mapM_returns_In {A B} (f : A -> outcome B) (l : list A) :
  (forall x, In x l -> exists y, f x = Ok y) -> exists l', mapM f l = Ok l'.
Proof.
  induction l as [|x l IH]; intro H; cbn [mapM]; [now exists []|].
  destruct (H x (or_introl eq_refl)) as [y ->]. cbn [bind].
  destruct IH as [l' ->]; [intros x' Hx'; apply H; now right|].
  cbn [bind]. now eexists.
Qed.

Lemma groupBy_bucket_In {A} (array : list A) (keyFn : A -> string)
    (e : string * list A) (x : A) :
  In e (JsObject.entries (groupBy array keyFn)) -> In x (snd e) -> In x array.
Proof.
  intros He Hx. apply (Permutation_in _ (groupBy_flat_perm keyFn array)).
  apply in_flat_map. now exists e.
Qed.

(** The monthly averages of a seller exist when its records carry a year
    and a month and the profit function returns on their items. *)
Lemma monthlyAveragesOf64_returns (calculateProfit : Double.ProfitFn)
    (products : list Double.Product.t) (records : list Double.PurchaseRecord.t) :
  (forall r, In r records ->
             validMonth (substring 0 7 (Double.PurchaseRecord.date r)) = true) ->
  (forall r item, In r records -> In item (Double.PurchaseRecord.items r) ->
                  exists q, calculateProfit item (Double.findProduct products item) = Ok q) ->
  exists monthlyAverages,
    Double.monthlyAveragesOf calculateProfit products records = Ok monthlyAverages.
Proof.
  intros Hdates Hprofit. unfold Double.monthlyAveragesOf.
  rewrite groupBy64_plain.
  assert (P : existsb inherited
                (map (fun record => substring 0 7 (Double.PurchaseRecord.date record))
                     records) = false).
  { destruct (existsb inherited _) eqn:X; [exfalso|reflexivity].
    apply existsb_exists in X. destruct X as (k & Hk & I).
    apply in_map_iff in Hk. destruct Hk as (r & <- & Hr).
    rewrite (validMonth_plain _ (Hdates r Hr)) in I. discriminate. }
  rewrite P. cbn [bind].
  apply mapM_returns_In. intros e He.
  apply (Permutation_in _ (sort_perm _ _)) in He.
  destruct (mapM_returns_In
              (fun item => calculateProfit item (Double.findProduct products item))
              (flat_map Double.PurchaseRecord.items (snd e))) as [profits ->].
  - intros item Hitem. apply in_flat_map in Hitem. destruct Hitem as (r & Hr & Hitem).
    apply (Hprofit r item); [|exact Hitem].
    exact (groupBy_bucket_In _ _ e r He Hr).
  - cbn [bind]. now eexists.
Qed.

Section NoWinner64.

Variable ctx : Double.Context.

Hypothesis dated :
  forall e r, In e (JsObject.entries (Double.recordsBySeller ctx)) -> In r (snd e) ->
              validMonth (substring 0 7 (Double.PurchaseRecord.date r)) = true.

Hypothesis priced :
  forall e r item,
    In e (JsObject.entries (Double.recordsBySeller ctx)) -> In r (snd e) ->
    In item (Double.PurchaseRecord.items r) ->
    exists q, Double.calculateProfit ctx item
                (Double.findProduct (Double.products ctx) item) = Ok q.

Hypothesis nobody_qualifies :
  forall e monthlyAverages,
    In e (JsObject.entries (Double.recordsBySeller ctx)) ->
    Double.monthlyAveragesOf (Double.calculateProfit ctx) (Double.products ctx) (snd e)
    = Ok monthlyAverages ->
    qualifies64 monthlyAverages = false.

Lemma stableGrowth64_stays_null (l : list (string * list Double.PurchaseRecord.t)) :
  (forall e, In e l -> In e (JsObject.entries (Double.recordsBySeller ctx))) ->
  foldM (Double.stableGrowthStep (Double.calculateProfit ctx) (Double.products ctx)) l None
  = Ok None.
Proof.
  induction l as [|e l IH]; intro Hsub; cbn [foldM]; [reflexivity|].
  pose proof (Hsub e (or_introl eq_refl)) as He.
  destruct (monthlyAveragesOf64_returns (Double.calculateProfit ctx) (Double.products ctx)
              (snd e)) as [m Hm].
  { intros r Hr. exact (dated e r He Hr). }
  { intros r item Hr Hitem. exact (priced e r item He Hr Hitem). }
  unfold Double.stableGrowthStep at 1. rewrite Hm. cbn [bind].
  pose proof (nobody_qualifies e m He Hm) as Hq. unfold qualifies64 in Hq. rewrite Hq.
  cbn [bind]. apply IH. intros e' He'. apply Hsub. now right.
Qed.

(** C9, as amended.  When every record of the context carries a year and
    a month at the head of its date, the profit function returns on every
    item, and no seller's monthly averages are both stable and increasing
    under tolerance 0.05, [bonusStableGrowth] returns: category
    "Stable Growth", no seller and bonus 0. *)
Theorem bonusStableGrowth_no_winner_binary64 :
  Double.bonusStableGrowth ctx
  = Ok {| Double.category := "Stable Growth";
          Double.seller_id := None;
          Double.bonus := 0%float |}.
Proof.
  unfold Double.bonusStableGrowth.
  rewrite stableGrowth64_stays_null by auto. reflexivity.
Qed.

End NoWinner64.

Lemma bonusStableGrowth_no_winner_binary64_witness :
  let ctx := contextOf64 (groupBy seasonRecords Double.PurchaseRecord.seller_id)
                         Double.simpleProfit products64 in
  map (fun e =>
         match Double.monthlyAveragesOf Double.simpleProfit products64 (snd e) with
         | Ok monthlyAverages => (length monthlyAverages, qualifies64 monthlyAverages)
         | Throw _ => (O, true)
         end)
      (JsObject.entries (Double.recordsBySeller ctx))
  = [ (2%nat, false); (2%nat, false) ]
  /\ Double.bonusStableGrowth ctx
     = Ok {| Double.category := "Stable Growth";
             Double.seller_id := None;
             Double.bonus := 0%float |}.
Proof.
  intro ctx. split; [vm_compute; reflexivity|].
  apply (bonusStableGrowth_no_winner_binary64 ctx).
  - intros e r He Hr.
    assert (C : forallb (fun e =>
                  forallb (fun r => validMonth (substring 0 7 (Double.PurchaseRecord.date r)))
                          (snd e))
                  (JsObject.entries (Double.recordsBySeller ctx)) = true)
      by (vm_compute; reflexivity).
    rewrite forallb_forall in C. specialize (C e He).
    rewrite forallb_forall in C. exact (C r Hr).
  - intros e r item He Hr Hitem.
    assert (C : forallb (fun e =>
                  forallb (fun r =>
                    forallb (fun item =>
                      match Double.simpleProfit item (Double.findProduct products64 item) with
                      | Ok _ => true
                      | Throw _ => false
                      end) (Double.PurchaseRecord.items r))
                    (snd e))
                  (JsObject.entries (Double.recordsBySeller ctx)) = true)
      by (vm_compute; reflexivity).
    rewrite forallb_forall in C. specialize (C e He).
    rewrite forallb_forall in C. specialize (C r Hr).
    rewrite forallb_forall in C. specialize (C item Hitem).
    change (Double.calculateProfit ctx) with Double.simpleProfit.
    change (Double.products ctx) with products64.
    destruct (Double.simpleProfit item (Double.findProduct products64 item)) as [q|];
      [now exists q|discriminate].
  - intros e m He Hm.
    assert (C : forallb (fun e =>
                  match Double.monthlyAveragesOf Double.simpleProfit products64 (snd e) with
                  | Ok m => negb (qualifies64 m)
                  | Throw _ => false
                  end)
                  (JsObject.entries (Double.recordsBySeller ctx)) = true)
      by (vm_compute; reflexivity).
    rewrite forallb_forall in C. specialize (C e He).
    change (Double.calculateProfit ctx) with Double.simpleProfit in Hm.
    change (Double.products ctx) with products64 in Hm.
    rewrite Hm in C. now apply negb_true_iff.
Defined.

(** C9, as stated, fails: no seller of these contexts has monthly
    averages that are stable and increasing, none has monthly averages at
    all, and the call ends in the error of the profit function: the error
    of a strategy that refuses the discount of an item and, for an item
    whose product is not in the catalog, the TypeError of [simpleProfit]
    (lines 178 and 204). *)
Lemma bonusStableGrowth_throws_counterexample :
  let refused :=
    contextOf64
      (groupBy [ saleWith "seller_1" "2024-01-10"
                   {| Double.Item.sku := "SKU_001"; Double.Item.sale_price := 100;
                      Double.Item.quantity := 1; Double.Item.discount := 150 |} ]
               Double.PurchaseRecord.seller_id)
      strictProfit products64 in
  let unknown :=
    contextOf64
      (groupBy [ saleWith "seller_1" "2024-01-10" (unitAt "SKU_404" 100) ]
               Double.PurchaseRecord.seller_id)
      Double.simpleProfit products64 in
  (forall e, In e (JsObject.entries (Double.recordsBySeller refused)) ->
     Double.monthlyAveragesOf strictProfit products64 (snd e) = Throw (Error "discount"))
  /\ Double.bonusStableGrowth refused = Throw (Error "discount")
  /\ (forall e, In e (JsObject.entries (Double.recordsBySeller unknown)) ->
        Double.monthlyAveragesOf Double.simpleProfit products64 (snd e) = Throw TypeError)
  /\ Double.bonusStableGrowth unknown = Throw TypeError.
Proof.
  intros refused unknown.
  split; [intros e [<-|[]]; vm_compute; reflexivity|].
  split; [vm_compute; reflexivity|].
  split; [intros e [<-|[]]; vm_compute; reflexivity|].
  vm_compute. reflexivity.
Qed.

(** * Further properties in binary64 arithmetic *)

(** ** [groupBy]: lookup and partition *)

(** [groupBy] throws a TypeError when some item has a key that names a
    member of [Object.prototype].  Otherwise it returns; looking a key up
    among the own properties of the result gives the items with that key,
    in input order, and nothing for a key no item has; no bucket is empty,
    and the buckets together hold every item of the input exactly once. *)
Theorem groupBy_prototype_lookup {A} (array : list A) (keyFn : A -> string) :
  (existsb inherited (map keyFn array) = true ->
   Double.groupBy array keyFn = Throw TypeError)
  /\ (existsb inherited (map keyFn array) = false ->
      exists grouped,
        Double.groupBy array keyFn = Ok grouped
        /\ (forall k,
              JsObject.get grouped k
              = if existsb (String.eqb k) (map keyFn array)
                then Some (itemsWithKey array keyFn k) else None)
        /\ (forall k bucket,
              In (k, bucket) (JsObject.entries grouped) ->
              bucket <> [] /\ forall item, In item bucket -> keyFn item = k)
        /\ Permutation (flat_map snd (JsObject.entries grouped)) array).
Proof.
  rewrite groupBy64_plain. split; intros ->; [reflexivity|].
  exists (groupBy array keyFn). split; [reflexivity|]. split; [|split].
  - intro k. rewrite groupBy_tabulated, get_tabulate.
    now rewrite existsb_firstOccurrences.
  - intros k bucket Hin.
    apply (Permutation_in _ (entries_perm _)) in Hin.
    rewrite groupBy_tabulated in Hin. apply in_map_iff in Hin.
    destruct Hin as (k' & [= -> <-] & Hk).
    apply (proj1 (firstOccurrences_In _ _)), in_map_iff in Hk.
    destruct Hk as (x & Hx & Hin). split.
    + intro E. assert (Hx' : In x (itemsWithKey array keyFn k)).
      { apply filter_In. split; [exact Hin|now apply String.eqb_eq]. }
      rewrite E in Hx'. destruct Hx'.
    + intros item Hitem. apply filter_In in Hitem. now apply String.eqb_eq.
  - apply groupBy_flat_perm.
Qed.

Lemma groupBy_prototype_lookup_witness :
  existsb inherited (map Double.PurchaseRecord.customer_id marketRecords) = false
  /\ (exists grouped,
        Double.groupBy marketRecords Double.PurchaseRecord.customer_id = Ok grouped
        /\ JsObject.get grouped "customer_1"
           = Some [ saleTo "seller_1" "customer_1" "2024-01-10" 0.2 [ unitAt "SKU_001" 0.2 ];
                    saleTo "seller_1" "customer_1" "2024-01-12" 0.05
                           [ unitAt "SKU_001" 0.05 ] ]
        /\ JsObject.get grouped "toString" = None)
  /\ Double.groupBy [ saleOf "seller_1" "toString" "2024-01-10" 1 ]
                    Double.PurchaseRecord.customer_id
     = Throw TypeError.
Proof.
  assert (P : existsb inherited (map Double.PurchaseRecord.customer_id marketRecords) = false)
    by (vm_compute; reflexivity).
  split; [exact P|]. split.
  - destruct (proj2 (groupBy_prototype_lookup marketRecords Double.PurchaseRecord.customer_id) P)
      as (grouped & G & L & _).
    exists grouped. split; [exact G|]. split; rewrite L; vm_compute; reflexivity.
  - apply (proj1 (groupBy_prototype_lookup [ saleOf "seller_1" "toString" "2024-01-10" 1 ]
                    Double.PurchaseRecord.customer_id)).
    vm_compute. reflexivity.
Defined.

(** ** [calculateSpecialBonuses] *)

(** [calculateSpecialBonuses] groups the records by seller, by customer
    and their items by sku before anything else: when a seller id, a
    customer id or a sku names a member of [Object.prototype], the call
    throws a TypeError, whatever the accumulator and the bonus functions
    would do.  Otherwise it returns exactly when the accumulator and every
    bonus function return; it then gives one result per function, in the
    order of the functions, each computed from the same context.  An
    error of the accumulator, or of the first bonus function that fails,
    is the error of the call. *)
Theorem calculateSpecialBonuses_prototype_results
    (data : Double.Dataset.t) (calculateProfit : Double.ProfitFn)
    (accumulateMetrics : list Double.PurchaseRecord.t -> Double.ProfitFn
                         -> list Double.Product.t -> outcome Double.Metrics.t)
    (bonusFunctions : list (Double.Context -> outcome Double.BonusResult)) :
  let accumulated :=
    accumulateMetrics (Double.Dataset.purchase_records data) calculateProfit
                      (Double.Dataset.products data) in
  let call :=
    Double.calculateSpecialBonuses data calculateProfit accumulateMetrics bonusFunctions in
  (existsb inherited (groupingKeys (Double.Dataset.purchase_records data)) = true ->
   call = Throw TypeError)
  /\ (existsb inherited (groupingKeys (Double.Dataset.purchase_records data)) = false ->
      (forall results,
         call = Ok results <->
         exists stats,
           accumulated = Ok stats
           /\ Forall2 (fun func result =>
                         func (sharedContext64 data calculateProfit stats) = Ok result)
                      bonusFunctions results)
      /\ (forall e, accumulated = Throw e -> call = Throw e)
      /\ (forall stats before func after e,
            accumulated = Ok stats ->
            bonusFunctions = before ++ func :: after ->
            (forall g, In g before ->
               exists result, g (sharedContext64 data calculateProfit stats) = Ok result) ->
            func (sharedContext64 data calculateProfit stats) = Throw e ->
            call = Throw e)).
Proof.
  cbv zeta. unfold Double.calculateSpecialBonuses, groupingKeys.
  rewrite !groupBy64_plain, !existsb_app.
  destruct (existsb inherited (map Double.PurchaseRecord.seller_id _)); cbn [bind orb].
  { split; [reflexivity|discriminate]. }
  destruct (existsb inherited (map Double.PurchaseRecord.customer_id _)); cbn [bind orb].
  { split; [reflexivity|discriminate]. }
  destruct (existsb inherited (map Double.Item.sku _)); cbn [bind orb].
  { split; [reflexivity|discriminate]. }
  split; [discriminate|]. intros _.
  fold (sharedContext64 data calculateProfit).
  split; [|split].
  - intro results. split.
    + destruct (accumulateMetrics _ _ _) as [stats|]; [|discriminate].
      cbn [bind]. intro H. exists stats. split; [reflexivity|].
      apply mapM_Forall2 in H. exact H.
    + intros (stats & -> & H). cbn [bind].
      apply (mapM_Forall2 (fun func => func (sharedContext64 data calculateProfit stats))).
      exact H.
  - intros e ->. reflexivity.
  - intros stats before func after e -> -> Hbefore Hfunc. cbn [bind].
    exact (mapM_first_throw
             (fun g => g (sharedContext64 data calculateProfit stats)) _ _ _ _ Hbefore Hfunc).
Qed.

Lemma calculateSpecialBonuses_prototype_results_witness :
  existsb inherited (groupingKeys marketRecords) = false
  /\ Double.baseMetrics marketRecords Double.simpleProfit products64 = Ok marketStats
  /\ (exists best average,
        Double.calculateSpecialBonuses marketData Double.simpleProfit Double.baseMetrics
          [ Double.bonusBestCustomer; Double.bonusHighestAverageProfit ]
        = Ok [ best; average ]
        /\ Double.seller_id best = Some "seller_2"
        /\ Double.seller_id average = Some "seller_2")
  /\ Double.calculateSpecialBonuses
       {| Double.Dataset.customers := sampleCustomers;
          Double.Dataset.products := products64;
          Double.Dataset.sellers := sampleSellers;
          Double.Dataset.purchase_records :=
            [ saleTo "seller_1" "customer_1" "2024-01-10" 1 [ unitAt "valueOf" 1 ] ] |}
       lenientProfit64 Double.baseMetrics [ Double.bonusLargestSingleSale ]
     = Throw TypeError.
Proof.
  assert (P : existsb inherited (groupingKeys marketRecords) = false)
    by (vm_compute; reflexivity).
  assert (Hstats : Double.baseMetrics marketRecords Double.simpleProfit products64
                   = Ok marketStats) by (vm_compute; reflexivity).
  split; [exact P|]. split; [exact Hstats|]. split.
  - destruct (Double.bonusBestCustomer marketContext) as [best|] eqn:E1;
      [|vm_compute in E1; discriminate E1].
    destruct (Double.bonusHighestAverageProfit marketContext) as [average|] eqn:E2;
      [|vm_compute in E2; discriminate E2].
    exists best, average. split.
    + apply (proj1 (proj2 (calculateSpecialBonuses_prototype_results marketData
                             Double.simpleProfit Double.baseMetrics
                             [ Double.bonusBestCustomer; Double.bonusHighestAverageProfit ])
                            P)).
      exists marketStats. split; [exact Hstats|].
      constructor; [exact E1|]. constructor; [exact E2|constructor].
    + vm_compute in E1. vm_compute in E2.
      injection E1 as <-. injection E2 as <-. split; reflexivity.
  - apply (proj1 (calculateSpecialBonuses_prototype_results _ lenientProfit64
                    Double.baseMetrics [ Double.bonusLargestSingleSale ])).
    vm_compute. reflexivity.
Defined.

(** ** Who wins the rules *)

Section Keeping.

Context {E T : Type}.
Variables (value : E -> float) (keep : E -> T) (valueOf : T -> float).
Hypothesis keep_value : forall e, valueOf (keep e) = value e.

(** A reduce that keeps [keep e] for the candidate [e] returns the first
    candidate of greatest value, when that value is positive. *)
Lemma reduce64_keep (l : list E) (t : T) :
  fold_left
    (fun max e =>
       if (Double.fieldOrZero valueOf max <? value e)%float then Some (keep e) else max)
    l None = Some t ->
  exists e, t = keep e /\ (0 <? value e)%float = true /\ firstGreatest value l e.
Proof.
  intro H.
  assert (M : fold_left
                (fun max t' => if (Double.fieldOrZero valueOf max <? valueOf t')%float
                               then Some t' else max)
                (map keep l) None = Some t).
  { rewrite <- H. clear H. generalize (@None T).
    induction l as [|e l IH]; intro acc; cbn [map fold_left]; [reflexivity|].
    rewrite keep_value. apply IH. }
  pose proof (reduce64_spec valueOf (map keep l)) as S. cbv beta zeta in S.
  rewrite M in S. destruct S as (Hpos & l1 & l2 & Hl & Hbefore & Hafter).
  apply map_eq_app in Hl. destruct Hl as (m1 & m & -> & <- & Hl).
  apply map_eq_cons in Hl. destruct Hl as (e & m2 & -> & <- & <-).
  exists e. rewrite keep_value in Hpos. split; [reflexivity|]. split; [exact Hpos|].
  exists m1, m2. split; [reflexivity|].
  split; intros e' He'; rewrite <- !keep_value.
  - apply Hbefore. now apply in_map.
  - apply Hafter. now apply in_map.
Qed.

End Keeping.

(** When [bonusBestCustomer] returns, the award goes to the first of the
    best customer's sellers with the greatest seller revenue, the best
    customer being the first customer of greatest revenue; both revenues
    are positive, and the bonus is the product of the customer's revenue
    and 0.05, computed in binary64 and rounded by [toFixed(2)]. *)
Theorem bonusBestCustomer_binary64_winner (ctx : Double.Context)
    (result : Double.BonusResult) :
  Double.bonusBestCustomer ctx = Ok result ->
  exists customer sellerId,
    firstGreatest (fun e => Double.CustomerAggregate.revenue (snd e))
                  (JsObject.entries (Double.Metrics.customers (Double.stats ctx))) customer
    /\ (0 <? Double.CustomerAggregate.revenue (snd customer))%float = true
    /\ firstGreatest (Double.sellerRevenueOrZero (Double.stats ctx))
                     (Double.CustomerAggregate.sellers (snd customer)) sellerId
    /\ (0 <? Double.sellerRevenueOrZero (Double.stats ctx) sellerId)%float = true
    /\ result = {| Double.category := "Best Customer Seller";
                   Double.seller_id := Some sellerId;
                   Double.bonus :=
                     Double.toFixed2
                       (Double.CustomerAggregate.revenue (snd customer) * 0.05)%float |}.
Proof.
  unfold Double.bonusBestCustomer.
  destruct (Double.bestCustomerOf (Double.stats ctx)) as [best|] eqn:B; [|discriminate].
  destruct (Double.topSellerOf (Double.stats ctx) _) as [top|] eqn:S; [|discriminate].
  intros [= <-].
  destruct (reduce64_keep (fun e => Double.CustomerAggregate.revenue (snd e)) (fun e => e)
              (fun m => Double.CustomerAggregate.revenue (snd m)) (fun e => eq_refl) _ _ B)
    as (customer & -> & Hpos & Hmax).
  destruct (reduce64_keep (Double.sellerRevenueOrZero (Double.stats ctx))
              (fun s => (s, Double.sellerRevenueOrZero (Double.stats ctx) s)) snd
              (fun e => eq_refl) _ _ S)
    as (sellerId & -> & Hspos & Hsmax).
  exists customer, sellerId. auto.
Qed.

Lemma bonusBestCustomer_binary64_winner_witness :
  exists result,
    Double.bonusBestCustomer marketContext = Ok result
    /\ Double.seller_id result = Some "seller_2"
    /\ Double.bonus result = 0.01%float
    /\ exists customer,
         In customer
            (JsObject.entries (Double.Metrics.customers (Double.stats marketContext)))
         /\ Double.bonus result
            = Double.toFixed2 (Double.CustomerAggregate.revenue (snd customer) * 0.05)%float.
Proof.
  destruct (Double.bonusBestCustomer marketContext) as [result|] eqn:E;
    [|vm_compute in E; discriminate E].
  exists result. split; [reflexivity|].
  destruct (bonusBestCustomer_binary64_winner marketContext result E)
    as (customer & sellerId & (l1 & l2 & Hl & _) & _ & _ & _ & Hr).
  split; [|split].
  - vm_compute in E. injection E as <-. reflexivity.
  - vm_compute in E. injection E as <-. reflexivity.
  - exists customer. split; [rewrite Hl; apply in_elt|]. rewrite Hr. reflexivity.
Defined.

(** When [bonusHighestAverageProfit] returns, the award goes to the first
    seller with the greatest profit per item sold, the quotient computed in
    binary64; that average is positive, and the bonus is its product with
    0.1, computed in binary64 and rounded by [toFixed(2)]. *)
Theorem bonusHighestAverageProfit_binary64_winner (ctx : Double.Context)
    (result : Double.BonusResult) :
  Double.bonusHighestAverageProfit ctx = Ok result ->
  exists seller,
    firstGreatest (fun e => Double.averageProfit (snd e))
                  (JsObject.entries (Double.Metrics.sellers (Double.stats ctx))) seller
    /\ (0 <? Double.averageProfit (snd seller))%float = true
    /\ result = {| Double.category := "Highest Average Profit";
                   Double.seller_id := Some (fst seller);
                   Double.bonus :=
                     Double.toFixed2 (Double.averageProfit (snd seller) * 0.1)%float |}.
Proof.
  unfold Double.bonusHighestAverageProfit.
  destruct (Double.bestAverageOf (Double.stats ctx)) as [best|] eqn:B; [|discriminate].
  intros [= <-].
  destruct (reduce64_keep (fun e => Double.averageProfit (snd e))
              (fun e => (fst e, Double.averageProfit (snd e))) snd (fun e => eq_refl) _ _ B)
    as (seller & -> & Hpos & Hmax).
  exists seller. auto.
Qed.

Lemma bonusHighestAverageProfit_binary64_winner_witness :
  exists result,
    Double.bonusHighestAverageProfit marketContext = Ok result
    /\ Double.seller_id result = Some "seller_2"
    /\ Double.bonus result = 0.03%float
    /\ exists seller,
         In seller (JsObject.entries (Double.Metrics.sellers (Double.stats marketContext)))
         /\ Double.bonus result
            = Double.toFixed2 (Double.averageProfit (snd seller) * 0.1)%float.
Proof.
  destruct (Double.bonusHighestAverageProfit marketContext) as [result|] eqn:E;
    [|vm_compute in E; discriminate E].
  exists result. split; [reflexivity|].
  destruct (bonusHighestAverageProfit_binary64_winner marketContext result E)
    as (seller & (l1 & l2 & Hl & _) & _ & Hr).
  split; [|split].
  - vm_compute in E. injection E as <-. reflexivity.
  - vm_compute in E. injection E as <-. reflexivity.
  - exists seller. split; [rewrite Hl; apply in_elt|]. rewrite Hr. reflexivity.
Defined.

(** ** [bonusStableGrowth]: the winner *)

Lemma ltb_raise (a b x : float) :
  (a <? b)%float = true -> (a <? x)%float = false -> (b <? x)%float = false.
Proof.
  intros Hab Hax. destruct (b <? x)%float eqn:C; [exfalso|reflexivity].
  rewrite (ltb_trans _ _ _ Hab C) in Hax. discriminate.
Qed.

Section Growth64.

Variable ctx : Double.Context.

Let averagesOf (records : list Double.PurchaseRecord.t) : outcome (list float) :=
  Double.monthlyAveragesOf (Double.calculateProfit ctx) (Double.products ctx) records.

(** The accumulator of the reduce of lines 172-188 after the sellers
    [seen]: no qualifying seller seen has a larger average, and the
    accumulator holds a qualifying seller seen, with a positive average. *)
Let leads (seen : list (string * list Double.PurchaseRecord.t))
    (best : option (string * float)) : Prop :=
  (forall e monthlyAverages,
     In e seen -> averagesOf (snd e) = Ok monthlyAverages ->
     qualifies64 monthlyAverages = true ->
     (Double.fieldOrZero snd best <? Double.calculateAverage monthlyAverages)%float = false)
  /\ (forall b, best = Some b ->
        (0 <? snd b)%float = true
        /\ exists records monthlyAverages,
             In (fst b, records) seen
             /\ averagesOf records = Ok monthlyAverages
             /\ qualifies64 monthlyAverages = true
             /\ snd b = Double.calculateAverage monthlyAverages).

Lemma stableGrowthStep64_leads (seen : list (string * list Double.PurchaseRecord.t))
    (best best' : option (string * float)) (e : string * list Double.PurchaseRecord.t) :
  leads seen best ->
  Double.stableGrowthStep (Double.calculateProfit ctx) (Double.products ctx) best e
  = Ok best' ->
  leads (seen ++ [e]) best'.
Proof.
  intros [Hmax Hbest]. unfold Double.stableGrowthStep.
  destruct (Double.monthlyAveragesOf _ _ (snd e)) as [m|] eqn:M; [|discriminate].
  cbn [bind]. fold (qualifies64 m).
  assert (Old : forall b, best = Some b ->
            exists records monthlyAverages,
              In (fst b, records) (seen ++ [e])
              /\ averagesOf records = Ok monthlyAverages
              /\ qualifies64 monthlyAverages = true
              /\ snd b = Double.calculateAverage monthlyAverages).
  { intros b Hb. destruct (Hbest b Hb) as (_ & records & seq & Hin & H).
    exists records, seq. split; [apply in_or_app; now left|exact H]. }
  destruct (qualifies64 m) eqn:Q.
  - destruct (Double.fieldOrZero snd best <? Double.calculateAverage m)%float eqn:C;
      intros [= <-]; split.
    + assert (Hpos : (0 <? Double.calculateAverage m)%float = true).
      { destruct best as [b|]; [|exact C].
        destruct (Hbest b eq_refl) as [Hb _].
        rewrite (fieldOrZero_positive snd b Hb) in C. exact (ltb_trans _ _ _ Hb C). }
      intros e' seq' Hin Hseq Hq.
      rewrite (fieldOrZero_positive snd (fst e, Double.calculateAverage m) Hpos).
      cbn [snd]. apply in_app_or in Hin. destruct Hin as [Hin|[<-|[]]].
      * exact (ltb_raise _ _ _ C (Hmax e' seq' Hin Hseq Hq)).
      * unfold averagesOf in Hseq. rewrite M in Hseq. injection Hseq as <-.
        apply ltb_irrefl.
    + intros b [= <-]. cbn [fst snd]. split.
      * destruct best as [b|]; [|exact C].
        destruct (Hbest b eq_refl) as [Hb _].
        rewrite (fieldOrZero_positive snd b Hb) in C. exact (ltb_trans _ _ _ Hb C).
      * exists (snd e), m. split; [apply in_or_app; right; left; now destruct e|].
        split; [exact M|]. split; [exact Q|reflexivity].
    + intros e' seq' Hin Hseq Hq.
      apply in_app_or in Hin. destruct Hin as [Hin|[<-|[]]].
      * now apply (Hmax e' seq').
      * unfold averagesOf in Hseq. rewrite M in Hseq. injection Hseq as <-. exact C.
    + intros b Hb. split; [now destruct (Hbest b Hb)|now apply Old].
  - intros [= <-]. split.
    + intros e' seq' Hin Hseq Hq.
      apply in_app_or in Hin. destruct Hin as [Hin|[<-|[]]].
      * now apply (Hmax e' seq').
      * unfold averagesOf in Hseq. rewrite M in Hseq. injection Hseq as <-. congruence.
    + intros b Hb. split; [now destruct (Hbest b Hb)|now apply Old].
Qed.

Lemma stableGrowth64_leads (l : list (string * list Double.PurchaseRecord.t)) :
  forall seen best best',
  leads seen best ->
  foldM (Double.stableGrowthStep (Double.calculateProfit ctx) (Double.products ctx)) l best
  = Ok best' ->
  leads (seen ++ l) best'.
Proof.
  induction l as [|e l IH]; intros seen best best' L; cbn [foldM].
  - intros [= <-]. now rewrite app_nil_r.
  - destruct (Double.stableGrowthStep _ _ best e) as [mid|] eqn:E; [|discriminate].
    cbn [bind]. intro F.
    pose proof (stableGrowthStep64_leads _ _ _ _ L E) as L'.
    pose proof (IH _ _ _ L' F) as L''. now rewrite <- app_assoc in L''.
Qed.

(** For records dated by year and month ([YYYY-MM] at the head of the
    date): when [bonusStableGrowth] names a seller, that seller's monthly
    averages are stable and increasing, its overall average is positive
    and exceeded by that of no other qualifying seller, and the bonus is
    the product of that average and 0.15, computed in binary64 and rounded
    by [toFixed(2)]; when it names nobody, the bonus is 0 and no
    qualifying seller has a positive average. *)
Theorem bonusStableGrowth_binary64_winner (result : Double.BonusResult) :
  (forall e r, In e (JsObject.entries (Double.recordsBySeller ctx)) -> In r (snd e) ->
               validMonth (substring 0 7 (Double.PurchaseRecord.date r)) = true) ->
  Double.bonusStableGrowth ctx = Ok result ->
  (Double.seller_id result = None ->
   Double.bonus result = 0%float
   /\ forall e monthlyAverages,
        In e (JsObject.entries (Double.recordsBySeller ctx)) ->
        Double.monthlyAveragesOf (Double.calculateProfit ctx) (Double.products ctx) (snd e)
        = Ok monthlyAverages ->
        qualifies64 monthlyAverages = true ->
        (0 <? Double.calculateAverage monthlyAverages)%float = false)
  /\ (forall sellerId,
        Double.seller_id result = Some sellerId ->
        exists records monthlyAverages,
          In (sellerId, records) (JsObject.entries (Double.recordsBySeller ctx))
          /\ Double.monthlyAveragesOf (Double.calculateProfit ctx) (Double.products ctx)
                                      records
             = Ok monthlyAverages
          /\ qualifies64 monthlyAverages = true
          /\ (0 <? Double.calculateAverage monthlyAverages)%float = true
          /\ Double.bonus result
             = Double.toFixed2 (Double.calculateAverage monthlyAverages * 0.15)%float
          /\ forall e others,
               In e (JsObject.entries (Double.recordsBySeller ctx)) ->
               Double.monthlyAveragesOf (Double.calculateProfit ctx) (Double.products ctx)
                                        (snd e)
               = Ok others ->
               qualifies64 others = true ->
               (Double.calculateAverage monthlyAverages
                <? Double.calculateAverage others)%float = false).
Proof.
  intros _. unfold Double.bonusStableGrowth.
  destruct (foldM _ _ None) as [best|] eqn:F; [|discriminate]. cbn [bind].
  intros [= <-]. cbn [Double.seller_id Double.bonus].
  assert (L0 : leads [] None).
  { split; [intros e m []|discriminate]. }
  pose proof (stableGrowth64_leads _ _ _ _ L0 F) as [Hmax Hbest]. cbn [app] in *.
  split.
  - intro Hs. destruct best as [b|]; [discriminate|].
    split; [vm_compute; reflexivity|]. intros e m Hin Hm Hq. exact (Hmax e m Hin Hm Hq).
  - intros sellerId Hs. destruct best as [b|]; [|discriminate].
    cbn [option_map] in Hs. injection Hs as <-.
    destruct (Hbest b eq_refl) as (Hpos & records & m & Hin & Hm & Hq & E).
    exists records, m. rewrite <- E.
    split; [exact Hin|]. split; [exact Hm|]. split; [exact Hq|]. split; [exact Hpos|].
    split; [reflexivity|].
    intros e others He Ho Hqo. pose proof (Hmax e others He Ho Hqo) as G.
    now rewrite (fieldOrZero_positive snd b Hpos) in G.
Qed.

End Growth64.

Lemma bonusStableGrowth_binary64_winner_witness :
  exists result,
    Double.bonusStableGrowth growthContext = Ok result
    /\ Double.seller_id result = Some "seller_3"
    /\ Double.bonus result = 30.27%float
    /\ exists records monthlyAverages,
         In ("seller_3", records) (JsObject.entries (Double.recordsBySeller growthContext))
         /\ Double.monthlyAveragesOf Double.simpleProfit products64 records
            = Ok monthlyAverages
         /\ qualifies64 monthlyAverages = true
         /\ Double.bonus result
            = Double.toFixed2 (Double.calculateAverage monthlyAverages * 0.15)%float.
Proof.
  destruct (Double.bonusStableGrowth growthContext) as [result|] eqn:E;
    [|vm_compute in E; discriminate E].
  exists result. split; [reflexivity|].
  assert (Hs : Double.seller_id result = Some "seller_3").
  { vm_compute in E. injection E as <-. reflexivity. }
  split; [exact Hs|]. split.
  { vm_compute in E. injection E as <-. reflexivity. }
  assert (Hd : forall e r,
             In e (JsObject.entries (Double.recordsBySeller growthContext)) ->
             In r (snd e) ->
             validMonth (substring 0 7 (Double.PurchaseRecord.date r)) = true).
  { intros e r He Hr.
    assert (C : forallb (fun e => forallb (fun r => validMonth
                           (substring 0 7 (Double.PurchaseRecord.date r))) (snd e))
                        (JsObject.entries (Double.recordsBySeller growthContext)) = true)
      by (vm_compute; reflexivity).
    rewrite forallb_forall in C. specialize (C e He).
    rewrite forallb_forall in C. exact (C r Hr). }
  destruct (proj2 (bonusStableGrowth_binary64_winner growthContext result Hd E)
                  "seller_3" Hs)
    as (records & m & Hin & Hm & Hq & _ & Hb & _).
  exists records, m. auto.
Defined.

(** ** [calculateAverage] *)


(** ** [baseMetrics]: the buckets it makes *)

Lemma ensure64_keys {V} (o : JsObject.t V) (k : string) (fresh : V) :
  (forall k', In k' (map fst o) -> inherited k' = false) ->
  map fst (match JsObject.get o k return JsObject.t V with
           | None => if inherited k then o else JsObject.set o k fresh
           | Some _ => o
           end)
  = fold_left setAdd (filter plain [k]) (map fst o).
Proof.
  intro Hplain. cbn [filter]. unfold plain.
  destruct (JsObject.get o k) eqn:G.
  - assert (Hin : existsb (String.eqb k) (map fst o) = true) by now rewrite get_keys, G.
    assert (Hk : inherited k = false).
    { apply existsb_exists in Hin. destruct Hin as (k' & Hk' & E).
      apply String.eqb_eq in E. subst k'. now apply Hplain. }
    rewrite Hk. cbn [negb fold_left]. symmetry. now apply setAdd_present.
  - destruct (inherited k); cbn [negb fold_left]; [reflexivity|apply keys_set].
Qed.

Lemma setAdd_plain (keys : list string) (k : string) :
  (forall k', In k' keys -> inherited k' = false) ->
  forall k', In k' (fold_left setAdd (filter plain [k]) keys) -> inherited k' = false.
Proof.
  intros H k'. cbn [filter]. unfold plain.
  destruct (inherited k) eqn:I; cbn [negb fold_left]; [apply H|].
  unfold setAdd. destruct (existsb (String.eqb k) keys); [apply H|].
  intro Hin. apply in_app_or in Hin. destruct Hin as [Hin|[<-|[]]]; [now apply H|exact I].
Qed.

Section Keys64.

Variable calculateProfit : Double.ProfitFn.
Variable products : list Double.Product.t.

Lemma accumulateItem64_keys (sellerId customerId : string) (acc acc' : Double.Metrics.t)
    (item : Double.Item.t) :
  Double.accumulateItem calculateProfit products sellerId customerId acc item = Ok acc' ->
  map fst (Double.Metrics.sellers acc') = map fst (Double.Metrics.sellers acc)
  /\ map fst (Double.Metrics.customers acc') = map fst (Double.Metrics.customers acc)
  /\ map fst (Double.Metrics.products acc')
     = fold_left setAdd (filter plain [Double.Item.sku item])
                 (map fst (Double.Metrics.products acc)).
Proof.
  unfold Double.accumulateItem.
  destruct (calculateProfit item (Double.findProduct products item)) as [profit|];
    [|discriminate].
  cbn [bind]. destruct (inherited sellerId); [discriminate|].
  destruct (inherited customerId); [discriminate|].
  intros [= <-]. cbn [Double.Metrics.sellers Double.Metrics.customers Double.Metrics.products].
  rewrite !keys_modify. split; [reflexivity|]. split; [reflexivity|].
  cbn [filter]. unfold plain.
  destruct (inherited (Double.Item.sku item)); cbn [negb fold_left]; [reflexivity|].
  rewrite keys_modify. apply ensure_keys.
Qed.

Lemma accumulateItems64_keys (sellerId customerId : string) (items : list Double.Item.t) :
  forall acc acc',
  foldM (Double.accumulateItem calculateProfit products sellerId customerId) items acc
  = Ok acc' ->
  map fst (Double.Metrics.sellers acc') = map fst (Double.Metrics.sellers acc)
  /\ map fst (Double.Metrics.customers acc') = map fst (Double.Metrics.customers acc)
  /\ map fst (Double.Metrics.products acc')
     = fold_left setAdd (filter plain (map Double.Item.sku items))
                 (map fst (Double.Metrics.products acc)).
Proof.
  induction items as [|item items IH]; intros acc acc'; cbn [foldM].
  - intros [= <-]. auto.
  - destruct (Double.accumulateItem _ _ _ _ acc item) as [mid|] eqn:E; [|discriminate].
    cbn [bind]. intro F.
    destruct (accumulateItem64_keys _ _ _ _ _ E) as (S1 & C1 & P1).
    destruct (IH _ _ F) as (S2 & C2 & P2).
    rewrite S2, S1, C2, C1, P2, P1.
    split; [reflexivity|]. split; [reflexivity|].
    change (map Double.Item.sku (item :: items))
      with ([Double.Item.sku item] ++ map Double.Item.sku items).
    now rewrite filter_app, fold_left_app.
Qed.

Lemma accumulateRecords64_keys (records : list Double.PurchaseRecord.t) :
  forall acc acc',
  (forall k, In k (map fst (Double.Metrics.sellers acc)) -> inherited k = false) ->
  (forall k, In k (map fst (Double.Metrics.customers acc)) -> inherited k = false) ->
  foldM (Double.accumulateRecord calculateProfit products) records acc = Ok acc' ->
  map fst (Double.Metrics.sellers acc')
  = fold_left setAdd (filter plain (map Double.PurchaseRecord.seller_id records))
              (map fst (Double.Metrics.sellers acc))
  /\ map fst (Double.Metrics.customers acc')
     = fold_left setAdd (filter plain (map Double.PurchaseRecord.customer_id records))
                 (map fst (Double.Metrics.customers acc))
  /\ map fst (Double.Metrics.products acc')
     = fold_left setAdd
         (filter plain (map Double.Item.sku (flat_map Double.PurchaseRecord.items records)))
         (map fst (Double.Metrics.products acc)).
Proof.
  induction records as [|record records IH]; intros acc acc' Hs Hc; cbn [foldM].
  - intros [= <-]. auto.
  - destruct (Double.accumulateRecord _ _ acc record) as [mid|] eqn:E; [|discriminate].
    cbn [bind]. intro F. unfold Double.accumulateRecord in E. cbv zeta in E.
    destruct (accumulateItems64_keys _ _ _ _ _ E) as (S1 & C1 & P1).
    cbn [Double.Metrics.sellers Double.Metrics.customers Double.Metrics.products]
      in S1, C1, P1.
    rewrite (ensure64_keys _ _ _ Hs) in S1. rewrite (ensure64_keys _ _ _ Hc) in C1.
    destruct (IH mid acc') as (S2 & C2 & P2); [| |exact F|].
    + rewrite S1. now apply setAdd_plain.
    + rewrite C1. now apply setAdd_plain.
    + rewrite S2, S1, C2, C1, P2, P1.
      cbn [map flat_map].
      change (Double.PurchaseRecord.seller_id record
              :: map Double.PurchaseRecord.seller_id records)
        with ([Double.PurchaseRecord.seller_id record]
              ++ map Double.PurchaseRecord.seller_id records).
      change (Double.PurchaseRecord.customer_id record
              :: map Double.PurchaseRecord.customer_id records)
        with ([Double.PurchaseRecord.customer_id record]
              ++ map Double.PurchaseRecord.customer_id records).
      rewrite map_app, !filter_app, !fold_left_app. auto.
Qed.

End Keys64.

(** When [baseMetrics] returns, it has a seller bucket for the seller of
    every record and a customer bucket for its customer, also for a record
    without items, and a product bucket for the sku of every item, known
    to the catalog or not, except for the ids and skus that name a member
    of [Object.prototype], which get none; each kind is enumerated as an
    object enumerates keys created in order of first occurrence. *)
Theorem baseMetrics_binary64_buckets (records : list Double.PurchaseRecord.t)
    (calculateProfit : Double.ProfitFn) (products : list Double.Product.t)
    (m : Double.Metrics.t) :
  Double.baseMetrics records calculateProfit products = Ok m ->
  JsObject.keys (Double.Metrics.sellers m)
  = enumerationOrder
      (firstOccurrences (filter plain (map Double.PurchaseRecord.seller_id records)))
  /\ JsObject.keys (Double.Metrics.customers m)
     = enumerationOrder
         (firstOccurrences (filter plain (map Double.PurchaseRecord.customer_id records)))
  /\ JsObject.keys (Double.Metrics.products m)
     = enumerationOrder
         (firstOccurrences
            (filter plain
                    (map Double.Item.sku (flat_map Double.PurchaseRecord.items records)))).
Proof.
  unfold Double.baseMetrics. intro H.
  destruct (accumulateRecords64_keys calculateProfit products records emptyMetrics64 m)
    as (S & C & P); [intros k []|intros k []|exact H|].
  unfold emptyMetrics64 in S, C, P.
  cbn [Double.Metrics.sellers Double.Metrics.customers Double.Metrics.products
       JsObject.empty map] in S, C, P.
  change (@nil string) with (firstOccurrences []) in S, C, P.
  rewrite setAdd_firstOccurrences in S, C, P. cbn [app] in S, C, P.
  rewrite !keys_enumerationOrder, S, C, P. auto.
Qed.

Lemma baseMetrics_binary64_buckets_witness :
  exists m,
    Double.baseMetrics
      [ saleTo "seller_2" "constructor" "2024-01-09" 0 [];
        saleTo "seller_1" "customer_1" "2024-01-10" 3
               [ unitAt "SKU_404" 1; unitAt "toString" 1; unitAt "7" 1 ] ]
      lenientProfit64 products64 = Ok m
    /\ JsObject.keys (Double.Metrics.sellers m) = [ "seller_2"; "seller_1" ]
    /\ JsObject.keys (Double.Metrics.customers m) = [ "customer_1" ]
    /\ JsObject.keys (Double.Metrics.products m) = [ "7"; "SKU_404" ].
Proof.
  destruct (Double.baseMetrics
              [ saleTo "seller_2" "constructor" "2024-01-09" 0 [];
                saleTo "seller_1" "customer_1" "2024-01-10" 3
                       [ unitAt "SKU_404" 1; unitAt "toString" 1; unitAt "7" 1 ] ]
              lenientProfit64 products64) as [m|] eqn:H;
    [|exfalso; vm_compute in H; discriminate H].
  exists m. split; [reflexivity|].
  destruct (baseMetrics_binary64_buckets _ _ _ _ H) as (S & C & P).
  rewrite S, C, P. repeat split; vm_compute; reflexivity.
Defined.

(** ** The bucket of one seller in [baseMetrics] *)

Lemma totalsOfLines_nil (calculateProfit : Double.ProfitFn)
    (products : list Double.Product.t) :
  totalsOfLines calculateProfit products [] 0%float 0%float.
Proof. split; [reflexivity|]. exists []. split; [constructor|reflexivity]. Qed.

Lemma totalsOfLines_snoc (calculateProfit : Double.ProfitFn)
    (products : list Double.Product.t) (lines : list Double.Item.t)
    (revenue profit : float) (item : Double.Item.t) (p : float) :
  totalsOfLines calculateProfit products lines revenue profit ->
  calculateProfit item (Double.findProduct products item) = Ok p ->
  totalsOfLines calculateProfit products (lines ++ [item])
                (revenue + Double.lineRevenue item)%float (profit + p)%float.
Proof.
  intros (Hrev & profits & Hall & Hprofit) Hp. split.
  - rewrite map_app, fold_left_app, <- Hrev. reflexivity.
  - exists (profits ++ [p]). split.
    + apply Forall2_app; [exact Hall|]. constructor; [exact Hp|constructor].
    + rewrite fold_left_app, <- Hprofit. reflexivity.
Qed.

Section SellerBucket64.

Variable calculateProfit : Double.ProfitFn.
Variable products : list Double.Product.t.

Let holds := sellerHolds calculateProfit products.

Lemma accumulateItems64_seller (sellerId customerId : string) (items : list Double.Item.t) :
  forall acc acc',
  foldM (Double.accumulateItem calculateProfit products sellerId customerId) items acc
  = Ok acc' ->
  (forall s, s <> sellerId ->
             JsObject.get (Double.Metrics.sellers acc') s
             = JsObject.get (Double.Metrics.sellers acc) s)
  /\ (items <> [] -> inherited sellerId = false)
  /\ (forall bucket lines,
        JsObject.get (Double.Metrics.sellers acc) sellerId = Some bucket ->
        holds lines bucket ->
        exists bucket',
          JsObject.get (Double.Metrics.sellers acc') sellerId = Some bucket'
          /\ holds (lines ++ items) bucket')
  /\ (JsObject.get (Double.Metrics.sellers acc) sellerId = None ->
      JsObject.get (Double.Metrics.sellers acc') sellerId = None).
Proof.
  induction items as [|item items IH]; intros acc acc'; cbn [foldM].
  - intros [= <-]. split; [reflexivity|]. split; [congruence|]. split; [|auto].
    intros bucket lines G Hb. exists bucket. now rewrite app_nil_r.
  - destruct (Double.accumulateItem _ _ _ _ acc item) as [mid|] eqn:E; [|discriminate].
    cbn [bind]. intro F. destruct (IH _ _ F) as (Other & _ & Same & Absent). clear IH F.
    unfold Double.accumulateItem in E.
    destruct (calculateProfit item (Double.findProduct products item)) as [profit|] eqn:Hp;
      [|discriminate].
    cbn [bind] in E. destruct (inherited sellerId) eqn:Is; [discriminate|].
    destruct (inherited customerId); [discriminate|].
    injection E as <-. cbn [Double.Metrics.sellers] in Other, Same, Absent.
    split; [|split; [reflexivity|split]].
    + intros s Hs. rewrite (Other s Hs), get_modify.
      destruct (String.eqb_spec sellerId s) as [->|_]; [contradiction|reflexivity].
    + intros bucket lines G [Hitems Htotals].
      destruct (Same _ (lines ++ [item])
                  (eq_trans (get_modify _ _ _ _)
                     ltac:(rewrite String.eqb_refl, G; reflexivity)))
        as (bucket' & G' & Hb').
      * split; [cbn [Double.SellerAggregate.items]; now rewrite Hitems|].
        cbn [Double.SellerAggregate.revenue Double.SellerAggregate.profit].
        exact (totalsOfLines_snoc _ _ _ _ _ _ _ Htotals Hp).
      * exists bucket'. split; [exact G'|]. now rewrite <- app_assoc in Hb'.
    + intro G. apply Absent. rewrite get_modify, String.eqb_refl, G. reflexivity.
Qed.

Lemma accumulateRecord64_seller (acc acc' : Double.Metrics.t)
    (record : Double.PurchaseRecord.t) :
  Double.accumulateRecord calculateProfit products acc record = Ok acc' ->
  (forall s, s <> Double.PurchaseRecord.seller_id record ->
             JsObject.get (Double.Metrics.sellers acc') s
             = JsObject.get (Double.Metrics.sellers acc) s)
  /\ match JsObject.get (Double.Metrics.sellers acc)
                        (Double.PurchaseRecord.seller_id record) with
     | Some bucket =>
         forall lines,
           holds lines bucket ->
           exists bucket',
             JsObject.get (Double.Metrics.sellers acc')
                          (Double.PurchaseRecord.seller_id record) = Some bucket'
             /\ holds (lines ++ Double.PurchaseRecord.items record) bucket'
     | None =>
         if inherited (Double.PurchaseRecord.seller_id record)
         then JsObject.get (Double.Metrics.sellers acc')
                           (Double.PurchaseRecord.seller_id record) = None
              /\ Double.PurchaseRecord.items record = []
         else exists bucket',
                JsObject.get (Double.Metrics.sellers acc')
                             (Double.PurchaseRecord.seller_id record) = Some bucket'
                /\ holds (Double.PurchaseRecord.items record) bucket'
     end.
Proof.
  unfold Double.accumulateRecord. cbv zeta. intro F.
  destruct (accumulateItems64_seller _ _ _ _ _ F) as (Other & Plain & Same & Absent).
  clear F. cbn [Double.Metrics.sellers] in Other, Same, Absent.
  set (s0 := Double.PurchaseRecord.seller_id record) in *.
  destruct (JsObject.get (Double.Metrics.sellers acc) s0) as [bucket|] eqn:G0.
  - split; [exact Other|]. intros lines Hl. exact (Same bucket lines G0 Hl).
  - destruct (inherited s0) eqn:I.
    + split; [exact Other|]. split; [exact (Absent G0)|].
      destruct (Double.PurchaseRecord.items record) as [|item items]; [reflexivity|].
      assert (C : true = false) by (apply Plain; discriminate). discriminate C.
    + split.
      * intros s Hs. rewrite (Other s Hs), get_set.
        destruct (String.eqb_spec s0 s) as [E|_]; [now symmetry in E|reflexivity].
      * destruct (Same _ [] (get_set_same _ _ _)) as (bucket' & G' & Hb').
        { split; [reflexivity|apply totalsOfLines_nil]. }
        exists bucket'. auto.
Qed.

Lemma recordsOfSeller_snoc (s : string) (before : list Double.PurchaseRecord.t)
    (record : Double.PurchaseRecord.t) :
  recordsOfSeller s (before ++ [record])
  = recordsOfSeller s before
    ++ (if String.eqb (Double.PurchaseRecord.seller_id record) s then [record] else []).
Proof. unfold recordsOfSeller. now rewrite filter_app. Qed.

Lemma accumulateRecords64_seller (records : list Double.PurchaseRecord.t) :
  forall before acc m,
  (forall s,
     match JsObject.get (Double.Metrics.sellers acc) s with
     | Some bucket =>
         inherited s = false
         /\ recordsOfSeller s before <> []
         /\ holds (flat_map Double.PurchaseRecord.items (recordsOfSeller s before)) bucket
     | None =>
         forall r, In r (recordsOfSeller s before) ->
                   inherited s = true /\ Double.PurchaseRecord.items r = []
     end) ->
  foldM (Double.accumulateRecord calculateProfit products) records acc = Ok m ->
  forall s,
    match JsObject.get (Double.Metrics.sellers m) s with
    | Some bucket =>
        inherited s = false
        /\ recordsOfSeller s (before ++ records) <> []
        /\ holds (flat_map Double.PurchaseRecord.items (recordsOfSeller s (before ++ records)))
                 bucket
    | None =>
        forall r, In r (recordsOfSeller s (before ++ records)) ->
                  inherited s = true /\ Double.PurchaseRecord.items r = []
    end.
Proof.
  induction records as [|record records IH]; intros before acc m Inv; cbn [foldM].
  - intros [= <-]. rewrite app_nil_r. exact Inv.
  - destruct (Double.accumulateRecord _ _ acc record) as [mid|] eqn:E; [|discriminate].
    cbn [bind]. intro F.
    replace (before ++ record :: records) with ((before ++ [record]) ++ records)
      by now rewrite <- app_assoc.
    apply (IH _ mid m); [|exact F]. clear IH F.
    destruct (accumulateRecord64_seller _ _ _ E) as [Other Same].
    intro s. rewrite recordsOfSeller_snoc.
    destruct (String.eqb_spec (Double.PurchaseRecord.seller_id record) s) as [<-|Hne].
    + specialize (Inv (Double.PurchaseRecord.seller_id record)).
      destruct (JsObject.get (Double.Metrics.sellers acc)
                             (Double.PurchaseRecord.seller_id record)) as [bucket|].
      * destruct Inv as (Hplain & Hne & Hb).
        destruct (Same _ Hb) as (bucket' & -> & Hb').
        split; [exact Hplain|]. split; [now destruct (recordsOfSeller _ before)|].
        rewrite flat_map_app. cbn [flat_map]. now rewrite app_nil_r.
      * destruct (inherited (Double.PurchaseRecord.seller_id record)) eqn:I.
        -- destruct Same as [-> Hnone]. intros r Hr.
           apply in_app_or in Hr. destruct Hr as [Hr|[<-|[]]]; [now apply Inv|auto].
        -- destruct Same as (bucket' & -> & Hb').
           assert (Hnil : recordsOfSeller (Double.PurchaseRecord.seller_id record) before
                          = []).
           { destruct (recordsOfSeller _ before) as [|r rest]; [reflexivity|].
             destruct (Inv r (or_introl eq_refl)). congruence. }
           rewrite Hnil. cbn [app flat_map]. rewrite app_nil_r.
           split; [reflexivity|]. split; [discriminate|exact Hb'].
    + rewrite (Other s (not_eq_sym Hne)), app_nil_r. apply Inv.
Qed.

End SellerBucket64.

(** When [baseMetrics] returns, a seller has a bucket exactly when a
    record names it and its id names no member of [Object.prototype] (for
    which the code returns only if the records that name it have no
    items).  The bucket holds the item lines of the seller's records in
    their order: they are its [items], its revenue is the sum of
    sale_price * quantity * (1 - discount / 100) over them and its profit
    the sum of the profits the strategy returned on them, each sum added
    line after line in binary64 from 0. *)
Theorem baseMetrics_binary64_seller_bucket
    (records : list Double.PurchaseRecord.t) (calculateProfit : Double.ProfitFn)
    (products : list Double.Product.t) (m : Double.Metrics.t) (s : string) :
  Double.baseMetrics records calculateProfit products = Ok m ->
  match JsObject.get (Double.Metrics.sellers m) s with
  | Some bucket =>
      inherited s = false
      /\ recordsOfSeller s records <> []
      /\ sellerHolds calculateProfit products
                     (flat_map Double.PurchaseRecord.items (recordsOfSeller s records))
                     bucket
  | None =>
      forall r, In r (recordsOfSeller s records) ->
                inherited s = true /\ Double.PurchaseRecord.items r = []
  end.
Proof.
  unfold Double.baseMetrics. intro F.
  apply (accumulateRecords64_seller calculateProfit products records [] emptyMetrics64 m);
    [|exact F].
  intros s0 r [].
Qed.

Lemma baseMetrics_binary64_seller_bucket_witness :
  exists m bucket,
    Double.baseMetrics roundingRecords Double.simpleProfit products64 = Ok m
    /\ JsObject.get (Double.Metrics.sellers m) "seller_1" = Some bucket
    /\ Double.SellerAggregate.items bucket = [ unitAt "SKU_001" 0.1; unitAt "SKU_002" 0.3 ]
    /\ Double.SellerAggregate.revenue bucket = 0.4%float
    /\ Double.SellerAggregate.profit bucket = 0.14999999999999997%float.
Proof.
  destruct (Double.baseMetrics roundingRecords Double.simpleProfit products64) as [m|] eqn:H;
    [|exfalso; vm_compute in H; discriminate H].
  pose proof (baseMetrics_binary64_seller_bucket roundingRecords Double.simpleProfit
                products64 m "seller_1" H) as B.
  destruct (JsObject.get (Double.Metrics.sellers m) "seller_1") as [bucket|] eqn:G.
  - exists m, bucket. split; [reflexivity|]. split; [exact G|].
    destruct B as (_ & _ & Hitems & Hrev & profits & Hall & Hprofit).
    split; [exact Hitems|]. split; [rewrite Hrev; vm_compute; reflexivity|].
    vm_compute in H. injection H as <-. vm_compute in G. injection G as <-.
    vm_compute. reflexivity.
  - exfalso. destruct (B (saleTo "seller_1" "customer_1" "2024-01-10" 0.4
                                 [ unitAt "SKU_001" 0.1; unitAt "SKU_002" 0.3 ]))
      as [I _]; [left; reflexivity|]. vm_compute in I. discriminate I.
Defined.

(** ** The bucket of one customer in [baseMetrics] *)

Section CustomerBucket64.

Variable calculateProfit : Double.ProfitFn.
Variable products : list Double.Product.t.

Let holds := customerHolds calculateProfit products.

Lemma accumulateItems64_customer (sellerId customerId : string) (items : list Double.Item.t) :
  forall acc acc',
  foldM (Double.accumulateItem calculateProfit products sellerId customerId) items acc
  = Ok acc' ->
  (forall s, s <> customerId ->
             JsObject.get (Double.Metrics.customers acc') s
             = JsObject.get (Double.Metrics.customers acc) s)
  /\ (items <> [] -> inherited customerId = false)
  /\ (forall bucket lines,
        JsObject.get (Double.Metrics.customers acc) customerId = Some bucket ->
        holds lines bucket ->
        exists bucket',
          JsObject.get (Double.Metrics.customers acc') customerId = Some bucket'
          /\ holds (lines ++ items) bucket')
  /\ (JsObject.get (Double.Metrics.customers acc) customerId = None ->
      JsObject.get (Double.Metrics.customers acc') customerId = None).
Proof.
  induction items as [|item items IH]; intros acc acc'; cbn [foldM].
  - intros [= <-]. split; [reflexivity|]. split; [congruence|]. split; [|auto].
    intros bucket lines G Hb. exists bucket. now rewrite app_nil_r.
  - destruct (Double.accumulateItem _ _ _ _ acc item) as [mid|] eqn:E; [|discriminate].
    cbn [bind]. intro F. destruct (IH _ _ F) as (Other & _ & Same & Absent). clear IH F.
    unfold Double.accumulateItem in E.
    destruct (calculateProfit item (Double.findProduct products item)) as [profit|] eqn:Hp;
      [|discriminate].
    cbn [bind] in E. destruct (inherited sellerId); [discriminate|].
    destruct (inherited customerId) eqn:Ic; [discriminate|].
    injection E as <-. cbn [Double.Metrics.customers] in Other, Same, Absent.
    split; [|split; [reflexivity|split]].
    + intros s Hs. rewrite (Other s Hs), get_modify.
      destruct (String.eqb_spec customerId s) as [->|_]; [contradiction|reflexivity].
    + intros bucket lines G Htotals.
      destruct (Same _ (lines ++ [item])
                  (eq_trans (get_modify _ _ _ _)
                     ltac:(rewrite String.eqb_refl, G; reflexivity)))
        as (bucket' & G' & Hb').
      * unfold holds, customerHolds.
        cbn [Double.CustomerAggregate.revenue Double.CustomerAggregate.profit].
        exact (totalsOfLines_snoc _ _ _ _ _ _ _ Htotals Hp).
      * exists bucket'. split; [exact G'|]. now rewrite <- app_assoc in Hb'.
    + intro G. apply Absent. rewrite get_modify, String.eqb_refl, G. reflexivity.
Qed.

Lemma accumulateRecord64_customer (acc acc' : Double.Metrics.t)
    (record : Double.PurchaseRecord.t) :
  Double.accumulateRecord calculateProfit products acc record = Ok acc' ->
  (forall s, s <> Double.PurchaseRecord.customer_id record ->
             JsObject.get (Double.Metrics.customers acc') s
             = JsObject.get (Double.Metrics.customers acc) s)
  /\ match JsObject.get (Double.Metrics.customers acc)
                        (Double.PurchaseRecord.customer_id record) with
     | Some bucket =>
         forall lines,
           holds lines bucket ->
           exists bucket',
             JsObject.get (Double.Metrics.customers acc')
                          (Double.PurchaseRecord.customer_id record) = Some bucket'
             /\ holds (lines ++ Double.PurchaseRecord.items record) bucket'
     | None =>
         if inherited (Double.PurchaseRecord.customer_id record)
         then JsObject.get (Double.Metrics.customers acc')
                           (Double.PurchaseRecord.customer_id record) = None
              /\ Double.PurchaseRecord.items record = []
         else exists bucket',
                JsObject.get (Double.Metrics.customers acc')
                             (Double.PurchaseRecord.customer_id record) = Some bucket'
                /\ holds (Double.PurchaseRecord.items record) bucket'
     end.
Proof.
  unfold Double.accumulateRecord. cbv zeta. intro F.
  destruct (accumulateItems64_customer _ _ _ _ _ F) as (Other & Plain & Same & Absent).
  clear F. cbn [Double.Metrics.customers] in Other, Same, Absent.
  set (s0 := Double.PurchaseRecord.customer_id record) in *.
  destruct (JsObject.get (Double.Metrics.customers acc) s0) as [bucket|] eqn:G0.
  - split; [exact Other|]. intros lines Hl. exact (Same bucket lines G0 Hl).
  - destruct (inherited s0) eqn:I.
    + split; [exact Other|]. split; [exact (Absent G0)|].
      destruct (Double.PurchaseRecord.items record) as [|item items]; [reflexivity|].
      assert (C : true = false) by (apply Plain; discriminate). discriminate C.
    + split.
      * intros s Hs. rewrite (Other s Hs), get_set.
        destruct (String.eqb_spec s0 s) as [E|_]; [now symmetry in E|reflexivity].
      * destruct (Same _ [] (get_set_same _ _ _)) as (bucket' & G' & Hb').
        { apply totalsOfLines_nil. }
        exists bucket'. auto.
Qed.

Lemma recordsOfCustomer_snoc (s : string) (before : list Double.PurchaseRecord.t)
    (record : Double.PurchaseRecord.t) :
  recordsOfCustomer s (before ++ [record])
  = recordsOfCustomer s before
    ++ (if String.eqb (Double.PurchaseRecord.customer_id record) s then [record] else []).
Proof. unfold recordsOfCustomer. now rewrite filter_app. Qed.

Lemma accumulateRecords64_customer (records : list Double.PurchaseRecord.t) :
  forall before acc m,
  (forall s,
     match JsObject.get (Double.Metrics.customers acc) s with
     | Some bucket =>
         inherited s = false
         /\ recordsOfCustomer s before <> []
         /\ holds (flat_map Double.PurchaseRecord.items (recordsOfCustomer s before)) bucket
     | None =>
         forall r, In r (recordsOfCustomer s before) ->
                   inherited s = true /\ Double.PurchaseRecord.items r = []
     end) ->
  foldM (Double.accumulateRecord calculateProfit products) records acc = Ok m ->
  forall s,
    match JsObject.get (Double.Metrics.customers m) s with
    | Some bucket =>
        inherited s = false
        /\ recordsOfCustomer s (before ++ records) <> []
        /\ holds (flat_map Double.PurchaseRecord.items (recordsOfCustomer s (before ++ records)))
                 bucket
    | None =>
        forall r, In r (recordsOfCustomer s (before ++ records)) ->
                  inherited s = true /\ Double.PurchaseRecord.items r = []
    end.
Proof.
  induction records as [|record records IH]; intros before acc m Inv; cbn [foldM].
  - intros [= <-]. rewrite app_nil_r. exact Inv.
  - destruct (Double.accumulateRecord _ _ acc record) as [mid|] eqn:E; [|discriminate].
    cbn [bind]. intro F.
    replace (before ++ record :: records) with ((before ++ [record]) ++ records)
      by now rewrite <- app_assoc.
    apply (IH _ mid m); [|exact F]. clear IH F.
    destruct (accumulateRecord64_customer _ _ _ E) as [Other Same].
    intro s. rewrite recordsOfCustomer_snoc.
    destruct (String.eqb_spec (Double.PurchaseRecord.customer_id record) s) as [<-|Hne].
    + specialize (Inv (Double.PurchaseRecord.customer_id record)).
      destruct (JsObject.get (Double.Metrics.customers acc)
                             (Double.PurchaseRecord.customer_id record)) as [bucket|].
      * destruct Inv as (Hplain & Hne & Hb).
        destruct (Same _ Hb) as (bucket' & -> & Hb').
        split; [exact Hplain|]. split; [now destruct (recordsOfCustomer _ before)|].
        rewrite flat_map_app. cbn [flat_map]. now rewrite app_nil_r.
      * destruct (inherited (Double.PurchaseRecord.customer_id record)) eqn:I.
        -- destruct Same as [-> Hnone]. intros r Hr.
           apply in_app_or in Hr. destruct Hr as [Hr|[<-|[]]]; [now apply Inv|auto].
        -- destruct Same as (bucket' & -> & Hb').
           assert (Hnil : recordsOfCustomer (Double.PurchaseRecord.customer_id record) before
                          = []).
           { destruct (recordsOfCustomer _ before) as [|r rest]; [reflexivity|].
             destruct (Inv r (or_introl eq_refl)). congruence. }
           rewrite Hnil. cbn [app flat_map]. rewrite app_nil_r.
           split; [reflexivity|]. split; [discriminate|exact Hb'].
    + rewrite (Other s (not_eq_sym Hne)), app_nil_r. apply Inv.
Qed.

End CustomerBucket64.

(** When [baseMetrics] returns, a customer has a bucket exactly when a
    record names it and its id names no member of [Object.prototype] (for
    which the code returns only if the records that name it have no
    items).  The revenue of the bucket is the sum of
    sale_price * quantity * (1 - discount / 100) over the item lines of
    the customer's records, in their order, and its profit the sum of the
    profits the strategy returned on them, each sum added line after line
    in binary64 from 0. *)
Theorem baseMetrics_binary64_customer_bucket
    (records : list Double.PurchaseRecord.t) (calculateProfit : Double.ProfitFn)
    (products : list Double.Product.t) (m : Double.Metrics.t) (c : string) :
  Double.baseMetrics records calculateProfit products = Ok m ->
  match JsObject.get (Double.Metrics.customers m) c with
  | Some bucket =>
      inherited c = false
      /\ recordsOfCustomer c records <> []
      /\ customerHolds calculateProfit products
                       (flat_map Double.PurchaseRecord.items (recordsOfCustomer c records))
                       bucket
  | None =>
      forall r, In r (recordsOfCustomer c records) ->
                inherited c = true /\ Double.PurchaseRecord.items r = []
  end.
Proof.
  unfold Double.baseMetrics. intro F.
  apply (accumulateRecords64_customer calculateProfit products records [] emptyMetrics64 m);
    [|exact F].
  intros s0 r [].
Qed.

Lemma baseMetrics_binary64_customer_bucket_witness :
  exists m bucket,
    Double.baseMetrics marketRecords Double.simpleProfit products64 = Ok m
    /\ JsObject.get (Double.Metrics.customers m) "customer_1" = Some bucket
    /\ Double.CustomerAggregate.revenue bucket = (0.2 + 0.05)%float
    /\ customerHolds Double.simpleProfit products64
                     [ unitAt "SKU_001" 0.2; unitAt "SKU_001" 0.05 ] bucket.
Proof.
  destruct (Double.baseMetrics marketRecords Double.simpleProfit products64) as [m|] eqn:H;
    [|exfalso; vm_compute in H; discriminate H].
  pose proof (baseMetrics_binary64_customer_bucket marketRecords Double.simpleProfit
                products64 m "customer_1" H) as B.
  destruct (JsObject.get (Double.Metrics.customers m) "customer_1") as [bucket|] eqn:G.
  - exists m, bucket. split; [reflexivity|]. split; [exact G|].
    destruct B as (_ & _ & Hb). split; [|exact Hb].
    destruct Hb as [Hrev _]. rewrite Hrev. vm_compute. reflexivity.
  - exfalso. destruct (B (saleTo "seller_1" "customer_1" "2024-01-10" 0.2
                                 [ unitAt "SKU_001" 0.2 ]))
      as [I _]; [left; reflexivity|]. vm_compute in I. discriminate I.
Defined.

(** ** The figures of a report of [analyzeSalesData] *)

Lemma insertSorted64_perm {A} (cmp : A -> A -> float) (x : A) (l : list A) :
  Permutation (Double.insertSorted cmp x l) (x :: l).
Proof.
  induction l as [|y l IH]; cbn [Double.insertSorted]; [reflexivity|].
  destruct (0 <? cmp x y)%float; [|reflexivity].
  rewrite IH. apply perm_swap.
Qed.

Lemma sort64_perm {A} (cmp : A -> A -> float) (l : list A) :
  Permutation (Double.sort cmp l) l.
Proof.
  unfold Double.sort. induction l as [|x l IH]; cbn [fold_right]; [reflexivity|].
  rewrite insertSorted64_perm. now constructor.
Qed.

Lemma plainRecords64_check (records : list Double.PurchaseRecord.t) :
  plainRecords64b records = true -> plainRecords64 records.
Proof.
  unfold plainRecords64b. intros H record Hr. rewrite forallb_forall in H.
  specialize (H record Hr). apply andb_prop in H. destruct H as [Hs Hi].
  split; [now apply negb_true_iff|].
  intros item Hitem. rewrite forallb_forall in Hi. now apply negb_true_iff, Hi.
Qed.

Lemma indexProducts64_known (products : list Double.Product.t) (item : Double.Item.t) :
  match JsObject.get (Double.indexProducts products) (Double.Item.sku item) with
  | Some _ => true
  | None => false
  end = inCatalog products item.
Proof.
  unfold Double.indexProducts, inCatalog. rewrite fromEntries_known, map_map. reflexivity.
Qed.

Lemma indexProducts64_In (products : list Double.Product.t) (k : string)
    (product : Double.Product.t) :
  JsObject.get (Double.indexProducts products) k = Some product ->
  In product products /\ Double.Product.sku product = k.
Proof.
  unfold Double.indexProducts. intro H. apply get_fromEntries_In in H.
  apply in_map_iff in H. destruct H as (p & E & Hp). injection E as <- <-. auto.
Qed.

Lemma indexSellers64_ref (sellerStats : list Double.SellerStat.t) (k : string) (ref : nat) :
  JsObject.get (Double.indexSellers sellerStats) k = Some ref ->
  nth_error (map Double.SellerStat.sellerId sellerStats) ref = Some k.
Proof.
  unfold Double.indexSellers. intro H. apply get_fromEntries_In in H.
  rewrite <- (length_map Double.SellerStat.sellerId) in H.
  apply In_combine_seq in H. destruct H as [_ H]. now rewrite Nat.sub_0_r in H.
Qed.

Section Figures64.

Variable sellerIndex : JsObject.t nat.
Variable products : list Double.Product.t.
Variable calculateRevenue : Double.RevenueFn.

Let productIndex := Double.indexProducts products.

Lemma collectItems64_other (ref j : nat) (items : list Double.Item.t) :
  j <> ref ->
  forall sellerStats sellerStats',
  foldM (Double.collectItem productIndex calculateRevenue ref) items sellerStats
  = Ok sellerStats' ->
  nth_error sellerStats' j = nth_error sellerStats j.
Proof.
  intro Hne. induction items as [|item items IH]; intros sellerStats sellerStats'; cbn [foldM].
  - now intros [= <-].
  - destruct (Double.collectItem _ _ ref sellerStats item) as [mid|] eqn:E; [|discriminate].
    cbn [bind]. intro F. rewrite (IH _ _ F). clear F IH.
    unfold Double.collectItem in E.
    destruct (JsObject.get productIndex (Double.Item.sku item)) as [product|];
      [|now injection E as <-].
    destruct (calculateRevenue item product) as [revenue|]; [|discriminate].
    cbn [bind] in E. injection E as <-. rewrite nth_error_mutate.
    destruct (Nat.eqb_spec ref j) as [->|_]; [contradiction|reflexivity].
Qed.

Lemma collectItems64_at (ref : nat) (items : list Double.Item.t) :
  forall sellerStats sellerStats' seller,
  foldM (Double.collectItem productIndex calculateRevenue ref) items sellerStats
  = Ok sellerStats' ->
  nth_error sellerStats ref = Some seller ->
  exists seller' profits,
    nth_error sellerStats' ref = Some seller'
    /\ Double.SellerStat.sellerId seller' = Double.SellerStat.sellerId seller
    /\ Double.SellerStat.sales_count seller' = Double.SellerStat.sales_count seller
    /\ Double.SellerStat.revenue seller' = Double.SellerStat.revenue seller
    /\ Forall2 (lineProfit products calculateRevenue) (filter (inCatalog products) items)
               profits
    /\ Double.SellerStat.profit seller'
       = fold_left add profits (Double.SellerStat.profit seller).
Proof.
  induction items as [|item items IH]; intros sellerStats sellerStats' seller; cbn [foldM].
  - intros [= <-] H. exists seller, []. cbn [filter fold_left].
    repeat split; [exact H|constructor].
  - destruct (Double.collectItem _ _ ref sellerStats item) as [mid|] eqn:E; [|discriminate].
    cbn [bind]. intros F H. unfold Double.collectItem in E. cbn [filter].
    rewrite <- indexProducts64_known. fold productIndex.
    destruct (JsObject.get productIndex (Double.Item.sku item)) as [product|] eqn:G.
    + destruct (calculateRevenue item product) as [revenue|] eqn:R; [|discriminate].
      cbn [bind] in E. injection E as <-.
      set (p := (revenue - Double.Product.purchase_price product
                           * Double.Item.quantity item)%float) in *.
      assert (H1 : nth_error (mutate ref (Double.countItem item p) sellerStats) ref
                   = Some (Double.countItem item p seller))
        by now rewrite nth_error_mutate, Nat.eqb_refl, H.
      destruct (IH _ _ _ F H1) as (seller' & profits & N & I & C & Rv & Hall & P).
      exists seller', (p :: profits).
      cbn [Double.countItem Double.SellerStat.sellerId Double.SellerStat.sales_count
           Double.SellerStat.revenue Double.SellerStat.profit] in I, C, Rv, P.
      split; [exact N|]. split; [exact I|]. split; [exact C|]. split; [exact Rv|].
      split; [|exact P].
      constructor; [|exact Hall].
      destruct (indexProducts64_In _ _ _ G) as [Hin Hsku].
      exists product, revenue. auto.
    + injection E as <-. exact (IH _ _ _ F H).
Qed.

(** After the loop the seller at position [j] has gained one sale, the
    total amount and the item profits of every record the index sends to
    it, and nothing else. *)
Lemma collectRecords64_at (j : nat) (records : list Double.PurchaseRecord.t) :
  forall sellerStats sellerStats' seller,
  foldM (Double.collectRecord sellerIndex productIndex calculateRevenue) records sellerStats
  = Ok sellerStats' ->
  nth_error sellerStats j = Some seller ->
  exists seller' profits,
    nth_error sellerStats' j = Some seller'
    /\ Double.SellerStat.sellerId seller' = Double.SellerStat.sellerId seller
    /\ Double.SellerStat.sales_count seller'
       = (Double.SellerStat.sales_count seller
          + Z.of_nat (length (filter (refersTo64 sellerIndex j) records)))%Z
    /\ Double.SellerStat.revenue seller'
       = fold_left add
           (map Double.PurchaseRecord.total_amount
                (filter (refersTo64 sellerIndex j) records))
           (Double.SellerStat.revenue seller)
    /\ Forall2 (lineProfit products calculateRevenue)
               (filter (inCatalog products)
                       (flat_map Double.PurchaseRecord.items
                                 (filter (refersTo64 sellerIndex j) records)))
               profits
    /\ Double.SellerStat.profit seller'
       = fold_left add profits (Double.SellerStat.profit seller).
Proof.
  induction records as [|record records IH]; intros sellerStats sellerStats' seller;
    cbn [foldM filter].
  - intros [= <-] H. exists seller, []. cbn [length map flat_map filter fold_left Z.of_nat].
    repeat split; [exact H|lia|constructor].
  - destruct (Double.collectRecord _ _ _ sellerStats record) as [mid|] eqn:E; [|discriminate].
    cbn [bind]. intros F H. unfold Double.collectRecord in E.
    destruct (refersTo64 sellerIndex j record) eqn:Hit; unfold refersTo64 in Hit;
      destruct (JsObject.get sellerIndex (Double.PurchaseRecord.seller_id record)) as [ref|];
      try discriminate Hit.
    + apply Nat.eqb_eq in Hit. subst ref.
      assert (H1 : nth_error (mutate j (Double.countSale record) sellerStats) j
                   = Some (Double.countSale record seller))
        by now rewrite nth_error_mutate, Nat.eqb_refl, H.
      destruct (collectItems64_at _ _ _ _ _ E H1)
        as (s1 & profits1 & N1 & I1 & C1 & R1 & A1 & P1).
      destruct (IH _ _ _ F N1) as (seller' & profits & N & I & C & R & A & P).
      exists seller', (profits1 ++ profits).
      cbn [Double.countSale Double.SellerStat.sellerId Double.SellerStat.sales_count
           Double.SellerStat.revenue Double.SellerStat.profit] in I1, C1, R1, P1.
      split; [exact N|]. split; [congruence|].
      split; [rewrite C, C1; cbn [length]; lia|].
      split; [cbn [map fold_left]; rewrite R, R1; reflexivity|].
      split.
      * cbn [flat_map]. rewrite filter_app. now apply Forall2_app.
      * rewrite fold_left_app, P, P1. reflexivity.
    + apply Nat.eqb_neq in Hit.
      assert (H1 : nth_error mid j = Some seller).
      { rewrite (collectItems64_other ref j _ (not_eq_sym Hit) _ _ E), nth_error_mutate.
        destruct (Nat.eqb_spec ref j) as [->|_]; [contradiction|exact H]. }
      exact (IH _ _ _ F H1).
    + injection E as <-. exact (IH _ _ _ F H).
Qed.

End Figures64.

(** With distinct seller identifiers the index sends to a seller exactly
    the records that name it. *)
Lemma refersTo64_recordsOfSeller (sellerStats : list Double.SellerStat.t) (j : nat)
    (seller : Double.SellerStat.t) (records : list Double.PurchaseRecord.t) :
  NoDup (map Double.SellerStat.sellerId sellerStats) ->
  nth_error sellerStats j = Some seller ->
  filter (refersTo64 (Double.indexSellers sellerStats) j) records
  = recordsOfSeller (Double.SellerStat.sellerId seller) records.
Proof.
  intros Hnd Hj. unfold recordsOfSeller. apply filter_ext. intro record. unfold refersTo64.
  assert (Ij : nth_error (map Double.SellerStat.sellerId sellerStats) j
               = Some (Double.SellerStat.sellerId seller))
    by (rewrite nth_error_map, Hj; reflexivity).
  destruct (JsObject.get _ (Double.PurchaseRecord.seller_id record)) as [ref|] eqn:G.
  - apply indexSellers64_ref in G.
    destruct (Nat.eqb_spec ref j) as [->|Hne].
    + rewrite Ij in G. injection G as <-. symmetry. apply String.eqb_refl.
    + symmetry. apply String.eqb_neq. intro Heq. apply Hne.
      apply (proj1 (NoDup_nth_error _) Hnd).
      * apply nth_error_Some. rewrite G. discriminate.
      * rewrite G, Ij. now rewrite Heq.
  - symmetry. apply String.eqb_neq. intro Heq.
    assert (K : existsb (String.eqb (Double.PurchaseRecord.seller_id record))
                        (map Double.SellerStat.sellerId sellerStats) = true).
    { apply existsb_eqb_In. rewrite Heq. eapply nth_error_In. exact Ij. }
    unfold Double.indexSellers in G.
    pose proof (fromEntries_known
                  (combine (map Double.SellerStat.sellerId sellerStats)
                           (seq 0 (length sellerStats)))
                  (Double.PurchaseRecord.seller_id record)) as Kn.
    rewrite G in Kn.
    rewrite <- (length_map Double.SellerStat.sellerId), map_fst_combine_seq in Kn. congruence.
Qed.

Lemma assignBonus64_fields (calculateBonus : Double.BonusFn) (total index : nat)
    (seller assigned : Double.SellerStat.t) :
  Double.assignBonus calculateBonus total (index, seller) = Ok assigned ->
  Double.SellerStat.sellerId assigned = Double.SellerStat.sellerId seller
  /\ Double.SellerStat.revenue assigned = Double.SellerStat.revenue seller
  /\ Double.SellerStat.profit assigned = Double.SellerStat.profit seller
  /\ Double.SellerStat.sales_count assigned = Double.SellerStat.sales_count seller
  /\ calculateBonus (Double.ASeller seller) (Double.ANumber (Z.of_nat index))
                    (Double.ANumber (Z.of_nat total))
     = Ok (Double.SellerStat.bonus assigned).
Proof.
  unfold Double.assignBonus. cbn [fst snd].
  destruct (calculateBonus _ _ _) as [bonus|]; [|discriminate].
  cbn [bind]. intros [= <-]. cbn. repeat split; reflexivity.
Qed.

(** The stages of lines 295-364 when the call returns. *)
Lemma rankSellers64_stages
    (customers : list Customer.t) (products : list Double.Product.t)
    (sellers : list Seller.t) (purchase_records : list Double.PurchaseRecord.t)
    (calculateRevenue : Double.RevenueFn) (calculateBonus : Double.BonusFn)
    (reports : list Double.Report.t) :
  Double.rankSellers customers products sellers purchase_records calculateRevenue
                     calculateBonus = Ok reports ->
  exists collected assigned,
    foldM (Double.collectRecord (Double.indexSellers (map Double.initialStat sellers))
                                (Double.indexProducts products) calculateRevenue)
          purchase_records (map Double.initialStat sellers) = Ok collected
    /\ reports = map Double.report assigned
    /\ length assigned = length collected
    /\ forall i seller a,
         nth_error (Double.sort (fun a b => (Double.SellerStat.profit b
                                             - Double.SellerStat.profit a)%float)
                                collected) i = Some seller ->
         nth_error assigned i = Some a ->
         Double.assignBonus calculateBonus (length collected) (i, seller) = Ok a.
Proof.
  unfold Double.rankSellers.
  destruct (foldM _ purchase_records _) as [collected|] eqn:C; [|discriminate].
  cbn [bind].
  destruct (mapM _ _) as [assigned|] eqn:M; [|discriminate].
  cbn [bind]. intros [= <-].
  exists collected, assigned. split; [reflexivity|]. split; [reflexivity|].
  apply mapM_Forall2 in M.
  apply Forall2_combine_seq in M. destruct M as [Hlen Hnth].
  assert (Hl : length (Double.sort (fun a b => (Double.SellerStat.profit b
                                                - Double.SellerStat.profit a)%float)
                                   collected) = length collected)
    by apply Permutation_length, sort64_perm.
  rewrite Hl in *. split; [exact Hlen|].
  intros i seller a Hs Ha. exact (Hnth i seller a Hs Ha).
Qed.

Section Identifiers64.

Variable sellerIndex : JsObject.t nat.
Variable productIndex : JsObject.t Double.Product.t.
Variable calculateRevenue : Double.RevenueFn.

Lemma collectItems64_ids (ref : nat) (items : list Double.Item.t) :
  forall sellerStats sellerStats',
  foldM (Double.collectItem productIndex calculateRevenue ref) items sellerStats
  = Ok sellerStats' ->
  map Double.SellerStat.sellerId sellerStats' = map Double.SellerStat.sellerId sellerStats.
Proof.
  induction items as [|item items IH]; intros sellerStats sellerStats'; cbn [foldM].
  - now intros [= <-].
  - destruct (Double.collectItem _ _ ref sellerStats item) as [mid|] eqn:E; [|discriminate].
    cbn [bind]. intro F. rewrite (IH _ _ F). clear F IH.
    unfold Double.collectItem in E.
    destruct (JsObject.get productIndex (Double.Item.sku item)) as [product|];
      [|now injection E as <-].
    destruct (calculateRevenue item product) as [revenue|]; [|discriminate].
    cbn [bind] in E. injection E as <-. now apply map_mutate.
Qed.

Lemma collectRecords64_ids (records : list Double.PurchaseRecord.t) :
  forall sellerStats sellerStats',
  foldM (Double.collectRecord sellerIndex productIndex calculateRevenue) records sellerStats
  = Ok sellerStats' ->
  map Double.SellerStat.sellerId sellerStats' = map Double.SellerStat.sellerId sellerStats.
Proof.
  induction records as [|record records IH]; intros sellerStats sellerStats'; cbn [foldM].
  - now intros [= <-].
  - destruct (Double.collectRecord _ _ _ sellerStats record) as [mid|] eqn:E; [|discriminate].
    cbn [bind]. intro F. rewrite (IH _ _ F). clear F IH.
    unfold Double.collectRecord in E.
    destruct (JsObject.get sellerIndex (Double.PurchaseRecord.seller_id record)) as [ref|];
      [|now injection E as <-].
    rewrite (collectItems64_ids _ _ _ _ E). now apply map_mutate.
Qed.

End Identifiers64.

(** The seller behind the report at rank [i] of [analyzeSalesData], when
    the sellers of the catalog have distinct identifiers: what the
    collecting loop left in it, and the bonus the strategy returned for
    it. *)
Lemma reports64_origin
    (data : js unit Double.Data.t unit) (options : js unit Double.Options.t unit)
    (reports : list Double.Report.t) (i : nat) (r : Double.Report.t) :
  Double.analyzeSalesData data options = Ok reports ->
  NoDup (map Seller.id (elements (prop data Double.Data.sellers))) ->
  nth_error reports i = Some r ->
  let mine := recordsOfSeller (Double.Report.seller_id r)
                              (elements (prop data Double.Data.purchase_records)) in
  exists seller profits bonus,
    Forall2 (lineProfit (elements (prop data Double.Data.products))
                        (Double.callRevenue (prop options Double.Options.calculateRevenue)))
            (filter (inCatalog (elements (prop data Double.Data.products)))
                    (flat_map Double.PurchaseRecord.items mine))
            profits
    /\ Double.SellerStat.profit seller = fold_left add profits 0%float
    /\ Double.callBonus (prop options Double.Options.calculateBonus)
         (Double.ASeller seller) (Double.ANumber (Z.of_nat i))
         (Double.ANumber (Z.of_nat (length (elements (prop data Double.Data.sellers)))))
       = Ok bonus
    /\ Double.Report.sales_count r = Z.of_nat (length mine)
    /\ Double.Report.revenue r
       = Double.toFixed2
           (Double.orZero
              (fold_left add (map Double.PurchaseRecord.total_amount mine) 0%float))
    /\ Double.Report.profit r
       = Double.toFixed2 (Double.orZero (fold_left add profits 0%float))
    /\ Double.Report.bonus r = Double.toFixed2 (Double.orZero bonus).
Proof.
  unfold Double.analyzeSalesData.
  destruct (Double.checkInput data options) as [[]|]; [|discriminate]. cbn [bind].
  intros H Hnd Hi. apply rankSellers64_stages in H.
  destruct H as (collected & assigned & C & -> & Hlen & Hnth).
  rewrite nth_error_map in Hi.
  destruct (nth_error assigned i) as [a|] eqn:Ha; [|discriminate].
  cbn [option_map] in Hi. injection Hi as <-.
  set (sorted := Double.sort (fun a b => (Double.SellerStat.profit b
                                          - Double.SellerStat.profit a)%float) collected)
    in *.
  assert (P : Permutation sorted collected) by apply sort64_perm.
  destruct (nth_error sorted i) as [seller|] eqn:Hs.
  2:{ apply nth_error_None in Hs. rewrite (Permutation_length P), <- Hlen in Hs.
      apply nth_error_None in Hs. congruence. }
  destruct (assignBonus64_fields _ _ _ _ _ (Hnth i seller a Hs Ha))
    as (Fid & Frev & Fprofit & Fcount & Fbonus).
  assert (Hc : In seller collected).
  { apply (Permutation_in _ P). eapply nth_error_In. exact Hs. }
  apply In_nth_error in Hc. destruct Hc as [j Hj].
  pose proof (collectRecords64_ids _ _ _ _ _ _ C) as Ids.
  assert (Hlen' : length collected = length (elements (prop data Double.Data.sellers))).
  { rewrite <- (length_map Double.SellerStat.sellerId collected), Ids, !length_map.
    reflexivity. }
  assert (Hinit : exists initial,
             nth_error (elements (prop data Double.Data.sellers)) j = Some initial).
  { destruct (nth_error (elements (prop data Double.Data.sellers)) j) as [x|] eqn:E;
      [now exists x|].
    apply nth_error_None in E. rewrite <- Hlen' in E.
    apply nth_error_None in E. congruence. }
  destruct Hinit as [initial Hinit].
  assert (H0 : nth_error (map Double.initialStat (elements (prop data Double.Data.sellers))) j
               = Some (Double.initialStat initial))
    by (rewrite nth_error_map, Hinit; reflexivity).
  destruct (collectRecords64_at _ _ _ j _ _ _ _ C H0)
    as (seller' & profits & N & I & Cn & R & A & Pf).
  rewrite Hj in N. injection N as <-.
  rewrite (refersTo64_recordsOfSeller _ j (Double.initialStat initial)) in Cn, R, A;
    try assumption.
  2,3,4: rewrite map_map; exact Hnd.
  cbn [Double.initialStat Double.SellerStat.sellerId Double.SellerStat.sales_count
       Double.SellerStat.revenue Double.SellerStat.profit] in I, Cn, R, A, Pf.
  cbv zeta.
  cbn [Double.report Double.Report.seller_id Double.Report.sales_count
       Double.Report.revenue Double.Report.profit Double.Report.bonus].
  rewrite Fid, Frev, Fprofit, Fcount, I.
  rewrite Hlen' in Fbonus.
  exists seller, profits, (Double.SellerStat.bonus a).
  split; [exact A|]. split; [exact Pf|]. split; [exact Fbonus|].
  split; [rewrite Cn; lia|]. split; [now rewrite R|]. split; [now rewrite Pf|reflexivity].
Qed.

(** For records of which no seller id and no sku names a member of
    [Object.prototype], and a catalog whose sellers have distinct
    identifiers: a report of [analyzeSalesData] counts the records that
    name its seller; its revenue is the sum of their total amounts, and
    its profit the sum, over their items whose sku is in the catalog, of
    what the revenue strategy returned less purchase price times
    quantity; each sum is added in binary64 from 0 in the order of the
    records and items, read as 0 when it is NaN, and rounded by
    [toFixed(2)]. *)
Theorem analyzeSalesData_binary64_figures
    (data : js unit Double.Data.t unit) (options : js unit Double.Options.t unit)
    (reports : list Double.Report.t) (r : Double.Report.t) :
  Double.analyzeSalesData data options = Ok reports ->
  plainRecords64 (elements (prop data Double.Data.purchase_records)) ->
  NoDup (map Seller.id (elements (prop data Double.Data.sellers))) ->
  In r reports ->
  let mine := recordsOfSeller (Double.Report.seller_id r)
                              (elements (prop data Double.Data.purchase_records)) in
  Double.Report.sales_count r = Z.of_nat (length mine)
  /\ Double.Report.revenue r
     = Double.toFixed2
         (Double.orZero
            (fold_left add (map Double.PurchaseRecord.total_amount mine) 0%float))
  /\ exists profits,
       Forall2 (lineProfit (elements (prop data Double.Data.products))
                           (Double.callRevenue (prop options Double.Options.calculateRevenue)))
               (filter (inCatalog (elements (prop data Double.Data.products)))
                       (flat_map Double.PurchaseRecord.items mine))
               profits
       /\ Double.Report.profit r
          = Double.toFixed2 (Double.orZero (fold_left add profits 0%float)).
Proof.
  intros H _ Hnd Hin. apply In_nth_error in Hin. destruct Hin as [i Hi].
  destruct (reports64_origin data options reports i r H Hnd Hi)
    as (seller & profits & bonus & A & _ & _ & Cn & R & Pf & _).
  cbv zeta. split; [exact Cn|]. split; [exact R|]. exists profits. auto.
Qed.

Lemma analyzeSalesData_binary64_figures_witness :
  exists reports first second,
    Double.analyzeSalesData roundedData correctedOptions64 = Ok reports
    /\ reports = [ first; second ]
    /\ Double.Report.seller_id first = "seller_2"
    /\ Double.Report.profit first = 119.06%float
    /\ Double.Report.seller_id second = "seller_1"
    /\ Double.Report.revenue second = 1%float
    /\ Double.Report.sales_count second = 1%Z
    /\ Double.Report.revenue second
       = Double.toFixed2
           (Double.orZero
              (fold_left add
                 (map Double.PurchaseRecord.total_amount
                      (recordsOfSeller "seller_1" roundedSales)) 0%float)).
Proof.
  destruct (Double.analyzeSalesData roundedData correctedOptions64) as [reports|] eqn:H;
    [|exfalso; vm_compute in H; discriminate H].
  assert (Hshape : exists first second, reports = [ first; second ]
                     /\ Double.Report.seller_id first = "seller_2"
                     /\ Double.Report.profit first = 119.06%float
                     /\ Double.Report.seller_id second = "seller_1"
                     /\ Double.Report.revenue second = 1%float).
  { vm_compute in H. injection H as <-. eexists. eexists. split; [reflexivity|].
    repeat split; reflexivity. }
  destruct Hshape as (first & second & E & I1 & P1 & I2 & R2).
  exists reports, first, second. split; [reflexivity|]. split; [exact E|].
  split; [exact I1|]. split; [exact P1|]. split; [exact I2|]. split; [exact R2|].
  assert (Hplain : plainRecords64
                     (elements (prop roundedData Double.Data.purchase_records)))
    by (apply plainRecords64_check; vm_compute; reflexivity).
  assert (Hnd : NoDup (map Seller.id (elements (prop roundedData Double.Data.sellers)))).
  { cbn. repeat constructor; cbn; intuition discriminate. }
  assert (Hin : In second reports) by (rewrite E; right; left; reflexivity).
  destruct (analyzeSalesData_binary64_figures roundedData correctedOptions64 reports second
              H Hplain Hnd Hin) as (Hc & Hr & _).
  rewrite I2 in Hc, Hr. split; [exact Hc|exact Hr].
Defined.

(** ** The bonus by rank *)

(** At an index of [forEach] the reference strategy, taking its arguments
    in the order it declares them, pays 0.15 of the profit to the first,
    0.1 to the next two and 0.05 to all others: the branch of an index of
    -1 is not reached. *)
Lemma bonusByProfitAsCalled64_rate (seller : Double.SellerStat.t) (index : nat)
    (total : Double.argument) :
  bonusByProfitAsCalled64 (Double.ASeller seller) (Double.ANumber (Z.of_nat index)) total
  = Ok (Double.SellerStat.profit seller * rateAt64 index)%float.
Proof.
  unfold bonusByProfitAsCalled64, Double.calculateBonusByProfit, Double.strictEquals.
  destruct index as [|[|[|index]]]; try reflexivity.
  destruct (Z.eqb_spec (Z.of_nat (S (S (S index)))) 0); [lia|].
  destruct (Z.eqb_spec (Z.of_nat (S (S (S index)))) 1); [lia|].
  destruct (Z.eqb_spec (Z.of_nat (S (S (S index)))) 2); [lia|].
  destruct (Z.eqb_spec (Z.of_nat (S (S (S index)))) (-1)); [lia|].
  reflexivity.
Qed.

(** For records of which no seller id and no sku names a member of
    [Object.prototype], and a catalog whose sellers have distinct
    identifiers: with the reference bonus strategy given its arguments in
    the order it declares them, the report at rank [i] carries the bonus
    of that rank, the product in binary64 of the seller's profit and 0.15
    at the top, 0.1 at the next two ranks and 0.05 at every later one, the
    last included, read as 0 when it is NaN and rounded by [toFixed(2)];
    the profit is the sum behind the profit of the report, the sum in
    binary64 of the profits of the seller's item lines. *)
Theorem analyzeSalesData_binary64_bonus_by_rank
    (data : js unit Double.Data.t unit) (o : Double.Options.t)
    (reports : list Double.Report.t) :
  Double.Options.calculateBonus o = JFunction bonusByProfitAsCalled64 ->
  Double.analyzeSalesData data (JObject o) = Ok reports ->
  plainRecords64 (elements (prop data Double.Data.purchase_records)) ->
  NoDup (map Seller.id (elements (prop data Double.Data.sellers))) ->
  forall i r,
    nth_error reports i = Some r ->
    exists profits,
      Forall2 (lineProfit (elements (prop data Double.Data.products))
                          (Double.callRevenue (Double.Options.calculateRevenue o)))
              (filter (inCatalog (elements (prop data Double.Data.products)))
                      (flat_map Double.PurchaseRecord.items
                                (recordsOfSeller
                                   (Double.Report.seller_id r)
                                   (elements (prop data Double.Data.purchase_records)))))
              profits
      /\ Double.Report.profit r
         = Double.toFixed2 (Double.orZero (fold_left add profits 0%float))
      /\ Double.Report.bonus r
         = Double.toFixed2
             (Double.orZero (fold_left add profits 0 * rateAt64 i)%float).
Proof.
  intros Hbonus H _ Hnd i r Hi.
  destruct (reports64_origin data (JObject o) reports i r H Hnd Hi)
    as (seller & profits & bonus & A & Pf & B & _ & _ & Hp & Hb).
  cbn [prop] in A, B. rewrite Hbonus in B. cbn [Double.callBonus] in B.
  rewrite bonusByProfitAsCalled64_rate in B. injection B as <-.
  exists profits. split; [exact A|]. split; [exact Hp|]. now rewrite Hb, Pf.
Qed.

Lemma analyzeSalesData_binary64_bonus_by_rank_witness :
  exists reports,
    Double.analyzeSalesData roundedData correctedOptions64 = Ok reports
    /\ map Double.Report.profit reports = [ 119.06; 0.1 ]%float
    /\ map Double.Report.bonus reports = [ 17.86; 0.01 ]%float
    /\ forall i r,
         nth_error reports i = Some r ->
         exists profits,
           Double.Report.profit r
           = Double.toFixed2 (Double.orZero (fold_left add profits 0%float))
           /\ Double.Report.bonus r
              = Double.toFixed2
                  (Double.orZero (fold_left add profits 0 * rateAt64 i)%float).
Proof.
  destruct (Double.analyzeSalesData roundedData correctedOptions64) as [reports|] eqn:H;
    [|exfalso; vm_compute in H; discriminate H].
  exists reports. split; [reflexivity|].
  assert (Hplain : plainRecords64
                     (elements (prop roundedData Double.Data.purchase_records)))
    by (apply plainRecords64_check; vm_compute; reflexivity).
  assert (Hnd : NoDup (map Seller.id (elements (prop roundedData Double.Data.sellers)))).
  { cbn. repeat constructor; cbn; intuition discriminate. }
  pose proof (analyzeSalesData_binary64_bonus_by_rank roundedData
                {| Double.Options.calculateRevenue := JFunction Double.calculateSimpleRevenue;
                   Double.Options.calculateBonus := JFunction bonusByProfitAsCalled64 |}
                reports eq_refl H Hplain Hnd) as B.
  split; [vm_compute in H; injection H as <-; reflexivity|].
  split; [vm_compute in H; injection H as <-; reflexivity|].
  intros i r Hi. destruct (B i r Hi) as (profits & _ & Hp & Hb). exists profits. auto.
Defined.
